(** * The tracee-ebpf event schema and the init-namespaces event

    A shallow embedding of the schema layer of tracee-ebpf (Go package
    [tracee]): the constant enumerations shared with the eBPF side, the event
    registry [EventsIDToEvent], the argument schema table [EventsIDToParams]
    and the user-mode event built by [CreateInitNamespacesEvent].

    Go values are modelled as follows: [uint32], [int32], [int] and [uint64]
    as [Z] with the wrap-around of a conversion written out, [string] as
    [string] (a sequence of bytes), slices as lists, a [map] as a [gmap], a
    call that returns [(value, error)] as a pair whose second component is
    [None] for a [nil] error. *)

From Stdlib Require Import ZArith Ascii String List Lia.
From stdpp Require Import base decidable option list gmap strings fin_maps.

Local Open Scope string_scope.
Local Open Scope list_scope.
Local Open Scope Z_scope.

(** ** Constant blocks declared with [iota] *)

(** In a Go block [const ( a T = iota + base; b; c; ... )] the expression is
    repeated for every following name and [iota] is the position of the name
    in the block, starting at 0. *)
Definition iota_block {A : Type} (base : Z) (names : list A) : list (A * Z) :=
  imap (λ iota a, (a, Z.of_nat iota + base)) names.

(** Value of a constant of a block (0 for a name the block does not declare). *)
Fixpoint const_value {A : Type} `{EqDecision A} (blk : list (A * Z)) (a : A) : Z :=
  match blk with
  | [] => 0
  | (b, v) :: blk' => if decide (b = a) then v else const_value blk' a
  end.

(** *** Scalar configuration slots: [type bpfConfig uint32] *)

Inductive bpfConfigName : Set :=
  | configDetectOrigSyscall
  | configExecEnv
  | configCaptureFiles
  | configExtractDynCode
  | configTraceePid
  | configStackAddresses
  | configUIDFilter
  | configMntNsFilter
  | configPidNsFilter
  | configUTSNsFilter
  | configCommFilter
  | configPidFilter
  | configContFilter
  | configFollowFilter
  | configNewPidFilter
  | configNewContFilter
  | configDebugNet
  | configProcTreeFilter
  | configCaptureModules
  | configCgroupV1.

#[global] Instance bpfConfigName_eq_dec : EqDecision bpfConfigName.
Proof. solve_decision. Defined.

(** The names of the block, in declaration order. *)
Definition bpfConfig_names : list bpfConfigName :=
  [ configDetectOrigSyscall; configExecEnv; configCaptureFiles;
    configExtractDynCode; configTraceePid; configStackAddresses;
    configUIDFilter; configMntNsFilter; configPidNsFilter; configUTSNsFilter;
    configCommFilter; configPidFilter; configContFilter; configFollowFilter;
    configNewPidFilter; configNewContFilter; configDebugNet;
    configProcTreeFilter; configCaptureModules; configCgroupV1 ].

(** [configDetectOrigSyscall bpfConfig = iota + 1] and the names after it. *)
Definition bpfConfig_block : list (bpfConfigName * Z) :=
  iota_block 1 bpfConfig_names.

Definition bpfConfig (c : bpfConfigName) : Z := const_value bpfConfig_block c.

(** *** Tail-call indexes: [tailVfsWrite uint32 = iota] *)

Inductive tailName : Set :=
  | tailVfsWrite
  | tailVfsWritev
  | tailSendBin
  | tailSendBinTP.

#[global] Instance tailName_eq_dec : EqDecision tailName.
Proof. solve_decision. Defined.

Definition tail_names : list tailName :=
  [ tailVfsWrite; tailVfsWritev; tailSendBin; tailSendBinTP ].

Definition tail_block : list (tailName * Z) := iota_block 0 tail_names.

Definition tailIndex (t : tailName) : Z := const_value tail_block t.

(** *** Attachment mechanisms: [type probeType uint8] *)

Inductive probeType : Set :=
  | sysCall
  | kprobe
  | kretprobe
  | tracepoint
  | rawTracepoint.

#[global] Instance probeType_eq_dec : EqDecision probeType.
Proof. solve_decision. Defined.

(** ** Event identifiers

    An event identifier is an [int32] constant.  The identifiers of the
    non-syscall events and of the user-space event are declared in this file
    ([iota + 1000] and [iota + 2000]); the identifiers of the syscall events
    ([ReadEventID], ...) and the 32-bit compatibility numbers ([sys32read],
    ..., [sys32undefined]) are declared per architecture in a companion file.
    Both tables below are Go map literals keyed by these constants, and a map
    literal with two equal constant keys does not compile: distinct constants
    of the tables denote distinct keys.  The tables are therefore keyed by
    the constants themselves. *)

Inductive EventID : Set :=
  (* syscall events, declared per architecture *)
  | ReadEventID | WriteEventID | OpenEventID | CloseEventID | StatEventID
  | FstatEventID | LstatEventID | PollEventID | LseekEventID | MmapEventID
  | MprotectEventID | MunmapEventID | BrkEventID | RtSigactionEventID
  | RtSigprocmaskEventID | RtSigreturnEventID | IoctlEventID | Pread64EventID
  | Pwrite64EventID | ReadvEventID | WritevEventID | AccessEventID
  | PipeEventID | SelectEventID | SchedYieldEventID | MremapEventID
  | MsyncEventID | MincoreEventID | MadviseEventID | ShmgetEventID
  | ShmatEventID | ShmctlEventID | DupEventID | Dup2EventID | PauseEventID
  | NanosleepEventID | GetitimerEventID | AlarmEventID | SetitimerEventID
  | GetpidEventID | SendfileEventID | SocketEventID | ConnectEventID
  | AcceptEventID | SendtoEventID | RecvfromEventID | SendmsgEventID
  | RecvmsgEventID | ShutdownEventID | BindEventID | ListenEventID
  | GetsocknameEventID | GetpeernameEventID | SocketpairEventID
  | SetsockoptEventID | GetsockoptEventID | CloneEventID | ForkEventID
  | VforkEventID | ExecveEventID | ExitEventID | Wait4EventID | KillEventID
  | UnameEventID | SemgetEventID | SemopEventID | SemctlEventID | ShmdtEventID
  | MsggetEventID | MsgsndEventID | MsgrcvEventID | MsgctlEventID
  | FcntlEventID | FlockEventID | FsyncEventID | FdatasyncEventID
  | TruncateEventID | FtruncateEventID | GetdentsEventID | GetcwdEventID
  | ChdirEventID | FchdirEventID | RenameEventID | MkdirEventID | RmdirEventID
  | CreatEventID | LinkEventID | UnlinkEventID | SymlinkEventID
  | ReadlinkEventID | ChmodEventID | FchmodEventID | ChownEventID
  | FchownEventID | LchownEventID | UmaskEventID | GettimeofdayEventID
  | GetrlimitEventID | GetrusageEventID | SysinfoEventID | TimesEventID
  | PtraceEventID | GetuidEventID | SyslogEventID | GetgidEventID
  | SetuidEventID | SetgidEventID | GeteuidEventID | GetegidEventID
  | SetpgidEventID | GetppidEventID | GetpgrpEventID | SetsidEventID
  | SetreuidEventID | SetregidEventID | GetgroupsEventID | SetgroupsEventID
  | SetresuidEventID | GetresuidEventID | SetresgidEventID | GetresgidEventID
  | GetpgidEventID | SetfsuidEventID | SetfsgidEventID | GetsidEventID
  | CapgetEventID | CapsetEventID | RtSigpendingEventID
  | RtSigtimedwaitEventID | RtSigqueueinfoEventID | RtSigsuspendEventID
  | SigaltstackEventID | UtimeEventID | MknodEventID | UselibEventID
  | PersonalityEventID | UstatEventID | StatfsEventID | FstatfsEventID
  | SysfsEventID | GetpriorityEventID | SetpriorityEventID
  | SchedSetparamEventID | SchedGetparamEventID | SchedSetschedulerEventID
  | SchedGetschedulerEventID | SchedGetPriorityMaxEventID
  | SchedGetPriorityMinEventID | SchedRrGetIntervalEventID | MlockEventID
  | MunlockEventID | MlockallEventID | MunlockallEventID | VhangupEventID
  | ModifyLdtEventID | PivotRootEventID | SysctlEventID | PrctlEventID
  | ArchPrctlEventID | AdjtimexEventID | SetrlimitEventID | ChrootEventID
  | SyncEventID | AcctEventID | SettimeofdayEventID | MountEventID
  | UmountEventID | SwaponEventID | SwapoffEventID | RebootEventID
  | SethostnameEventID | SetdomainnameEventID | IoplEventID | IopermEventID
  | CreateModuleEventID | InitModuleEventID | DeleteModuleEventID
  | GetKernelSymsEventID | QueryModuleEventID | QuotactlEventID
  | NfsservctlEventID | GetpmsgEventID | PutpmsgEventID | AfsEventID
  | TuxcallEventID | SecurityEventID | GettidEventID | ReadaheadEventID
  | SetxattrEventID | LsetxattrEventID | FsetxattrEventID | GetxattrEventID
  | LgetxattrEventID | FgetxattrEventID | ListxattrEventID | LlistxattrEventID
  | FlistxattrEventID | RemovexattrEventID | LremovexattrEventID
  | FremovexattrEventID | TkillEventID | TimeEventID | FutexEventID
  | SchedSetaffinityEventID | SchedGetaffinityEventID | SetThreadAreaEventID
  | IoSetupEventID | IoDestroyEventID | IoGeteventsEventID | IoSubmitEventID
  | IoCancelEventID | GetThreadAreaEventID | LookupDcookieEventID
  | EpollCreateEventID | EpollCtlOldEventID | EpollWaitOldEventID
  | RemapFilePagesEventID | Getdents64EventID | SetTidAddressEventID
  | RestartSyscallEventID | SemtimedopEventID | Fadvise64EventID
  | TimerCreateEventID | TimerSettimeEventID | TimerGettimeEventID
  | TimerGetoverrunEventID | TimerDeleteEventID | ClockSettimeEventID
  | ClockGettimeEventID | ClockGetresEventID | ClockNanosleepEventID
  | ExitGroupEventID | EpollWaitEventID | EpollCtlEventID | TgkillEventID
  | UtimesEventID | VserverEventID | MbindEventID | SetMempolicyEventID
  | GetMempolicyEventID | MqOpenEventID | MqUnlinkEventID | MqTimedsendEventID
  | MqTimedreceiveEventID | MqNotifyEventID | MqGetsetattrEventID
  | KexecLoadEventID | WaitidEventID | AddKeyEventID | RequestKeyEventID
  | KeyctlEventID | IoprioSetEventID | IoprioGetEventID | InotifyInitEventID
  | InotifyAddWatchEventID | InotifyRmWatchEventID | MigratePagesEventID
  | OpenatEventID | MkdiratEventID | MknodatEventID | FchownatEventID
  | FutimesatEventID | NewfstatatEventID | UnlinkatEventID | RenameatEventID
  | LinkatEventID | SymlinkatEventID | ReadlinkatEventID | FchmodatEventID
  | FaccessatEventID | Pselect6EventID | PpollEventID | UnshareEventID
  | SetRobustListEventID | GetRobustListEventID | SpliceEventID | TeeEventID
  | SyncFileRangeEventID | VmspliceEventID | MovePagesEventID
  | UtimensatEventID | EpollPwaitEventID | SignalfdEventID
  | TimerfdCreateEventID | EventfdEventID | FallocateEventID
  | TimerfdSettimeEventID | TimerfdGettimeEventID | Accept4EventID
  | Signalfd4EventID | Eventfd2EventID | EpollCreate1EventID | Dup3EventID
  | Pipe2EventID | InotifyInit1EventID | PreadvEventID | PwritevEventID
  | RtTgsigqueueinfoEventID | PerfEventOpenEventID | RecvmmsgEventID
  | FanotifyInitEventID | FanotifyMarkEventID | Prlimit64EventID
  | NameToHandleAtEventID | OpenByHandleAtEventID | ClockAdjtimeEventID
  | SyncfsEventID | SendmmsgEventID | SetnsEventID | GetcpuEventID
  | ProcessVmReadvEventID | ProcessVmWritevEventID | KcmpEventID
  | FinitModuleEventID | SchedSetattrEventID | SchedGetattrEventID
  | Renameat2EventID | SeccompEventID | GetrandomEventID | MemfdCreateEventID
  | KexecFileLoadEventID | BpfEventID | ExecveatEventID | UserfaultfdEventID
  | MembarrierEventID | Mlock2EventID | CopyFileRangeEventID | Preadv2EventID
  | Pwritev2EventID | PkeyMprotectEventID | PkeyAllocEventID | PkeyFreeEventID
  | StatxEventID | IoPgeteventsEventID | RseqEventID | PidfdSendSignalEventID
  | IoUringSetupEventID | IoUringEnterEventID | IoUringRegisterEventID
  | OpenTreeEventID | MoveMountEventID | FsopenEventID | FsconfigEventID
  | FsmountEventID | FspickEventID | PidfdOpenEventID | Clone3EventID
  | CloseRangeEventID | Openat2EventID | PidfdGetfdEventID | Faccessat2EventID
  | ProcessMadviseEventID | EpollPwait2EventID
  (* non syscall events (used by all architectures): iota + 1000 *)
  | SysEnterEventID | SysExitEventID | SchedProcessForkEventID
  | SchedProcessExecEventID | SchedProcessExitEventID | SchedSwitchEventID
  | DoExitEventID | CapCapableEventID | VfsWriteEventID | VfsWritevEventID
  | MemProtAlertEventID | CommitCredsEventID | SwitchTaskNSEventID
  | MagicWriteEventID | CgroupAttachTaskEventID | CgroupMkdirEventID
  | CgroupRmdirEventID | SecurityBprmCheckEventID | SecurityFileOpenEventID
  | SecurityInodeUnlinkEventID | SecuritySocketCreateEventID
  | SecuritySocketListenEventID | SecuritySocketConnectEventID
  | SecuritySocketAcceptEventID | SecuritySocketBindEventID
  | SecuritySbMountEventID | SecurityBPFEventID | SecurityBPFMapEventID
  | SecurityKernelReadFileEventID | SecurityInodeMknodEventID
  | SecurityPostReadFileEventID | SocketDupEventID | MaxEventID
  (* events originated from user-space: iota + 2000 *)
  | InitNamespacesEventID.

(** Every constant, in the order of the declaration above. *)
Definition EventID_all : list EventID :=
  [
    ReadEventID; WriteEventID; OpenEventID; CloseEventID; StatEventID;
    FstatEventID; LstatEventID; PollEventID; LseekEventID; MmapEventID;
    MprotectEventID; MunmapEventID; BrkEventID; RtSigactionEventID;
    RtSigprocmaskEventID; RtSigreturnEventID; IoctlEventID; Pread64EventID;
    Pwrite64EventID; ReadvEventID; WritevEventID; AccessEventID; PipeEventID;
    SelectEventID; SchedYieldEventID; MremapEventID; MsyncEventID;
    MincoreEventID; MadviseEventID; ShmgetEventID; ShmatEventID;
    ShmctlEventID; DupEventID; Dup2EventID; PauseEventID; NanosleepEventID;
    GetitimerEventID; AlarmEventID; SetitimerEventID; GetpidEventID;
    SendfileEventID; SocketEventID; ConnectEventID; AcceptEventID;
    SendtoEventID; RecvfromEventID; SendmsgEventID; RecvmsgEventID;
    ShutdownEventID; BindEventID; ListenEventID; GetsocknameEventID;
    GetpeernameEventID; SocketpairEventID; SetsockoptEventID;
    GetsockoptEventID; CloneEventID; ForkEventID; VforkEventID; ExecveEventID;
    ExitEventID; Wait4EventID; KillEventID; UnameEventID; SemgetEventID;
    SemopEventID; SemctlEventID; ShmdtEventID; MsggetEventID; MsgsndEventID;
    MsgrcvEventID; MsgctlEventID; FcntlEventID; FlockEventID; FsyncEventID;
    FdatasyncEventID; TruncateEventID; FtruncateEventID; GetdentsEventID;
    GetcwdEventID; ChdirEventID; FchdirEventID; RenameEventID; MkdirEventID;
    RmdirEventID; CreatEventID; LinkEventID; UnlinkEventID; SymlinkEventID;
    ReadlinkEventID; ChmodEventID; FchmodEventID; ChownEventID; FchownEventID;
    LchownEventID; UmaskEventID; GettimeofdayEventID; GetrlimitEventID;
    GetrusageEventID; SysinfoEventID; TimesEventID; PtraceEventID;
    GetuidEventID; SyslogEventID; GetgidEventID; SetuidEventID; SetgidEventID;
    GeteuidEventID; GetegidEventID; SetpgidEventID; GetppidEventID;
    GetpgrpEventID; SetsidEventID; SetreuidEventID; SetregidEventID;
    GetgroupsEventID; SetgroupsEventID; SetresuidEventID; GetresuidEventID;
    SetresgidEventID; GetresgidEventID; GetpgidEventID; SetfsuidEventID;
    SetfsgidEventID; GetsidEventID; CapgetEventID; CapsetEventID;
    RtSigpendingEventID; RtSigtimedwaitEventID; RtSigqueueinfoEventID;
    RtSigsuspendEventID; SigaltstackEventID; UtimeEventID; MknodEventID;
    UselibEventID; PersonalityEventID; UstatEventID; StatfsEventID;
    FstatfsEventID; SysfsEventID; GetpriorityEventID; SetpriorityEventID;
    SchedSetparamEventID; SchedGetparamEventID; SchedSetschedulerEventID;
    SchedGetschedulerEventID; SchedGetPriorityMaxEventID;
    SchedGetPriorityMinEventID; SchedRrGetIntervalEventID; MlockEventID;
    MunlockEventID; MlockallEventID; MunlockallEventID; VhangupEventID;
    ModifyLdtEventID; PivotRootEventID; SysctlEventID; PrctlEventID;
    ArchPrctlEventID; AdjtimexEventID; SetrlimitEventID; ChrootEventID;
    SyncEventID; AcctEventID; SettimeofdayEventID; MountEventID;
    UmountEventID; SwaponEventID; SwapoffEventID; RebootEventID;
    SethostnameEventID; SetdomainnameEventID; IoplEventID; IopermEventID;
    CreateModuleEventID; InitModuleEventID; DeleteModuleEventID;
    GetKernelSymsEventID; QueryModuleEventID; QuotactlEventID;
    NfsservctlEventID; GetpmsgEventID; PutpmsgEventID; AfsEventID;
    TuxcallEventID; SecurityEventID; GettidEventID; ReadaheadEventID;
    SetxattrEventID; LsetxattrEventID; FsetxattrEventID; GetxattrEventID;
    LgetxattrEventID; FgetxattrEventID; ListxattrEventID; LlistxattrEventID;
    FlistxattrEventID; RemovexattrEventID; LremovexattrEventID;
    FremovexattrEventID; TkillEventID; TimeEventID; FutexEventID;
    SchedSetaffinityEventID; SchedGetaffinityEventID; SetThreadAreaEventID;
    IoSetupEventID; IoDestroyEventID; IoGeteventsEventID; IoSubmitEventID;
    IoCancelEventID; GetThreadAreaEventID; LookupDcookieEventID;
    EpollCreateEventID; EpollCtlOldEventID; EpollWaitOldEventID;
    RemapFilePagesEventID; Getdents64EventID; SetTidAddressEventID;
    RestartSyscallEventID; SemtimedopEventID; Fadvise64EventID;
    TimerCreateEventID; TimerSettimeEventID; TimerGettimeEventID;
    TimerGetoverrunEventID; TimerDeleteEventID; ClockSettimeEventID;
    ClockGettimeEventID; ClockGetresEventID; ClockNanosleepEventID;
    ExitGroupEventID; EpollWaitEventID; EpollCtlEventID; TgkillEventID;
    UtimesEventID; VserverEventID; MbindEventID; SetMempolicyEventID;
    GetMempolicyEventID; MqOpenEventID; MqUnlinkEventID; MqTimedsendEventID;
    MqTimedreceiveEventID; MqNotifyEventID; MqGetsetattrEventID;
    KexecLoadEventID; WaitidEventID; AddKeyEventID; RequestKeyEventID;
    KeyctlEventID; IoprioSetEventID; IoprioGetEventID; InotifyInitEventID;
    InotifyAddWatchEventID; InotifyRmWatchEventID; MigratePagesEventID;
    OpenatEventID; MkdiratEventID; MknodatEventID; FchownatEventID;
    FutimesatEventID; NewfstatatEventID; UnlinkatEventID; RenameatEventID;
    LinkatEventID; SymlinkatEventID; ReadlinkatEventID; FchmodatEventID;
    FaccessatEventID; Pselect6EventID; PpollEventID; UnshareEventID;
    SetRobustListEventID; GetRobustListEventID; SpliceEventID; TeeEventID;
    SyncFileRangeEventID; VmspliceEventID; MovePagesEventID; UtimensatEventID;
    EpollPwaitEventID; SignalfdEventID; TimerfdCreateEventID; EventfdEventID;
    FallocateEventID; TimerfdSettimeEventID; TimerfdGettimeEventID;
    Accept4EventID; Signalfd4EventID; Eventfd2EventID; EpollCreate1EventID;
    Dup3EventID; Pipe2EventID; InotifyInit1EventID; PreadvEventID;
    PwritevEventID; RtTgsigqueueinfoEventID; PerfEventOpenEventID;
    RecvmmsgEventID; FanotifyInitEventID; FanotifyMarkEventID;
    Prlimit64EventID; NameToHandleAtEventID; OpenByHandleAtEventID;
    ClockAdjtimeEventID; SyncfsEventID; SendmmsgEventID; SetnsEventID;
    GetcpuEventID; ProcessVmReadvEventID; ProcessVmWritevEventID; KcmpEventID;
    FinitModuleEventID; SchedSetattrEventID; SchedGetattrEventID;
    Renameat2EventID; SeccompEventID; GetrandomEventID; MemfdCreateEventID;
    KexecFileLoadEventID; BpfEventID; ExecveatEventID; UserfaultfdEventID;
    MembarrierEventID; Mlock2EventID; CopyFileRangeEventID; Preadv2EventID;
    Pwritev2EventID; PkeyMprotectEventID; PkeyAllocEventID; PkeyFreeEventID;
    StatxEventID; IoPgeteventsEventID; RseqEventID; PidfdSendSignalEventID;
    IoUringSetupEventID; IoUringEnterEventID; IoUringRegisterEventID;
    OpenTreeEventID; MoveMountEventID; FsopenEventID; FsconfigEventID;
    FsmountEventID; FspickEventID; PidfdOpenEventID; Clone3EventID;
    CloseRangeEventID; Openat2EventID; PidfdGetfdEventID; Faccessat2EventID;
    ProcessMadviseEventID; EpollPwait2EventID; SysEnterEventID;
    SysExitEventID; SchedProcessForkEventID; SchedProcessExecEventID;
    SchedProcessExitEventID; SchedSwitchEventID; DoExitEventID;
    CapCapableEventID; VfsWriteEventID; VfsWritevEventID; MemProtAlertEventID;
    CommitCredsEventID; SwitchTaskNSEventID; MagicWriteEventID;
    CgroupAttachTaskEventID; CgroupMkdirEventID; CgroupRmdirEventID;
    SecurityBprmCheckEventID; SecurityFileOpenEventID;
    SecurityInodeUnlinkEventID; SecuritySocketCreateEventID;
    SecuritySocketListenEventID; SecuritySocketConnectEventID;
    SecuritySocketAcceptEventID; SecuritySocketBindEventID;
    SecuritySbMountEventID; SecurityBPFEventID; SecurityBPFMapEventID;
    SecurityKernelReadFileEventID; SecurityInodeMknodEventID;
    SecurityPostReadFileEventID; SocketDupEventID; MaxEventID;
    InitNamespacesEventID ].

(** Position of a constant in [EventID_all], counted from 1. *)
Definition EventID_index (e : EventID) : positive :=
  match e with
  | ReadEventID => 1 | WriteEventID => 2 | OpenEventID => 3
  | CloseEventID => 4 | StatEventID => 5 | FstatEventID => 6
  | LstatEventID => 7 | PollEventID => 8 | LseekEventID => 9
  | MmapEventID => 10 | MprotectEventID => 11 | MunmapEventID => 12
  | BrkEventID => 13 | RtSigactionEventID => 14 | RtSigprocmaskEventID => 15
  | RtSigreturnEventID => 16 | IoctlEventID => 17 | Pread64EventID => 18
  | Pwrite64EventID => 19 | ReadvEventID => 20 | WritevEventID => 21
  | AccessEventID => 22 | PipeEventID => 23 | SelectEventID => 24
  | SchedYieldEventID => 25 | MremapEventID => 26 | MsyncEventID => 27
  | MincoreEventID => 28 | MadviseEventID => 29 | ShmgetEventID => 30
  | ShmatEventID => 31 | ShmctlEventID => 32 | DupEventID => 33
  | Dup2EventID => 34 | PauseEventID => 35 | NanosleepEventID => 36
  | GetitimerEventID => 37 | AlarmEventID => 38 | SetitimerEventID => 39
  | GetpidEventID => 40 | SendfileEventID => 41 | SocketEventID => 42
  | ConnectEventID => 43 | AcceptEventID => 44 | SendtoEventID => 45
  | RecvfromEventID => 46 | SendmsgEventID => 47 | RecvmsgEventID => 48
  | ShutdownEventID => 49 | BindEventID => 50 | ListenEventID => 51
  | GetsocknameEventID => 52 | GetpeernameEventID => 53
  | SocketpairEventID => 54 | SetsockoptEventID => 55
  | GetsockoptEventID => 56 | CloneEventID => 57 | ForkEventID => 58
  | VforkEventID => 59 | ExecveEventID => 60 | ExitEventID => 61
  | Wait4EventID => 62 | KillEventID => 63 | UnameEventID => 64
  | SemgetEventID => 65 | SemopEventID => 66 | SemctlEventID => 67
  | ShmdtEventID => 68 | MsggetEventID => 69 | MsgsndEventID => 70
  | MsgrcvEventID => 71 | MsgctlEventID => 72 | FcntlEventID => 73
  | FlockEventID => 74 | FsyncEventID => 75 | FdatasyncEventID => 76
  | TruncateEventID => 77 | FtruncateEventID => 78 | GetdentsEventID => 79
  | GetcwdEventID => 80 | ChdirEventID => 81 | FchdirEventID => 82
  | RenameEventID => 83 | MkdirEventID => 84 | RmdirEventID => 85
  | CreatEventID => 86 | LinkEventID => 87 | UnlinkEventID => 88
  | SymlinkEventID => 89 | ReadlinkEventID => 90 | ChmodEventID => 91
  | FchmodEventID => 92 | ChownEventID => 93 | FchownEventID => 94
  | LchownEventID => 95 | UmaskEventID => 96 | GettimeofdayEventID => 97
  | GetrlimitEventID => 98 | GetrusageEventID => 99 | SysinfoEventID => 100
  | TimesEventID => 101 | PtraceEventID => 102 | GetuidEventID => 103
  | SyslogEventID => 104 | GetgidEventID => 105 | SetuidEventID => 106
  | SetgidEventID => 107 | GeteuidEventID => 108 | GetegidEventID => 109
  | SetpgidEventID => 110 | GetppidEventID => 111 | GetpgrpEventID => 112
  | SetsidEventID => 113 | SetreuidEventID => 114 | SetregidEventID => 115
  | GetgroupsEventID => 116 | SetgroupsEventID => 117
  | SetresuidEventID => 118 | GetresuidEventID => 119
  | SetresgidEventID => 120 | GetresgidEventID => 121 | GetpgidEventID => 122
  | SetfsuidEventID => 123 | SetfsgidEventID => 124 | GetsidEventID => 125
  | CapgetEventID => 126 | CapsetEventID => 127 | RtSigpendingEventID => 128
  | RtSigtimedwaitEventID => 129 | RtSigqueueinfoEventID => 130
  | RtSigsuspendEventID => 131 | SigaltstackEventID => 132
  | UtimeEventID => 133 | MknodEventID => 134 | UselibEventID => 135
  | PersonalityEventID => 136 | UstatEventID => 137 | StatfsEventID => 138
  | FstatfsEventID => 139 | SysfsEventID => 140 | GetpriorityEventID => 141
  | SetpriorityEventID => 142 | SchedSetparamEventID => 143
  | SchedGetparamEventID => 144 | SchedSetschedulerEventID => 145
  | SchedGetschedulerEventID => 146 | SchedGetPriorityMaxEventID => 147
  | SchedGetPriorityMinEventID => 148 | SchedRrGetIntervalEventID => 149
  | MlockEventID => 150 | MunlockEventID => 151 | MlockallEventID => 152
  | MunlockallEventID => 153 | VhangupEventID => 154 | ModifyLdtEventID => 155
  | PivotRootEventID => 156 | SysctlEventID => 157 | PrctlEventID => 158
  | ArchPrctlEventID => 159 | AdjtimexEventID => 160 | SetrlimitEventID => 161
  | ChrootEventID => 162 | SyncEventID => 163 | AcctEventID => 164
  | SettimeofdayEventID => 165 | MountEventID => 166 | UmountEventID => 167
  | SwaponEventID => 168 | SwapoffEventID => 169 | RebootEventID => 170
  | SethostnameEventID => 171 | SetdomainnameEventID => 172
  | IoplEventID => 173 | IopermEventID => 174 | CreateModuleEventID => 175
  | InitModuleEventID => 176 | DeleteModuleEventID => 177
  | GetKernelSymsEventID => 178 | QueryModuleEventID => 179
  | QuotactlEventID => 180 | NfsservctlEventID => 181 | GetpmsgEventID => 182
  | PutpmsgEventID => 183 | AfsEventID => 184 | TuxcallEventID => 185
  | SecurityEventID => 186 | GettidEventID => 187 | ReadaheadEventID => 188
  | SetxattrEventID => 189 | LsetxattrEventID => 190 | FsetxattrEventID => 191
  | GetxattrEventID => 192 | LgetxattrEventID => 193 | FgetxattrEventID => 194
  | ListxattrEventID => 195 | LlistxattrEventID => 196
  | FlistxattrEventID => 197 | RemovexattrEventID => 198
  | LremovexattrEventID => 199 | FremovexattrEventID => 200
  | TkillEventID => 201 | TimeEventID => 202 | FutexEventID => 203
  | SchedSetaffinityEventID => 204 | SchedGetaffinityEventID => 205
  | SetThreadAreaEventID => 206 | IoSetupEventID => 207
  | IoDestroyEventID => 208 | IoGeteventsEventID => 209
  | IoSubmitEventID => 210 | IoCancelEventID => 211
  | GetThreadAreaEventID => 212 | LookupDcookieEventID => 213
  | EpollCreateEventID => 214 | EpollCtlOldEventID => 215
  | EpollWaitOldEventID => 216 | RemapFilePagesEventID => 217
  | Getdents64EventID => 218 | SetTidAddressEventID => 219
  | RestartSyscallEventID => 220 | SemtimedopEventID => 221
  | Fadvise64EventID => 222 | TimerCreateEventID => 223
  | TimerSettimeEventID => 224 | TimerGettimeEventID => 225
  | TimerGetoverrunEventID => 226 | TimerDeleteEventID => 227
  | ClockSettimeEventID => 228 | ClockGettimeEventID => 229
  | ClockGetresEventID => 230 | ClockNanosleepEventID => 231
  | ExitGroupEventID => 232 | EpollWaitEventID => 233 | EpollCtlEventID => 234
  | TgkillEventID => 235 | UtimesEventID => 236 | VserverEventID => 237
  | MbindEventID => 238 | SetMempolicyEventID => 239
  | GetMempolicyEventID => 240 | MqOpenEventID => 241 | MqUnlinkEventID => 242
  | MqTimedsendEventID => 243 | MqTimedreceiveEventID => 244
  | MqNotifyEventID => 245 | MqGetsetattrEventID => 246
  | KexecLoadEventID => 247 | WaitidEventID => 248 | AddKeyEventID => 249
  | RequestKeyEventID => 250 | KeyctlEventID => 251 | IoprioSetEventID => 252
  | IoprioGetEventID => 253 | InotifyInitEventID => 254
  | InotifyAddWatchEventID => 255 | InotifyRmWatchEventID => 256
  | MigratePagesEventID => 257 | OpenatEventID => 258 | MkdiratEventID => 259
  | MknodatEventID => 260 | FchownatEventID => 261 | FutimesatEventID => 262
  | NewfstatatEventID => 263 | UnlinkatEventID => 264 | RenameatEventID => 265
  | LinkatEventID => 266 | SymlinkatEventID => 267 | ReadlinkatEventID => 268
  | FchmodatEventID => 269 | FaccessatEventID => 270 | Pselect6EventID => 271
  | PpollEventID => 272 | UnshareEventID => 273 | SetRobustListEventID => 274
  | GetRobustListEventID => 275 | SpliceEventID => 276 | TeeEventID => 277
  | SyncFileRangeEventID => 278 | VmspliceEventID => 279
  | MovePagesEventID => 280 | UtimensatEventID => 281
  | EpollPwaitEventID => 282 | SignalfdEventID => 283
  | TimerfdCreateEventID => 284 | EventfdEventID => 285
  | FallocateEventID => 286 | TimerfdSettimeEventID => 287
  | TimerfdGettimeEventID => 288 | Accept4EventID => 289
  | Signalfd4EventID => 290 | Eventfd2EventID => 291
  | EpollCreate1EventID => 292 | Dup3EventID => 293 | Pipe2EventID => 294
  | InotifyInit1EventID => 295 | PreadvEventID => 296 | PwritevEventID => 297
  | RtTgsigqueueinfoEventID => 298 | PerfEventOpenEventID => 299
  | RecvmmsgEventID => 300 | FanotifyInitEventID => 301
  | FanotifyMarkEventID => 302 | Prlimit64EventID => 303
  | NameToHandleAtEventID => 304 | OpenByHandleAtEventID => 305
  | ClockAdjtimeEventID => 306 | SyncfsEventID => 307 | SendmmsgEventID => 308
  | SetnsEventID => 309 | GetcpuEventID => 310 | ProcessVmReadvEventID => 311
  | ProcessVmWritevEventID => 312 | KcmpEventID => 313
  | FinitModuleEventID => 314 | SchedSetattrEventID => 315
  | SchedGetattrEventID => 316 | Renameat2EventID => 317
  | SeccompEventID => 318 | GetrandomEventID => 319
  | MemfdCreateEventID => 320 | KexecFileLoadEventID => 321
  | BpfEventID => 322 | ExecveatEventID => 323 | UserfaultfdEventID => 324
  | MembarrierEventID => 325 | Mlock2EventID => 326
  | CopyFileRangeEventID => 327 | Preadv2EventID => 328
  | Pwritev2EventID => 329 | PkeyMprotectEventID => 330
  | PkeyAllocEventID => 331 | PkeyFreeEventID => 332 | StatxEventID => 333
  | IoPgeteventsEventID => 334 | RseqEventID => 335
  | PidfdSendSignalEventID => 336 | IoUringSetupEventID => 337
  | IoUringEnterEventID => 338 | IoUringRegisterEventID => 339
  | OpenTreeEventID => 340 | MoveMountEventID => 341 | FsopenEventID => 342
  | FsconfigEventID => 343 | FsmountEventID => 344 | FspickEventID => 345
  | PidfdOpenEventID => 346 | Clone3EventID => 347 | CloseRangeEventID => 348
  | Openat2EventID => 349 | PidfdGetfdEventID => 350
  | Faccessat2EventID => 351 | ProcessMadviseEventID => 352
  | EpollPwait2EventID => 353 | SysEnterEventID => 354 | SysExitEventID => 355
  | SchedProcessForkEventID => 356 | SchedProcessExecEventID => 357
  | SchedProcessExitEventID => 358 | SchedSwitchEventID => 359
  | DoExitEventID => 360 | CapCapableEventID => 361 | VfsWriteEventID => 362
  | VfsWritevEventID => 363 | MemProtAlertEventID => 364
  | CommitCredsEventID => 365 | SwitchTaskNSEventID => 366
  | MagicWriteEventID => 367 | CgroupAttachTaskEventID => 368
  | CgroupMkdirEventID => 369 | CgroupRmdirEventID => 370
  | SecurityBprmCheckEventID => 371 | SecurityFileOpenEventID => 372
  | SecurityInodeUnlinkEventID => 373 | SecuritySocketCreateEventID => 374
  | SecuritySocketListenEventID => 375 | SecuritySocketConnectEventID => 376
  | SecuritySocketAcceptEventID => 377 | SecuritySocketBindEventID => 378
  | SecuritySbMountEventID => 379 | SecurityBPFEventID => 380
  | SecurityBPFMapEventID => 381 | SecurityKernelReadFileEventID => 382
  | SecurityInodeMknodEventID => 383 | SecurityPostReadFileEventID => 384
  | SocketDupEventID => 385 | MaxEventID => 386 | InitNamespacesEventID => 387
  end%positive.

(** The 32-bit compatibility numbers, declared per architecture. *)
Inductive Sys32 : Set :=
  | sys32read | sys32write | sys32open | sys32close | sys32stat | sys32fstat
  | sys32lstat | sys32poll | sys32lseek | sys32mmap | sys32mprotect
  | sys32munmap | sys32brk | sys32rt_sigaction | sys32rt_sigprocmask
  | sys32rt_sigreturn | sys32ioctl | sys32pread64 | sys32pwrite64 | sys32readv
  | sys32writev | sys32access | sys32pipe | sys32select | sys32sched_yield
  | sys32mremap | sys32msync | sys32mincore | sys32madvise | sys32shmget
  | sys32shmat | sys32shmctl | sys32dup | sys32dup2 | sys32pause
  | sys32nanosleep | sys32getitimer | sys32alarm | sys32setitimer
  | sys32getpid | sys32sendfile | sys32socket | sys32connect | sys32undefined
  | sys32sendto | sys32recvfrom | sys32sendmsg | sys32recvmsg | sys32shutdown
  | sys32bind | sys32listen | sys32getsockname | sys32getpeername
  | sys32socketpair | sys32setsockopt | sys32getsockopt | sys32clone
  | sys32fork | sys32vfork | sys32execve | sys32exit | sys32wait4 | sys32kill
  | sys32uname | sys32semget | sys32semctl | sys32shmdt | sys32msgget
  | sys32msgsnd | sys32msgrcv | sys32msgctl | sys32fcntl | sys32flock
  | sys32fsync | sys32fdatasync | sys32truncate | sys32ftruncate
  | sys32getdents | sys32getcwd | sys32chdir | sys32fchdir | sys32rename
  | sys32mkdir | sys32rmdir | sys32creat | sys32link | sys32unlink
  | sys32symlink | sys32readlink | sys32chmod | sys32fchmod | sys32chown
  | sys32fchown | sys32lchown | sys32umask | sys32gettimeofday
  | sys32getrlimit | sys32getrusage | sys32sysinfo | sys32times | sys32ptrace
  | sys32getuid | sys32syslog | sys32getgid | sys32setuid | sys32setgid
  | sys32geteuid | sys32getegid | sys32setpgid | sys32getppid | sys32getpgrp
  | sys32setsid | sys32setreuid | sys32setregid | sys32getgroups
  | sys32setgroups | sys32setresuid | sys32getresuid | sys32setresgid
  | sys32getresgid | sys32getpgid | sys32setfsuid | sys32setfsgid
  | sys32getsid | sys32capget | sys32capset | sys32rt_sigpending
  | sys32rt_sigtimedwait | sys32rt_sigqueueinfo | sys32rt_sigsuspend
  | sys32sigaltstack | sys32utime | sys32mknod | sys32uselib
  | sys32personality | sys32ustat | sys32statfs | sys32fstatfs | sys32sysfs
  | sys32getpriority | sys32setpriority | sys32sched_setparam
  | sys32sched_getparam | sys32sched_setscheduler | sys32sched_getscheduler
  | sys32sched_get_priority_max | sys32sched_get_priority_min
  | sys32sched_rr_get_interval | sys32mlock | sys32munlock | sys32mlockall
  | sys32munlockall | sys32vhangup | sys32modify_ldt | sys32pivot_root
  | sys32prctl | sys32arch_prctl | sys32adjtimex | sys32setrlimit
  | sys32chroot | sys32sync | sys32acct | sys32settimeofday | sys32mount
  | sys32umount | sys32swapon | sys32swapoff | sys32reboot | sys32sethostname
  | sys32setdomainname | sys32iopl | sys32ioperm | sys32create_module
  | sys32init_module | sys32delete_module | sys32get_kernel_syms
  | sys32query_module | sys32quotactl | sys32nfsservctl | sys32getpmsg
  | sys32putpmsg | sys32gettid | sys32readahead | sys32setxattr
  | sys32lsetxattr | sys32fsetxattr | sys32getxattr | sys32lgetxattr
  | sys32fgetxattr | sys32listxattr | sys32llistxattr | sys32flistxattr
  | sys32removexattr | sys32lremovexattr | sys32fremovexattr | sys32tkill
  | sys32time | sys32futex | sys32sched_setaffinity | sys32sched_getaffinity
  | sys32set_thread_area | sys32io_setup | sys32io_destroy | sys32io_getevents
  | sys32io_submit | sys32io_cancel | sys32get_thread_area
  | sys32lookup_dcookie | sys32epoll_create | sys32remap_file_pages
  | sys32getdents64 | sys32set_tid_address | sys32restart_syscall
  | sys32semtimedop_time64 | sys32fadvise64 | sys32timer_create
  | sys32timer_settime | sys32timer_gettime | sys32timer_getoverrun
  | sys32timer_delete | sys32clock_settime | sys32clock_gettime
  | sys32clock_getres | sys32clock_nanosleep | sys32exit_group
  | sys32epoll_wait | sys32epoll_ctl | sys32tgkill | sys32utimes
  | sys32vserver | sys32mbind | sys32set_mempolicy | sys32get_mempolicy
  | sys32mq_open | sys32mq_unlink | sys32mq_timedsend | sys32mq_timedreceive
  | sys32mq_notify | sys32mq_getsetattr | sys32kexec_load | sys32waitid
  | sys32add_key | sys32request_key | sys32keyctl | sys32ioprio_set
  | sys32ioprio_get | sys32inotify_init | sys32inotify_add_watch
  | sys32inotify_rm_watch | sys32migrate_pages | sys32openat | sys32mkdirat
  | sys32mknodat | sys32fchownat | sys32futimesat | sys32fstatat64
  | sys32unlinkat | sys32renameat | sys32linkat | sys32symlinkat
  | sys32readlinkat | sys32fchmodat | sys32faccessat | sys32pselect6
  | sys32ppoll | sys32unshare | sys32set_robust_list | sys32get_robust_list
  | sys32splice | sys32tee | sys32sync_file_range | sys32vmsplice
  | sys32move_pages | sys32utimensat | sys32epoll_pwait | sys32signalfd
  | sys32timerfd_create | sys32eventfd | sys32fallocate | sys32timerfd_settime
  | sys32timerfd_gettime | sys32accept4 | sys32signalfd4 | sys32eventfd2
  | sys32epoll_create1 | sys32dup3 | sys32pipe2 | sys32inotify_init1
  | sys32preadv | sys32pwritev | sys32rt_tgsigqueueinfo | sys32perf_event_open
  | sys32recvmmsg | sys32fanotify_init | sys32fanotify_mark | sys32prlimit64
  | sys32name_to_handle_at | sys32open_by_handle_at | sys32clock_adjtime
  | sys32syncfs | sys32sendmmsg | sys32setns | sys32getcpu
  | sys32process_vm_readv | sys32process_vm_writev | sys32kcmp
  | sys32finit_module | sys32sched_setattr | sys32sched_getattr
  | sys32renameat2 | sys32seccomp | sys32getrandom | sys32memfd_create
  | sys32bpf | sys32execveat | sys32userfaultfd | sys32membarrier
  | sys32mlock2 | sys32copy_file_range | sys32preadv2 | sys32pwritev2
  | sys32pkey_mprotect | sys32pkey_alloc | sys32pkey_free | sys32statx
  | sys32io_pgetevents | sys32rseq | sys32pidfd_send_signal
  | sys32io_uring_setup | sys32io_uring_enter | sys32io_uring_register
  | sys32open_tree | sys32move_mount | sys32fsopen | sys32fsconfig
  | sys32fsmount | sys32fspick | sys32pidfd_open | sys32clone3
  | sys32close_range | sys32openat2 | sys32pidfd_getfd | sys32faccessat2
  | sys32process_madvise | sys32epoll_pwait2.

(** The constant at a position of [EventID_all]. *)
Definition EventID_of_index (p : positive) : option EventID :=
  EventID_all !! pred (Pos.to_nat p).

#[global] Instance EventID_eq_dec : EqDecision EventID.
Proof.
  intros x y.
  destruct (decide (EventID_index x = EventID_index y)) as [E | E].
  - left.
    assert (R : ∀ e, EventID_of_index (EventID_index e) = Some e)
      by (intros []; reflexivity).
    apply (inj Some). rewrite <- (R x), <- (R y), E. reflexivity.
  - right. intros ->. apply E. reflexivity.
Defined.

#[global] Instance EventID_countable : Countable EventID.
Proof.
  refine (inj_countable EventID_index EventID_of_index _).
  intros []; reflexivity.
Defined.

(** The block of the non-syscall events, [SysEnterEventID int32 = iota + 1000]
    and the names after it, and the block of the events originated from
    user-space, [InitNamespacesEventID int32 = iota + 2000]. *)
Definition common_event_names : list EventID :=
  [ SysEnterEventID; SysExitEventID; SchedProcessForkEventID;
    SchedProcessExecEventID; SchedProcessExitEventID; SchedSwitchEventID;
    DoExitEventID; CapCapableEventID; VfsWriteEventID; VfsWritevEventID;
    MemProtAlertEventID; CommitCredsEventID; SwitchTaskNSEventID;
    MagicWriteEventID; CgroupAttachTaskEventID; CgroupMkdirEventID;
    CgroupRmdirEventID; SecurityBprmCheckEventID; SecurityFileOpenEventID;
    SecurityInodeUnlinkEventID; SecuritySocketCreateEventID;
    SecuritySocketListenEventID; SecuritySocketConnectEventID;
    SecuritySocketAcceptEventID; SecuritySocketBindEventID;
    SecuritySbMountEventID; SecurityBPFEventID; SecurityBPFMapEventID;
    SecurityKernelReadFileEventID; SecurityInodeMknodEventID;
    SecurityPostReadFileEventID; SocketDupEventID; MaxEventID ].

Definition common_event_block : list (EventID * Z) :=
  iota_block 1000 common_event_names.

Definition user_event_names : list EventID := [ InitNamespacesEventID ].

Definition user_event_block : list (EventID * Z) :=
  iota_block 2000 user_event_names.

(** An identifier lies in the syscall band when it is neither a non-syscall
    event nor a user-space event, that is when it is one of the constants
    declared per architecture. *)
Definition syscall_band (e : EventID) : bool :=
  bool_decide (e ∉ common_event_names ++ user_event_names).

(** ** The event registry *)

Record probe : Set := {
  event : string;
  attach : probeType;
  fn : string
}.

#[global] Instance probe_eq_dec : EqDecision probe.
Proof. solve_decision. Defined.

(** [EventConfig] is a struct describing an event configuration.  The two
    [int32] fields are given in the literals by named constants; [None]
    stands for a field that a literal leaves out, which Go sets to 0. *)
Record EventConfig : Set := {
  ID : option EventID;
  ID32Bit : option Sys32;
  Name : string;
  Probes : list probe;
  EssentialEvent : bool;
  Sets : list string
}.

(** Package [external]: the event as handed to the consumers.  The package
    is imported, not defined, by the files at hand; the structs are declared
    here with the fields that the code of this package names
    ([Name] and [Type] of [ArgMeta], the embedded [ArgMeta] and [Value] of
    [Argument], and the fields of [Event] that [CreateInitNamespacesEvent]
    sets). *)
Module external.

Record ArgMeta : Set := {
  Name : string;
  Type_ : string
}.

(** [Argument] embeds [ArgMeta]; [Value] is an [interface{}]: [None] is
    the nil interface and [Some v] holds the [uint32] [v]. *)
Record Argument : Set := {
  Meta : ArgMeta;
  Value : option Z
}.

Record Event : Set := {
  Timestamp : Z;
  ProcessName : string;
  EventID : Z;
  EventName : string;
  ArgsNum : Z;
  Args : list Argument
}.

End external.

(** [EventsIDToEvent] is list of supported events, indexed by their ID.
    The rows of the literal, in source order. *)
Definition EventsIDToEvent_rows : list (EventID * EventConfig) := [
  (ReadEventID, {| ID := Some ReadEventID; ID32Bit := Some sys32read; Name := "read"; Probes := [{| event := "read"; attach := sysCall; fn := "read" |}]; EssentialEvent := false; Sets := ["syscalls"; "fs"; "fs_read_write"] |});
  (WriteEventID, {| ID := Some WriteEventID; ID32Bit := Some sys32write; Name := "write"; Probes := [{| event := "write"; attach := sysCall; fn := "write" |}]; EssentialEvent := false; Sets := ["syscalls"; "fs"; "fs_read_write"] |});
  (OpenEventID, {| ID := Some OpenEventID; ID32Bit := Some sys32open; Name := "open"; Probes := [{| event := "open"; attach := sysCall; fn := "open" |}]; EssentialEvent := false; Sets := ["default"; "syscalls"; "fs"; "fs_file_ops"] |});
  (CloseEventID, {| ID := Some CloseEventID; ID32Bit := Some sys32close; Name := "close"; Probes := [{| event := "close"; attach := sysCall; fn := "close" |}]; EssentialEvent := false; Sets := ["default"; "syscalls"; "fs"; "fs_file_ops"] |});
  (StatEventID, {| ID := Some StatEventID; ID32Bit := Some sys32stat; Name := "stat"; Probes := [{| event := "newstat"; attach := sysCall; fn := "newstat" |}]; EssentialEvent := false; Sets := ["default"; "syscalls"; "fs"; "fs_file_attr"] |});
  (FstatEventID, {| ID := Some FstatEventID; ID32Bit := Some sys32fstat; Name := "fstat"; Probes := [{| event := "newfstat"; attach := sysCall; fn := "newfstat" |}]; EssentialEvent := false; Sets := ["default"; "syscalls"; "fs"; "fs_file_attr"] |});
  (LstatEventID, {| ID := Some LstatEventID; ID32Bit := Some sys32lstat; Name := "lstat"; Probes := [{| event := "newlstat"; attach := sysCall; fn := "newlstat" |}]; EssentialEvent := false; Sets := ["default"; "syscalls"; "fs"; "fs_file_attr"] |});
  (PollEventID, {| ID := Some PollEventID; ID32Bit := Some sys32poll; Name := "poll"; Probes := [{| event := "poll"; attach := sysCall; fn := "poll" |}]; EssentialEvent := false; Sets := ["syscalls"; "fs"; "fs_mux_io"] |});
  (LseekEventID, {| ID := Some LseekEventID; ID32Bit := Some sys32lseek; Name := "lseek"; Probes := [{| event := "lseek"; attach := sysCall; fn := "lseek" |}]; EssentialEvent := false; Sets := ["syscalls"; "fs"; "fs_read_write"] |});
  (MmapEventID, {| ID := Some MmapEventID; ID32Bit := Some sys32mmap; Name := "mmap"; Probes := [{| event := "mmap"; attach := sysCall; fn := "mmap" |}]; EssentialEvent := false; Sets := ["syscalls"; "proc"; "proc_mem"] |});
  (MprotectEventID, {| ID := Some MprotectEventID; ID32Bit := Some sys32mprotect; Name := "mprotect"; Probes := [{| event := "mprotect"; attach := sysCall; fn := "mprotect" |}]; EssentialEvent := false; Sets := ["syscalls"; "proc"; "proc_mem"] |});
  (MunmapEventID, {| ID := Some MunmapEventID; ID32Bit := Some sys32munmap; Name := "munmap"; Probes := [{| event := "munmap"; attach := sysCall; fn := "munmap" |}]; EssentialEvent := false; Sets := ["syscalls"; "proc"; "proc_mem"] |});
  (BrkEventID, {| ID := Some BrkEventID; ID32Bit := Some sys32brk; Name := "brk"; Probes := [{| event := "brk"; attach := sysCall; fn := "brk" |}]; EssentialEvent := false; Sets := ["syscalls"; "proc"; "proc_mem"] |});
  (RtSigactionEventID, {| ID := Some RtSigactionEventID; ID32Bit := Some sys32rt_sigaction; Name := "rt_sigaction"; Probes := [{| event := "rt_sigaction"; attach := sysCall; fn := "rt_sigaction" |}]; EssentialEvent := false; Sets := ["syscalls"; "signals"] |});
  (RtSigprocmaskEventID, {| ID := Some RtSigprocmaskEventID; ID32Bit := Some sys32rt_sigprocmask; Name := "rt_sigprocmask"; Probes := [{| event := "rt_sigprocmask"; attach := sysCall; fn := "rt_sigprocmask" |}]; EssentialEvent := false; Sets := ["syscalls"; "signals"] |});
  (RtSigreturnEventID, {| ID := Some RtSigreturnEventID; ID32Bit := Some sys32rt_sigreturn; Name := "rt_sigreturn"; Probes := [{| event := "rt_sigreturn"; attach := sysCall; fn := "rt_sigreturn" |}]; EssentialEvent := false; Sets := ["syscalls"; "signals"] |});
  (IoctlEventID, {| ID := Some IoctlEventID; ID32Bit := Some sys32ioctl; Name := "ioctl"; Probes := [{| event := "ioctl"; attach := sysCall; fn := "ioctl" |}]; EssentialEvent := false; Sets := ["syscalls"; "fs"; "fs_fd_ops"] |});
  (Pread64EventID, {| ID := Some Pread64EventID; ID32Bit := Some sys32pread64; Name := "pread64"; Probes := [{| event := "pread64"; attach := sysCall; fn := "pread64" |}]; EssentialEvent := false; Sets := ["syscalls"; "fs"; "fs_read_write"] |});
  (Pwrite64EventID, {| ID := Some Pwrite64EventID; ID32Bit := Some sys32pwrite64; Name := "pwrite64"; Probes := [{| event := "pwrite64"; attach := sysCall; fn := "pwrite64" |}]; EssentialEvent := false; Sets := ["syscalls"; "fs"; "fs_read_write"] |});
  (ReadvEventID, {| ID := Some ReadvEventID; ID32Bit := Some sys32readv; Name := "readv"; Probes := [{| event := "readv"; attach := sysCall; fn := "readv" |}]; EssentialEvent := false; Sets := ["syscalls"; "fs"; "fs_read_write"] |});
  (WritevEventID, {| ID := Some WritevEventID; ID32Bit := Some sys32writev; Name := "writev"; Probes := [{| event := "writev"; attach := sysCall; fn := "writev" |}]; EssentialEvent := false; Sets := ["syscalls"; "fs"; "fs_read_write"] |});
  (AccessEventID, {| ID := Some AccessEventID; ID32Bit := Some sys32access; Name := "access"; Probes := [{| event := "access"; attach := sysCall; fn := "access" |}]; EssentialEvent := false; Sets := ["default"; "syscalls"; "fs"; "fs_file_attr"] |});
  (PipeEventID, {| ID := Some PipeEventID; ID32Bit := Some sys32pipe; Name := "pipe"; Probes := [{| event := "pipe"; attach := sysCall; fn := "pipe" |}]; EssentialEvent := false; Sets := ["syscalls"; "ipc"; "ipc_pipe"] |});
  (SelectEventID, {| ID := Some SelectEventID; ID32Bit := Some sys32select; Name := "select"; Probes := [{| event := "select"; attach := sysCall; fn := "select" |}]; EssentialEvent := false; Sets := ["syscalls"; "fs"; "fs_mux_io"] |});
  (SchedYieldEventID, {| ID := Some SchedYieldEventID; ID32Bit := Some sys32sched_yield; Name := "sched_yield"; Probes := [{| event := "sched_yield"; attach := sysCall; fn := "sched_yield" |}]; EssentialEvent := false; Sets := ["syscalls"; "proc"; "proc_sched"] |});
  (MremapEventID, {| ID := Some MremapEventID; ID32Bit := Some sys32mremap; Name := "mremap"; Probes := [{| event := "mremap"; attach := sysCall; fn := "mremap" |}]; EssentialEvent := false; Sets := ["syscalls"; "proc"; "proc_mem"] |});
  (MsyncEventID, {| ID := Some MsyncEventID; ID32Bit := Some sys32msync; Name := "msync"; Probes := [{| event := "msync"; attach := sysCall; fn := "msync" |}]; EssentialEvent := false; Sets := ["syscalls"; "fs"; "fs_sync"] |});
  (MincoreEventID, {| ID := Some MincoreEventID; ID32Bit := Some sys32mincore; Name := "mincore"; Probes := [{| event := "mincore"; attach := sysCall; fn := "mincore" |}]; EssentialEvent := false; Sets := ["syscalls"; "proc"; "proc_mem"] |});
  (MadviseEventID, {| ID := Some MadviseEventID; ID32Bit := Some sys32madvise; Name := "madvise"; Probes := [{| event := "madvise"; attach := sysCall; fn := "madvise" |}]; EssentialEvent := false; Sets := ["syscalls"; "proc"; "proc_mem"] |});
  (ShmgetEventID, {| ID := Some ShmgetEventID; ID32Bit := Some sys32shmget; Name := "shmget"; Probes := [{| event := "shmget"; attach := sysCall; fn := "shmget" |}]; EssentialEvent := false; Sets := ["syscalls"; "ipc"; "ipc_shm"] |});
  (ShmatEventID, {| ID := Some ShmatEventID; ID32Bit := Some sys32shmat; Name := "shmat"; Probes := [{| event := "shmat"; attach := sysCall; fn := "shmat" |}]; EssentialEvent := false; Sets := ["syscalls"; "ipc"; "ipc_shm"] |});
  (ShmctlEventID, {| ID := Some ShmctlEventID; ID32Bit := Some sys32shmctl; Name := "shmctl"; Probes := [{| event := "shmctl"; attach := sysCall; fn := "shmctl" |}]; EssentialEvent := false; Sets := ["syscalls"; "ipc"; "ipc_shm"] |});
  (DupEventID, {| ID := Some DupEventID; ID32Bit := Some sys32dup; Name := "dup"; Probes := [{| event := "dup"; attach := sysCall; fn := "dup" |}]; EssentialEvent := false; Sets := ["default"; "syscalls"; "fs"; "fs_fd_ops"] |});
  (Dup2EventID, {| ID := Some Dup2EventID; ID32Bit := Some sys32dup2; Name := "dup2"; Probes := [{| event := "dup2"; attach := sysCall; fn := "dup2" |}]; EssentialEvent := false; Sets := ["default"; "syscalls"; "fs"; "fs_fd_ops"] |});
  (PauseEventID, {| ID := Some PauseEventID; ID32Bit := Some sys32pause; Name := "pause"; Probes := [{| event := "pause"; attach := sysCall; fn := "pause" |}]; EssentialEvent := false; Sets := ["syscalls"; "signals"] |});
  (NanosleepEventID, {| ID := Some NanosleepEventID; ID32Bit := Some sys32nanosleep; Name := "nanosleep"; Probes := [{| event := "nanosleep"; attach := sysCall; fn := "nanosleep" |}]; EssentialEvent := false; Sets := ["syscalls"; "time"; "time_timer"] |});
  (GetitimerEventID, {| ID := Some GetitimerEventID; ID32Bit := Some sys32getitimer; Name := "getitimer"; Probes := [{| event := "getitimer"; attach := sysCall; fn := "getitimer" |}]; EssentialEvent := false; Sets := ["syscalls"; "time"; "time_timer"] |});
  (AlarmEventID, {| ID := Some AlarmEventID; ID32Bit := Some sys32alarm; Name := "alarm"; Probes := [{| event := "alarm"; attach := sysCall; fn := "alarm" |}]; EssentialEvent := false; Sets := ["syscalls"; "time"; "time_timer"] |});
  (SetitimerEventID, {| ID := Some SetitimerEventID; ID32Bit := Some sys32setitimer; Name := "setitimer"; Probes := [{| event := "setitimer"; attach := sysCall; fn := "setitimer" |}]; EssentialEvent := false; Sets := ["syscalls"; "time"; "time_timer"] |});
  (GetpidEventID, {| ID := Some GetpidEventID; ID32Bit := Some sys32getpid; Name := "getpid"; Probes := [{| event := "getpid"; attach := sysCall; fn := "getpid" |}]; EssentialEvent := false; Sets := ["syscalls"; "proc"; "proc_ids"] |});
  (SendfileEventID, {| ID := Some SendfileEventID; ID32Bit := Some sys32sendfile; Name := "sendfile"; Probes := [{| event := "sendfile"; attach := sysCall; fn := "sendfile" |}]; EssentialEvent := false; Sets := ["syscalls"; "fs"; "fs_read_write"] |});
  (SocketEventID, {| ID := Some SocketEventID; ID32Bit := Some sys32socket; Name := "socket"; Probes := [{| event := "socket"; attach := sysCall; fn := "socket" |}]; EssentialEvent := false; Sets := ["default"; "syscalls"; "net"; "net_sock"] |});
  (ConnectEventID, {| ID := Some ConnectEventID; ID32Bit := Some sys32connect; Name := "connect"; Probes := [{| event := "connect"; attach := sysCall; fn := "connect" |}]; EssentialEvent := false; Sets := ["default"; "syscalls"; "net"; "net_sock"] |});
  (AcceptEventID, {| ID := Some AcceptEventID; ID32Bit := Some sys32undefined; Name := "accept"; Probes := [{| event := "accept"; attach := sysCall; fn := "accept" |}]; EssentialEvent := false; Sets := ["default"; "syscalls"; "net"; "net_sock"] |});
  (SendtoEventID, {| ID := Some SendtoEventID; ID32Bit := Some sys32sendto; Name := "sendto"; Probes := [{| event := "sendto"; attach := sysCall; fn := "sendto" |}]; EssentialEvent := false; Sets := ["syscalls"; "net"; "net_snd_rcv"] |});
  (RecvfromEventID, {| ID := Some RecvfromEventID; ID32Bit := Some sys32recvfrom; Name := "recvfrom"; Probes := [{| event := "recvfrom"; attach := sysCall; fn := "recvfrom" |}]; EssentialEvent := false; Sets := ["syscalls"; "net"; "net_snd_rcv"] |});
  (SendmsgEventID, {| ID := Some SendmsgEventID; ID32Bit := Some sys32sendmsg; Name := "sendmsg"; Probes := [{| event := "sendmsg"; attach := sysCall; fn := "sendmsg" |}]; EssentialEvent := false; Sets := ["syscalls"; "net"; "net_snd_rcv"] |});
  (RecvmsgEventID, {| ID := Some RecvmsgEventID; ID32Bit := Some sys32recvmsg; Name := "recvmsg"; Probes := [{| event := "recvmsg"; attach := sysCall; fn := "recvmsg" |}]; EssentialEvent := false; Sets := ["syscalls"; "net"; "net_snd_rcv"] |});
  (ShutdownEventID, {| ID := Some ShutdownEventID; ID32Bit := Some sys32shutdown; Name := "shutdown"; Probes := [{| event := "shutdown"; attach := sysCall; fn := "shutdown" |}]; EssentialEvent := false; Sets := ["syscalls"; "net"; "net_sock"] |});
  (BindEventID, {| ID := Some BindEventID; ID32Bit := Some sys32bind; Name := "bind"; Probes := [{| event := "bind"; attach := sysCall; fn := "bind" |}]; EssentialEvent := false; Sets := ["default"; "syscalls"; "net"; "net_sock"] |});
  (ListenEventID, {| ID := Some ListenEventID; ID32Bit := Some sys32listen; Name := "listen"; Probes := [{| event := "listen"; attach := sysCall; fn := "listen" |}]; EssentialEvent := false; Sets := ["default"; "syscalls"; "net"; "net_sock"] |});
  (GetsocknameEventID, {| ID := Some GetsocknameEventID; ID32Bit := Some sys32getsockname; Name := "getsockname"; Probes := [{| event := "getsockname"; attach := sysCall; fn := "getsockname" |}]; EssentialEvent := false; Sets := ["default"; "syscalls"; "net"; "net_sock"] |});
  (GetpeernameEventID, {| ID := Some GetpeernameEventID; ID32Bit := Some sys32getpeername; Name := "getpeername"; Probes := [{| event := "getpeername"; attach := sysCall; fn := "getpeername" |}]; EssentialEvent := false; Sets := ["syscalls"; "net"; "net_sock"] |});
  (SocketpairEventID, {| ID := Some SocketpairEventID; ID32Bit := Some sys32socketpair; Name := "socketpair"; Probes := [{| event := "socketpair"; attach := sysCall; fn := "socketpair" |}]; EssentialEvent := false; Sets := ["syscalls"; "net"; "net_sock"] |});
  (SetsockoptEventID, {| ID := Some SetsockoptEventID; ID32Bit := Some sys32setsockopt; Name := "setsockopt"; Probes := [{| event := "setsockopt"; attach := sysCall; fn := "setsockopt" |}]; EssentialEvent := false; Sets := ["syscalls"; "net"; "net_sock"] |});
  (GetsockoptEventID, {| ID := Some GetsockoptEventID; ID32Bit := Some sys32getsockopt; Name := "getsockopt"; Probes := [{| event := "getsockopt"; attach := sysCall; fn := "getsockopt" |}]; EssentialEvent := false; Sets := ["syscalls"; "net"; "net_sock"] |});
  (CloneEventID, {| ID := Some CloneEventID; ID32Bit := Some sys32clone; Name := "clone"; Probes := [{| event := "clone"; attach := sysCall; fn := "clone" |}]; EssentialEvent := false; Sets := ["default"; "syscalls"; "proc"; "proc_life"] |});
  (ForkEventID, {| ID := Some ForkEventID; ID32Bit := Some sys32fork; Name := "fork"; Probes := [{| event := "fork"; attach := sysCall; fn := "fork" |}]; EssentialEvent := false; Sets := ["default"; "syscalls"; "proc"; "proc_life"] |});
  (VforkEventID, {| ID := Some VforkEventID; ID32Bit := Some sys32vfork; Name := "vfork"; Probes := [{| event := "vfork"; attach := sysCall; fn := "vfork" |}]; EssentialEvent := false; Sets := ["default"; "syscalls"; "proc"; "proc_life"] |});
  (ExecveEventID, {| ID := Some ExecveEventID; ID32Bit := Some sys32execve; Name := "execve"; Probes := [{| event := "execve"; attach := sysCall; fn := "execve" |}]; EssentialEvent := false; Sets := ["default"; "syscalls"; "proc"; "proc_life"] |});
  (ExitEventID, {| ID := Some ExitEventID; ID32Bit := Some sys32exit; Name := "exit"; Probes := [{| event := "exit"; attach := sysCall; fn := "exit" |}]; EssentialEvent := false; Sets := ["syscalls"; "proc"; "proc_life"] |});
  (Wait4EventID, {| ID := Some Wait4EventID; ID32Bit := Some sys32wait4; Name := "wait4"; Probes := [{| event := "wait4"; attach := sysCall; fn := "wait4" |}]; EssentialEvent := false; Sets := ["syscalls"; "proc"; "proc_life"] |});
  (KillEventID, {| ID := Some KillEventID; ID32Bit := Some sys32kill; Name := "kill"; Probes := [{| event := "kill"; attach := sysCall; fn := "kill" |}]; EssentialEvent := false; Sets := ["default"; "syscalls"; "signals"] |});
  (UnameEventID, {| ID := Some UnameEventID; ID32Bit := Some sys32uname; Name := "uname"; Probes := [{| event := "uname"; attach := sysCall; fn := "uname" |}]; EssentialEvent := false; Sets := ["syscalls"; "system"] |});
  (SemgetEventID, {| ID := Some SemgetEventID; ID32Bit := Some sys32semget; Name := "semget"; Probes := [{| event := "semget"; attach := sysCall; fn := "semget" |}]; EssentialEvent := false; Sets := ["syscalls"; "ipc"; "ipc_sem"] |});
  (SemopEventID, {| ID := Some SemopEventID; ID32Bit := Some sys32undefined; Name := "semop"; Probes := [{| event := "semop"; attach := sysCall; fn := "semop" |}]; EssentialEvent := false; Sets := ["syscalls"; "ipc"; "ipc_sem"] |});
  (SemctlEventID, {| ID := Some SemctlEventID; ID32Bit := Some sys32semctl; Name := "semctl"; Probes := [{| event := "semctl"; attach := sysCall; fn := "semctl" |}]; EssentialEvent := false; Sets := ["syscalls"; "ipc"; "ipc_sem"] |});
  (ShmdtEventID, {| ID := Some ShmdtEventID; ID32Bit := Some sys32shmdt; Name := "shmdt"; Probes := [{| event := "shmdt"; attach := sysCall; fn := "shmdt" |}]; EssentialEvent := false; Sets := ["syscalls"; "ipc"; "ipc_shm"] |});
  (MsggetEventID, {| ID := Some MsggetEventID; ID32Bit := Some sys32msgget; Name := "msgget"; Probes := [{| event := "msgget"; attach := sysCall; fn := "msgget" |}]; EssentialEvent := false; Sets := ["syscalls"; "ipc"; "ipc_msgq"] |});
  (MsgsndEventID, {| ID := Some MsgsndEventID; ID32Bit := Some sys32msgsnd; Name := "msgsnd"; Probes := [{| event := "msgsnd"; attach := sysCall; fn := "msgsnd" |}]; EssentialEvent := false; Sets := ["syscalls"; "ipc"; "ipc_msgq"] |});
  (MsgrcvEventID, {| ID := Some MsgrcvEventID; ID32Bit := Some sys32msgrcv; Name := "msgrcv"; Probes := [{| event := "msgrcv"; attach := sysCall; fn := "msgrcv" |}]; EssentialEvent := false; Sets := ["syscalls"; "ipc"; "ipc_msgq"] |});
  (MsgctlEventID, {| ID := Some MsgctlEventID; ID32Bit := Some sys32msgctl; Name := "msgctl"; Probes := [{| event := "msgctl"; attach := sysCall; fn := "msgctl" |}]; EssentialEvent := false; Sets := ["syscalls"; "ipc"; "ipc_msgq"] |});
  (FcntlEventID, {| ID := Some FcntlEventID; ID32Bit := Some sys32fcntl; Name := "fcntl"; Probes := [{| event := "fcntl"; attach := sysCall; fn := "fcntl" |}]; EssentialEvent := false; Sets := ["syscalls"; "fs"; "fs_fd_ops"] |});
  (FlockEventID, {| ID := Some FlockEventID; ID32Bit := Some sys32flock; Name := "flock"; Probes := [{| event := "flock"; attach := sysCall; fn := "flock" |}]; EssentialEvent := false; Sets := ["syscalls"; "fs"; "fs_fd_ops"] |});
  (FsyncEventID, {| ID := Some FsyncEventID; ID32Bit := Some sys32fsync; Name := "fsync"; Probes := [{| event := "fsync"; attach := sysCall; fn := "fsync" |}]; EssentialEvent := false; Sets := ["syscalls"; "fs"; "fs_sync"] |});
  (FdatasyncEventID, {| ID := Some FdatasyncEventID; ID32Bit := Some sys32fdatasync; Name := "fdatasync"; Probes := [{| event := "fdatasync"; attach := sysCall; fn := "fdatasync" |}]; EssentialEvent := false; Sets := ["syscalls"; "fs"; "fs_sync"] |});
  (TruncateEventID, {| ID := Some TruncateEventID; ID32Bit := Some sys32truncate; Name := "truncate"; Probes := [{| event := "truncate"; attach := sysCall; fn := "truncate" |}]; EssentialEvent := false; Sets := ["syscalls"; "fs"; "fs_file_ops"] |});
  (FtruncateEventID, {| ID := Some FtruncateEventID; ID32Bit := Some sys32ftruncate; Name := "ftruncate"; Probes := [{| event := "ftruncate"; attach := sysCall; fn := "ftruncate" |}]; EssentialEvent := false; Sets := ["syscalls"; "fs"; "fs_file_ops"] |});
  (GetdentsEventID, {| ID := Some GetdentsEventID; ID32Bit := Some sys32getdents; Name := "getdents"; Probes := [{| event := "getdents"; attach := sysCall; fn := "getdents" |}]; EssentialEvent := false; Sets := ["default"; "syscalls"; "fs"; "fs_dir_ops"] |});
  (GetcwdEventID, {| ID := Some GetcwdEventID; ID32Bit := Some sys32getcwd; Name := "getcwd"; Probes := [{| event := "getcwd"; attach := sysCall; fn := "getcwd" |}]; EssentialEvent := false; Sets := ["syscalls"; "fs"; "fs_dir_ops"] |});
  (ChdirEventID, {| ID := Some ChdirEventID; ID32Bit := Some sys32chdir; Name := "chdir"; Probes := [{| event := "chdir"; attach := sysCall; fn := "chdir" |}]; EssentialEvent := false; Sets := ["syscalls"; "fs"; "fs_dir_ops"] |});
  (FchdirEventID, {| ID := Some FchdirEventID; ID32Bit := Some sys32fchdir; Name := "fchdir"; Probes := [{| event := "fchdir"; attach := sysCall; fn := "fchdir" |}]; EssentialEvent := false; Sets := ["syscalls"; "fs"; "fs_dir_ops"] |});
  (RenameEventID, {| ID := Some RenameEventID; ID32Bit := Some sys32rename; Name := "rename"; Probes := [{| event := "rename"; attach := sysCall; fn := "rename" |}]; EssentialEvent := false; Sets := ["syscalls"; "fs"; "fs_file_ops"] |});
  (MkdirEventID, {| ID := Some MkdirEventID; ID32Bit := Some sys32mkdir; Name := "mkdir"; Probes := [{| event := "mkdir"; attach := sysCall; fn := "mkdir" |}]; EssentialEvent := false; Sets := ["syscalls"; "fs"; "fs_dir_ops"] |});
  (RmdirEventID, {| ID := Some RmdirEventID; ID32Bit := Some sys32rmdir; Name := "rmdir"; Probes := [{| event := "rmdir"; attach := sysCall; fn := "rmdir" |}]; EssentialEvent := false; Sets := ["syscalls"; "fs"; "fs_dir_ops"] |});
  (CreatEventID, {| ID := Some CreatEventID; ID32Bit := Some sys32creat; Name := "creat"; Probes := [{| event := "creat"; attach := sysCall; fn := "creat" |}]; EssentialEvent := false; Sets := ["default"; "syscalls"; "fs"; "fs_file_ops"] |});
  (LinkEventID, {| ID := Some LinkEventID; ID32Bit := Some sys32link; Name := "link"; Probes := [{| event := "link"; attach := sysCall; fn := "link" |}]; EssentialEvent := false; Sets := ["syscalls"; "fs"; "fs_link_ops"] |});
  (UnlinkEventID, {| ID := Some UnlinkEventID; ID32Bit := Some sys32unlink; Name := "unlink"; Probes := [{| event := "unlink"; attach := sysCall; fn := "unlink" |}]; EssentialEvent := false; Sets := ["default"; "syscalls"; "fs"; "fs_link_ops"] |});
  (SymlinkEventID, {| ID := Some SymlinkEventID; ID32Bit := Some sys32symlink; Name := "symlink"; Probes := [{| event := "symlink"; attach := sysCall; fn := "symlink" |}]; EssentialEvent := false; Sets := ["default"; "syscalls"; "fs"; "fs_link_ops"] |});
  (ReadlinkEventID, {| ID := Some ReadlinkEventID; ID32Bit := Some sys32readlink; Name := "readlink"; Probes := [{| event := "readlink"; attach := sysCall; fn := "readlink" |}]; EssentialEvent := false; Sets := ["syscalls"; "fs"; "fs_link_ops"] |});
  (ChmodEventID, {| ID := Some ChmodEventID; ID32Bit := Some sys32chmod; Name := "chmod"; Probes := [{| event := "chmod"; attach := sysCall; fn := "chmod" |}]; EssentialEvent := false; Sets := ["default"; "syscalls"; "fs"; "fs_file_attr"] |});
  (FchmodEventID, {| ID := Some FchmodEventID; ID32Bit := Some sys32fchmod; Name := "fchmod"; Probes := [{| event := "fchmod"; attach := sysCall; fn := "fchmod" |}]; EssentialEvent := false; Sets := ["default"; "syscalls"; "fs"; "fs_file_attr"] |});
  (ChownEventID, {| ID := Some ChownEventID; ID32Bit := Some sys32chown; Name := "chown"; Probes := [{| event := "chown"; attach := sysCall; fn := "chown" |}]; EssentialEvent := false; Sets := ["default"; "syscalls"; "fs"; "fs_file_attr"] |});
  (FchownEventID, {| ID := Some FchownEventID; ID32Bit := Some sys32fchown; Name := "fchown"; Probes := [{| event := "fchown"; attach := sysCall; fn := "fchown" |}]; EssentialEvent := false; Sets := ["default"; "syscalls"; "fs"; "fs_file_attr"] |});
  (LchownEventID, {| ID := Some LchownEventID; ID32Bit := Some sys32lchown; Name := "lchown"; Probes := [{| event := "lchown"; attach := sysCall; fn := "lchown" |}]; EssentialEvent := false; Sets := ["default"; "syscalls"; "fs"; "fs_file_attr"] |});
  (UmaskEventID, {| ID := Some UmaskEventID; ID32Bit := Some sys32umask; Name := "umask"; Probes := [{| event := "umask"; attach := sysCall; fn := "umask" |}]; EssentialEvent := false; Sets := ["syscalls"; "fs"; "fs_file_attr"] |});
  (GettimeofdayEventID, {| ID := Some GettimeofdayEventID; ID32Bit := Some sys32gettimeofday; Name := "gettimeofday"; Probes := [{| event := "gettimeofday"; attach := sysCall; fn := "gettimeofday" |}]; EssentialEvent := false; Sets := ["syscalls"; "time"; "time_tod"] |});
  (GetrlimitEventID, {| ID := Some GetrlimitEventID; ID32Bit := Some sys32getrlimit; Name := "getrlimit"; Probes := [{| event := "getrlimit"; attach := sysCall; fn := "getrlimit" |}]; EssentialEvent := false; Sets := ["syscalls"; "proc"] |});
  (GetrusageEventID, {| ID := Some GetrusageEventID; ID32Bit := Some sys32getrusage; Name := "getrusage"; Probes := [{| event := "getrusage"; attach := sysCall; fn := "getrusage" |}]; EssentialEvent := false; Sets := ["syscalls"; "proc"] |});
  (SysinfoEventID, {| ID := Some SysinfoEventID; ID32Bit := Some sys32sysinfo; Name := "sysinfo"; Probes := [{| event := "sysinfo"; attach := sysCall; fn := "sysinfo" |}]; EssentialEvent := false; Sets := ["syscalls"; "system"] |});
  (TimesEventID, {| ID := Some TimesEventID; ID32Bit := Some sys32times; Name := "times"; Probes := [{| event := "times"; attach := sysCall; fn := "times" |}]; EssentialEvent := false; Sets := ["syscalls"; "proc"] |});
  (PtraceEventID, {| ID := Some PtraceEventID; ID32Bit := Some sys32ptrace; Name := "ptrace"; Probes := [{| event := "ptrace"; attach := sysCall; fn := "ptrace" |}]; EssentialEvent := false; Sets := ["default"; "syscalls"; "proc"] |});
  (GetuidEventID, {| ID := Some GetuidEventID; ID32Bit := Some sys32getuid; Name := "getuid"; Probes := [{| event := "getuid"; attach := sysCall; fn := "getuid" |}]; EssentialEvent := false; Sets := ["syscalls"; "proc"; "proc_ids"] |});
  (SyslogEventID, {| ID := Some SyslogEventID; ID32Bit := Some sys32syslog; Name := "syslog"; Probes := [{| event := "syslog"; attach := sysCall; fn := "syslog" |}]; EssentialEvent := false; Sets := ["syscalls"; "system"] |});
  (GetgidEventID, {| ID := Some GetgidEventID; ID32Bit := Some sys32getgid; Name := "getgid"; Probes := [{| event := "getgid"; attach := sysCall; fn := "getgid" |}]; EssentialEvent := false; Sets := ["syscalls"; "proc"; "proc_ids"] |});
  (SetuidEventID, {| ID := Some SetuidEventID; ID32Bit := Some sys32setuid; Name := "setuid"; Probes := [{| event := "setuid"; attach := sysCall; fn := "setuid" |}]; EssentialEvent := false; Sets := ["default"; "syscalls"; "proc"; "proc_ids"] |});
  (SetgidEventID, {| ID := Some SetgidEventID; ID32Bit := Some sys32setgid; Name := "setgid"; Probes := [{| event := "setgid"; attach := sysCall; fn := "setgid" |}]; EssentialEvent := false; Sets := ["default"; "syscalls"; "proc"; "proc_ids"] |});
  (GeteuidEventID, {| ID := Some GeteuidEventID; ID32Bit := Some sys32geteuid; Name := "geteuid"; Probes := [{| event := "geteuid"; attach := sysCall; fn := "geteuid" |}]; EssentialEvent := false; Sets := ["syscalls"; "proc"; "proc_ids"] |});
  (GetegidEventID, {| ID := Some GetegidEventID; ID32Bit := Some sys32getegid; Name := "getegid"; Probes := [{| event := "getegid"; attach := sysCall; fn := "getegid" |}]; EssentialEvent := false; Sets := ["syscalls"; "proc"; "proc_ids"] |});
  (SetpgidEventID, {| ID := Some SetpgidEventID; ID32Bit := Some sys32setpgid; Name := "setpgid"; Probes := [{| event := "setpgid"; attach := sysCall; fn := "setpgid" |}]; EssentialEvent := false; Sets := ["syscalls"; "proc"; "proc_ids"] |});
  (GetppidEventID, {| ID := Some GetppidEventID; ID32Bit := Some sys32getppid; Name := "getppid"; Probes := [{| event := "getppid"; attach := sysCall; fn := "getppid" |}]; EssentialEvent := false; Sets := ["syscalls"; "proc"; "proc_ids"] |});
  (GetpgrpEventID, {| ID := Some GetpgrpEventID; ID32Bit := Some sys32getpgrp; Name := "getpgrp"; Probes := [{| event := "getpgrp"; attach := sysCall; fn := "getpgrp" |}]; EssentialEvent := false; Sets := ["syscalls"; "proc"; "proc_ids"] |});
  (SetsidEventID, {| ID := Some SetsidEventID; ID32Bit := Some sys32setsid; Name := "setsid"; Probes := [{| event := "setsid"; attach := sysCall; fn := "setsid" |}]; EssentialEvent := false; Sets := ["syscalls"; "proc"; "proc_ids"] |});
  (SetreuidEventID, {| ID := Some SetreuidEventID; ID32Bit := Some sys32setreuid; Name := "setreuid"; Probes := [{| event := "setreuid"; attach := sysCall; fn := "setreuid" |}]; EssentialEvent := false; Sets := ["default"; "syscalls"; "proc"; "proc_ids"] |});
  (SetregidEventID, {| ID := Some SetregidEventID; ID32Bit := Some sys32setregid; Name := "setregid"; Probes := [{| event := "setregid"; attach := sysCall; fn := "setregid" |}]; EssentialEvent := false; Sets := ["default"; "syscalls"; "proc"; "proc_ids"] |});
  (GetgroupsEventID, {| ID := Some GetgroupsEventID; ID32Bit := Some sys32getgroups; Name := "getgroups"; Probes := [{| event := "getgroups"; attach := sysCall; fn := "getgroups" |}]; EssentialEvent := false; Sets := ["syscalls"; "proc"; "proc_ids"] |});
  (SetgroupsEventID, {| ID := Some SetgroupsEventID; ID32Bit := Some sys32setgroups; Name := "setgroups"; Probes := [{| event := "setgroups"; attach := sysCall; fn := "setgroups" |}]; EssentialEvent := false; Sets := ["syscalls"; "proc"; "proc_ids"] |});
  (SetresuidEventID, {| ID := Some SetresuidEventID; ID32Bit := Some sys32setresuid; Name := "setresuid"; Probes := [{| event := "setresuid"; attach := sysCall; fn := "setresuid" |}]; EssentialEvent := false; Sets := ["syscalls"; "proc"; "proc_ids"] |});
  (GetresuidEventID, {| ID := Some GetresuidEventID; ID32Bit := Some sys32getresuid; Name := "getresuid"; Probes := [{| event := "getresuid"; attach := sysCall; fn := "getresuid" |}]; EssentialEvent := false; Sets := ["syscalls"; "proc"; "proc_ids"] |});
  (SetresgidEventID, {| ID := Some SetresgidEventID; ID32Bit := Some sys32setresgid; Name := "setresgid"; Probes := [{| event := "setresgid"; attach := sysCall; fn := "setresgid" |}]; EssentialEvent := false; Sets := ["syscalls"; "proc"; "proc_ids"] |});
  (GetresgidEventID, {| ID := Some GetresgidEventID; ID32Bit := Some sys32getresgid; Name := "getresgid"; Probes := [{| event := "getresgid"; attach := sysCall; fn := "getresgid" |}]; EssentialEvent := false; Sets := ["syscalls"; "proc"; "proc_ids"] |});
  (GetpgidEventID, {| ID := Some GetpgidEventID; ID32Bit := Some sys32getpgid; Name := "getpgid"; Probes := [{| event := "getpgid"; attach := sysCall; fn := "getpgid" |}]; EssentialEvent := false; Sets := ["syscalls"; "proc"; "proc_ids"] |});
  (SetfsuidEventID, {| ID := Some SetfsuidEventID; ID32Bit := Some sys32setfsuid; Name := "setfsuid"; Probes := [{| event := "setfsuid"; attach := sysCall; fn := "setfsuid" |}]; EssentialEvent := false; Sets := ["default"; "syscalls"; "proc"; "proc_ids"] |});
  (SetfsgidEventID, {| ID := Some SetfsgidEventID; ID32Bit := Some sys32setfsgid; Name := "setfsgid"; Probes := [{| event := "setfsgid"; attach := sysCall; fn := "setfsgid" |}]; EssentialEvent := false; Sets := ["default"; "syscalls"; "proc"; "proc_ids"] |});
  (GetsidEventID, {| ID := Some GetsidEventID; ID32Bit := Some sys32getsid; Name := "getsid"; Probes := [{| event := "getsid"; attach := sysCall; fn := "getsid" |}]; EssentialEvent := false; Sets := ["syscalls"; "proc"; "proc_ids"] |});
  (CapgetEventID, {| ID := Some CapgetEventID; ID32Bit := Some sys32capget; Name := "capget"; Probes := [{| event := "capget"; attach := sysCall; fn := "capget" |}]; EssentialEvent := false; Sets := ["syscalls"; "proc"] |});
  (CapsetEventID, {| ID := Some CapsetEventID; ID32Bit := Some sys32capset; Name := "capset"; Probes := [{| event := "capset"; attach := sysCall; fn := "capset" |}]; EssentialEvent := false; Sets := ["syscalls"; "proc"] |});
  (RtSigpendingEventID, {| ID := Some RtSigpendingEventID; ID32Bit := Some sys32rt_sigpending; Name := "rt_sigpending"; Probes := [{| event := "rt_sigpending"; attach := sysCall; fn := "rt_sigpending" |}]; EssentialEvent := false; Sets := ["syscalls"; "signals"] |});
  (RtSigtimedwaitEventID, {| ID := Some RtSigtimedwaitEventID; ID32Bit := Some sys32rt_sigtimedwait; Name := "rt_sigtimedwait"; Probes := [{| event := "rt_sigtimedwait"; attach := sysCall; fn := "rt_sigtimedwait" |}]; EssentialEvent := false; Sets := ["syscalls"; "signals"] |});
  (RtSigqueueinfoEventID, {| ID := Some RtSigqueueinfoEventID; ID32Bit := Some sys32rt_sigqueueinfo; Name := "rt_sigqueueinfo"; Probes := [{| event := "rt_sigqueueinfo"; attach := sysCall; fn := "rt_sigqueueinfo" |}]; EssentialEvent := false; Sets := ["syscalls"; "signals"] |});
  (RtSigsuspendEventID, {| ID := Some RtSigsuspendEventID; ID32Bit := Some sys32rt_sigsuspend; Name := "rt_sigsuspend"; Probes := [{| event := "rt_sigsuspend"; attach := sysCall; fn := "rt_sigsuspend" |}]; EssentialEvent := false; Sets := ["syscalls"; "signals"] |});
  (SigaltstackEventID, {| ID := Some SigaltstackEventID; ID32Bit := Some sys32sigaltstack; Name := "sigaltstack"; Probes := [{| event := "sigaltstack"; attach := sysCall; fn := "sigaltstack" |}]; EssentialEvent := false; Sets := ["syscalls"; "signals"] |});
  (UtimeEventID, {| ID := Some UtimeEventID; ID32Bit := Some sys32utime; Name := "utime"; Probes := [{| event := "utime"; attach := sysCall; fn := "utime" |}]; EssentialEvent := false; Sets := ["syscalls"; "fs"; "fs_file_attr"] |});
  (MknodEventID, {| ID := Some MknodEventID; ID32Bit := Some sys32mknod; Name := "mknod"; Probes := [{| event := "mknod"; attach := sysCall; fn := "mknod" |}]; EssentialEvent := false; Sets := ["default"; "syscalls"; "fs"; "fs_file_ops"] |});
  (UselibEventID, {| ID := Some UselibEventID; ID32Bit := Some sys32uselib; Name := "uselib"; Probes := [{| event := "uselib"; attach := sysCall; fn := "uselib" |}]; EssentialEvent := false; Sets := ["syscalls"; "proc"] |});
  (PersonalityEventID, {| ID := Some PersonalityEventID; ID32Bit := Some sys32personality; Name := "personality"; Probes := [{| event := "personality"; attach := sysCall; fn := "personality" |}]; EssentialEvent := false; Sets := ["syscalls"; "system"] |});
  (UstatEventID, {| ID := Some UstatEventID; ID32Bit := Some sys32ustat; Name := "ustat"; Probes := [{| event := "ustat"; attach := sysCall; fn := "ustat" |}]; EssentialEvent := false; Sets := ["syscalls"; "fs"; "fs_info"] |});
  (StatfsEventID, {| ID := Some StatfsEventID; ID32Bit := Some sys32statfs; Name := "statfs"; Probes := [{| event := "statfs"; attach := sysCall; fn := "statfs" |}]; EssentialEvent := false; Sets := ["syscalls"; "fs"; "fs_info"] |});
  (FstatfsEventID, {| ID := Some FstatfsEventID; ID32Bit := Some sys32fstatfs; Name := "fstatfs"; Probes := [{| event := "fstatfs"; attach := sysCall; fn := "fstatfs" |}]; EssentialEvent := false; Sets := ["syscalls"; "fs"; "fs_info"] |});
  (SysfsEventID, {| ID := Some SysfsEventID; ID32Bit := Some sys32sysfs; Name := "sysfs"; Probes := [{| event := "sysfs"; attach := sysCall; fn := "sysfs" |}]; EssentialEvent := false; Sets := ["syscalls"; "fs"; "fs_info"] |});
  (GetpriorityEventID, {| ID := Some GetpriorityEventID; ID32Bit := Some sys32getpriority; Name := "getpriority"; Probes := [{| event := "getpriority"; attach := sysCall; fn := "getpriority" |}]; EssentialEvent := false; Sets := ["syscalls"; "proc"; "proc_sched"] |});
  (SetpriorityEventID, {| ID := Some SetpriorityEventID; ID32Bit := Some sys32setpriority; Name := "setpriority"; Probes := [{| event := "setpriority"; attach := sysCall; fn := "setpriority" |}]; EssentialEvent := false; Sets := ["syscalls"; "proc"; "proc_sched"] |});
  (SchedSetparamEventID, {| ID := Some SchedSetparamEventID; ID32Bit := Some sys32sched_setparam; Name := "sched_setparam"; Probes := [{| event := "sched_setparam"; attach := sysCall; fn := "sched_setparam" |}]; EssentialEvent := false; Sets := ["syscalls"; "proc"; "proc_sched"] |});
  (SchedGetparamEventID, {| ID := Some SchedGetparamEventID; ID32Bit := Some sys32sched_getparam; Name := "sched_getparam"; Probes := [{| event := "sched_getparam"; attach := sysCall; fn := "sched_getparam" |}]; EssentialEvent := false; Sets := ["syscalls"; "proc"; "proc_sched"] |});
  (SchedSetschedulerEventID, {| ID := Some SchedSetschedulerEventID; ID32Bit := Some sys32sched_setscheduler; Name := "sched_setscheduler"; Probes := [{| event := "sched_setscheduler"; attach := sysCall; fn := "sched_setscheduler" |}]; EssentialEvent := false; Sets := ["syscalls"; "proc"; "proc_sched"] |});
  (SchedGetschedulerEventID, {| ID := Some SchedGetschedulerEventID; ID32Bit := Some sys32sched_getscheduler; Name := "sched_getscheduler"; Probes := [{| event := "sched_getscheduler"; attach := sysCall; fn := "sched_getscheduler" |}]; EssentialEvent := false; Sets := ["syscalls"; "proc"; "proc_sched"] |});
  (SchedGetPriorityMaxEventID, {| ID := Some SchedGetPriorityMaxEventID; ID32Bit := Some sys32sched_get_priority_max; Name := "sched_get_priority_max"; Probes := [{| event := "sched_get_priority_max"; attach := sysCall; fn := "sched_get_priority_max" |}]; EssentialEvent := false; Sets := ["syscalls"; "proc"; "proc_sched"] |});
  (SchedGetPriorityMinEventID, {| ID := Some SchedGetPriorityMinEventID; ID32Bit := Some sys32sched_get_priority_min; Name := "sched_get_priority_min"; Probes := [{| event := "sched_get_priority_min"; attach := sysCall; fn := "sched_get_priority_min" |}]; EssentialEvent := false; Sets := ["syscalls"; "proc"; "proc_sched"] |});
  (SchedRrGetIntervalEventID, {| ID := Some SchedRrGetIntervalEventID; ID32Bit := Some sys32sched_rr_get_interval; Name := "sched_rr_get_interval"; Probes := [{| event := "sched_rr_get_interval"; attach := sysCall; fn := "sched_rr_get_interval" |}]; EssentialEvent := false; Sets := ["syscalls"; "proc"; "proc_sched"] |});
  (MlockEventID, {| ID := Some MlockEventID; ID32Bit := Some sys32mlock; Name := "mlock"; Probes := [{| event := "mlock"; attach := sysCall; fn := "mlock" |}]; EssentialEvent := false; Sets := ["syscalls"; "proc"; "proc_mem"] |});
  (MunlockEventID, {| ID := Some MunlockEventID; ID32Bit := Some sys32munlock; Name := "munlock"; Probes := [{| event := "munlock"; attach := sysCall; fn := "munlock" |}]; EssentialEvent := false; Sets := ["syscalls"; "proc"; "proc_mem"] |});
  (MlockallEventID, {| ID := Some MlockallEventID; ID32Bit := Some sys32mlockall; Name := "mlockall"; Probes := [{| event := "mlockall"; attach := sysCall; fn := "mlockall" |}]; EssentialEvent := false; Sets := ["syscalls"; "proc"; "proc_mem"] |});
  (MunlockallEventID, {| ID := Some MunlockallEventID; ID32Bit := Some sys32munlockall; Name := "munlockall"; Probes := [{| event := "munlockall"; attach := sysCall; fn := "munlockall" |}]; EssentialEvent := false; Sets := ["syscalls"; "proc"; "proc_mem"] |});
  (VhangupEventID, {| ID := Some VhangupEventID; ID32Bit := Some sys32vhangup; Name := "vhangup"; Probes := [{| event := "vhangup"; attach := sysCall; fn := "vhangup" |}]; EssentialEvent := false; Sets := ["syscalls"; "system"] |});
  (ModifyLdtEventID, {| ID := Some ModifyLdtEventID; ID32Bit := Some sys32modify_ldt; Name := "modify_ldt"; Probes := [{| event := "modify_ldt"; attach := sysCall; fn := "modify_ldt" |}]; EssentialEvent := false; Sets := ["syscalls"; "proc"; "proc_mem"] |});
  (PivotRootEventID, {| ID := Some PivotRootEventID; ID32Bit := Some sys32pivot_root; Name := "pivot_root"; Probes := [{| event := "pivot_root"; attach := sysCall; fn := "pivot_root" |}]; EssentialEvent := false; Sets := ["syscalls"; "fs"] |});
  (SysctlEventID, {| ID := Some SysctlEventID; ID32Bit := Some sys32undefined; Name := "sysctl"; Probes := [{| event := "sysctl"; attach := sysCall; fn := "sysctl" |}]; EssentialEvent := false; Sets := ["syscalls"; "system"] |});
  (PrctlEventID, {| ID := Some PrctlEventID; ID32Bit := Some sys32prctl; Name := "prctl"; Probes := [{| event := "prctl"; attach := sysCall; fn := "prctl" |}]; EssentialEvent := false; Sets := ["default"; "syscalls"; "proc"] |});
  (ArchPrctlEventID, {| ID := Some ArchPrctlEventID; ID32Bit := Some sys32arch_prctl; Name := "arch_prctl"; Probes := [{| event := "arch_prctl"; attach := sysCall; fn := "arch_prctl" |}]; EssentialEvent := false; Sets := ["syscalls"; "proc"] |});
  (AdjtimexEventID, {| ID := Some AdjtimexEventID; ID32Bit := Some sys32adjtimex; Name := "adjtimex"; Probes := [{| event := "adjtimex"; attach := sysCall; fn := "adjtimex" |}]; EssentialEvent := false; Sets := ["syscalls"; "time"; "time_clock"] |});
  (SetrlimitEventID, {| ID := Some SetrlimitEventID; ID32Bit := Some sys32setrlimit; Name := "setrlimit"; Probes := [{| event := "setrlimit"; attach := sysCall; fn := "setrlimit" |}]; EssentialEvent := false; Sets := ["syscalls"; "proc"] |});
  (ChrootEventID, {| ID := Some ChrootEventID; ID32Bit := Some sys32chroot; Name := "chroot"; Probes := [{| event := "chroot"; attach := sysCall; fn := "chroot" |}]; EssentialEvent := false; Sets := ["syscalls"; "fs"; "fs_dir_ops"] |});
  (SyncEventID, {| ID := Some SyncEventID; ID32Bit := Some sys32sync; Name := "sync"; Probes := [{| event := "sync"; attach := sysCall; fn := "sync" |}]; EssentialEvent := false; Sets := ["syscalls"; "fs"; "fs_sync"] |});
  (AcctEventID, {| ID := Some AcctEventID; ID32Bit := Some sys32acct; Name := "acct"; Probes := [{| event := "acct"; attach := sysCall; fn := "acct" |}]; EssentialEvent := false; Sets := ["syscalls"; "system"] |});
  (SettimeofdayEventID, {| ID := Some SettimeofdayEventID; ID32Bit := Some sys32settimeofday; Name := "settimeofday"; Probes := [{| event := "settimeofday"; attach := sysCall; fn := "settimeofday" |}]; EssentialEvent := false; Sets := ["syscalls"; "time"; "time_tod"] |});
  (MountEventID, {| ID := Some MountEventID; ID32Bit := Some sys32mount; Name := "mount"; Probes := [{| event := "mount"; attach := sysCall; fn := "mount" |}]; EssentialEvent := false; Sets := ["default"; "syscalls"; "fs"] |});
  (UmountEventID, {| ID := Some UmountEventID; ID32Bit := Some sys32umount; Name := "umount"; Probes := [{| event := "umount"; attach := sysCall; fn := "umount" |}]; EssentialEvent := false; Sets := ["default"; "syscalls"; "fs"] |});
  (SwaponEventID, {| ID := Some SwaponEventID; ID32Bit := Some sys32swapon; Name := "swapon"; Probes := [{| event := "swapon"; attach := sysCall; fn := "swapon" |}]; EssentialEvent := false; Sets := ["syscalls"; "fs"] |});
  (SwapoffEventID, {| ID := Some SwapoffEventID; ID32Bit := Some sys32swapoff; Name := "swapoff"; Probes := [{| event := "swapoff"; attach := sysCall; fn := "swapoff" |}]; EssentialEvent := false; Sets := ["syscalls"; "fs"] |});
  (RebootEventID, {| ID := Some RebootEventID; ID32Bit := Some sys32reboot; Name := "reboot"; Probes := [{| event := "reboot"; attach := sysCall; fn := "reboot" |}]; EssentialEvent := false; Sets := ["syscalls"; "system"] |});
  (SethostnameEventID, {| ID := Some SethostnameEventID; ID32Bit := Some sys32sethostname; Name := "sethostname"; Probes := [{| event := "sethostname"; attach := sysCall; fn := "sethostname" |}]; EssentialEvent := false; Sets := ["syscalls"; "net"] |});
  (SetdomainnameEventID, {| ID := Some SetdomainnameEventID; ID32Bit := Some sys32setdomainname; Name := "setdomainname"; Probes := [{| event := "setdomainname"; attach := sysCall; fn := "setdomainname" |}]; EssentialEvent := false; Sets := ["syscalls"; "net"] |});
  (IoplEventID, {| ID := Some IoplEventID; ID32Bit := Some sys32iopl; Name := "iopl"; Probes := [{| event := "iopl"; attach := sysCall; fn := "iopl" |}]; EssentialEvent := false; Sets := ["syscalls"; "system"] |});
  (IopermEventID, {| ID := Some IopermEventID; ID32Bit := Some sys32ioperm; Name := "ioperm"; Probes := [{| event := "ioperm"; attach := sysCall; fn := "ioperm" |}]; EssentialEvent := false; Sets := ["syscalls"; "system"] |});
  (CreateModuleEventID, {| ID := Some CreateModuleEventID; ID32Bit := Some sys32create_module; Name := "create_module"; Probes := [{| event := "create_module"; attach := sysCall; fn := "create_module" |}]; EssentialEvent := false; Sets := ["syscalls"; "system"; "system_module"] |});
  (InitModuleEventID, {| ID := Some InitModuleEventID; ID32Bit := Some sys32init_module; Name := "init_module"; Probes := [{| event := "init_module"; attach := sysCall; fn := "init_module" |}]; EssentialEvent := false; Sets := ["default"; "syscalls"; "system"; "system_module"] |});
  (DeleteModuleEventID, {| ID := Some DeleteModuleEventID; ID32Bit := Some sys32delete_module; Name := "delete_module"; Probes := [{| event := "delete_module"; attach := sysCall; fn := "delete_module" |}]; EssentialEvent := false; Sets := ["default"; "syscalls"; "system"; "system_module"] |});
  (GetKernelSymsEventID, {| ID := Some GetKernelSymsEventID; ID32Bit := Some sys32get_kernel_syms; Name := "get_kernel_syms"; Probes := [{| event := "get_kernel_syms"; attach := sysCall; fn := "get_kernel_syms" |}]; EssentialEvent := false; Sets := ["syscalls"; "system"; "system_module"] |});
  (QueryModuleEventID, {| ID := Some QueryModuleEventID; ID32Bit := Some sys32query_module; Name := "query_module"; Probes := [{| event := "query_module"; attach := sysCall; fn := "query_module" |}]; EssentialEvent := false; Sets := ["syscalls"; "system"; "system_module"] |});
  (QuotactlEventID, {| ID := Some QuotactlEventID; ID32Bit := Some sys32quotactl; Name := "quotactl"; Probes := [{| event := "quotactl"; attach := sysCall; fn := "quotactl" |}]; EssentialEvent := false; Sets := ["syscalls"; "system"] |});
  (NfsservctlEventID, {| ID := Some NfsservctlEventID; ID32Bit := Some sys32nfsservctl; Name := "nfsservctl"; Probes := [{| event := "nfsservctl"; attach := sysCall; fn := "nfsservctl" |}]; EssentialEvent := false; Sets := ["syscalls"; "fs"] |});
  (GetpmsgEventID, {| ID := Some GetpmsgEventID; ID32Bit := Some sys32getpmsg; Name := "getpmsg"; Probes := [{| event := "getpmsg"; attach := sysCall; fn := "getpmsg" |}]; EssentialEvent := false; Sets := ["syscalls"] |});
  (PutpmsgEventID, {| ID := Some PutpmsgEventID; ID32Bit := Some sys32putpmsg; Name := "putpmsg"; Probes := [{| event := "putpmsg"; attach := sysCall; fn := "putpmsg" |}]; EssentialEvent := false; Sets := ["syscalls"] |});
  (AfsEventID, {| ID := Some AfsEventID; ID32Bit := Some sys32undefined; Name := "afs"; Probes := [{| event := "afs"; attach := sysCall; fn := "afs" |}]; EssentialEvent := false; Sets := ["syscalls"] |});
  (TuxcallEventID, {| ID := Some TuxcallEventID; ID32Bit := Some sys32undefined; Name := "tuxcall"; Probes := [{| event := "tuxcall"; attach := sysCall; fn := "tuxcall" |}]; EssentialEvent := false; Sets := ["syscalls"] |});
  (SecurityEventID, {| ID := Some SecurityEventID; ID32Bit := Some sys32undefined; Name := "security"; Probes := [{| event := "security"; attach := sysCall; fn := "security" |}]; EssentialEvent := false; Sets := ["syscalls"] |});
  (GettidEventID, {| ID := Some GettidEventID; ID32Bit := Some sys32gettid; Name := "gettid"; Probes := [{| event := "gettid"; attach := sysCall; fn := "gettid" |}]; EssentialEvent := false; Sets := ["syscalls"; "proc"; "proc_ids"] |});
  (ReadaheadEventID, {| ID := Some ReadaheadEventID; ID32Bit := Some sys32readahead; Name := "readahead"; Probes := [{| event := "readahead"; attach := sysCall; fn := "readahead" |}]; EssentialEvent := false; Sets := ["syscalls"; "fs"] |});
  (SetxattrEventID, {| ID := Some SetxattrEventID; ID32Bit := Some sys32setxattr; Name := "setxattr"; Probes := [{| event := "setxattr"; attach := sysCall; fn := "setxattr" |}]; EssentialEvent := false; Sets := ["syscalls"; "fs"; "fs_file_attr"] |});
  (LsetxattrEventID, {| ID := Some LsetxattrEventID; ID32Bit := Some sys32lsetxattr; Name := "lsetxattr"; Probes := [{| event := "lsetxattr"; attach := sysCall; fn := "lsetxattr" |}]; EssentialEvent := false; Sets := ["syscalls"; "fs"; "fs_file_attr"] |});
  (FsetxattrEventID, {| ID := Some FsetxattrEventID; ID32Bit := Some sys32fsetxattr; Name := "fsetxattr"; Probes := [{| event := "fsetxattr"; attach := sysCall; fn := "fsetxattr" |}]; EssentialEvent := false; Sets := ["syscalls"; "fs"; "fs_file_attr"] |});
  (GetxattrEventID, {| ID := Some GetxattrEventID; ID32Bit := Some sys32getxattr; Name := "getxattr"; Probes := [{| event := "getxattr"; attach := sysCall; fn := "getxattr" |}]; EssentialEvent := false; Sets := ["syscalls"; "fs"; "fs_file_attr"] |});
  (LgetxattrEventID, {| ID := Some LgetxattrEventID; ID32Bit := Some sys32lgetxattr; Name := "lgetxattr"; Probes := [{| event := "lgetxattr"; attach := sysCall; fn := "lgetxattr" |}]; EssentialEvent := false; Sets := ["syscalls"; "fs"; "fs_file_attr"] |});
  (FgetxattrEventID, {| ID := Some FgetxattrEventID; ID32Bit := Some sys32fgetxattr; Name := "fgetxattr"; Probes := [{| event := "fgetxattr"; attach := sysCall; fn := "fgetxattr" |}]; EssentialEvent := false; Sets := ["syscalls"; "fs"; "fs_file_attr"] |});
  (ListxattrEventID, {| ID := Some ListxattrEventID; ID32Bit := Some sys32listxattr; Name := "listxattr"; Probes := [{| event := "listxattr"; attach := sysCall; fn := "listxattr" |}]; EssentialEvent := false; Sets := ["syscalls"; "fs"; "fs_file_attr"] |});
  (LlistxattrEventID, {| ID := Some LlistxattrEventID; ID32Bit := Some sys32llistxattr; Name := "llistxattr"; Probes := [{| event := "llistxattr"; attach := sysCall; fn := "llistxattr" |}]; EssentialEvent := false; Sets := ["syscalls"; "fs"; "fs_file_attr"] |});
  (FlistxattrEventID, {| ID := Some FlistxattrEventID; ID32Bit := Some sys32flistxattr; Name := "flistxattr"; Probes := [{| event := "flistxattr"; attach := sysCall; fn := "flistxattr" |}]; EssentialEvent := false; Sets := ["syscalls"; "fs"; "fs_file_attr"] |});
  (RemovexattrEventID, {| ID := Some RemovexattrEventID; ID32Bit := Some sys32removexattr; Name := "removexattr"; Probes := [{| event := "removexattr"; attach := sysCall; fn := "removexattr" |}]; EssentialEvent := false; Sets := ["syscalls"; "fs"; "fs_file_attr"] |});
  (LremovexattrEventID, {| ID := Some LremovexattrEventID; ID32Bit := Some sys32lremovexattr; Name := "lremovexattr"; Probes := [{| event := "lremovexattr"; attach := sysCall; fn := "lremovexattr" |}]; EssentialEvent := false; Sets := ["syscalls"; "fs"; "fs_file_attr"] |});
  (FremovexattrEventID, {| ID := Some FremovexattrEventID; ID32Bit := Some sys32fremovexattr; Name := "fremovexattr"; Probes := [{| event := "fremovexattr"; attach := sysCall; fn := "fremovexattr" |}]; EssentialEvent := false; Sets := ["syscalls"; "fs"; "fs_file_attr"] |});
  (TkillEventID, {| ID := Some TkillEventID; ID32Bit := Some sys32tkill; Name := "tkill"; Probes := [{| event := "tkill"; attach := sysCall; fn := "tkill" |}]; EssentialEvent := false; Sets := ["syscalls"; "signals"] |});
  (TimeEventID, {| ID := Some TimeEventID; ID32Bit := Some sys32time; Name := "time"; Probes := [{| event := "time"; attach := sysCall; fn := "time" |}]; EssentialEvent := false; Sets := ["syscalls"; "time"; "time_tod"] |});
  (FutexEventID, {| ID := Some FutexEventID; ID32Bit := Some sys32futex; Name := "futex"; Probes := [{| event := "futex"; attach := sysCall; fn := "futex" |}]; EssentialEvent := false; Sets := ["syscalls"; "ipc"; "ipc_futex"] |});
  (SchedSetaffinityEventID, {| ID := Some SchedSetaffinityEventID; ID32Bit := Some sys32sched_setaffinity; Name := "sched_setaffinity"; Probes := [{| event := "sched_setaffinity"; attach := sysCall; fn := "sched_setaffinity" |}]; EssentialEvent := false; Sets := ["syscalls"; "proc"; "proc_sched"] |});
  (SchedGetaffinityEventID, {| ID := Some SchedGetaffinityEventID; ID32Bit := Some sys32sched_getaffinity; Name := "sched_getaffinity"; Probes := [{| event := "sched_getaffinity"; attach := sysCall; fn := "sched_getaffinity" |}]; EssentialEvent := false; Sets := ["syscalls"; "proc"; "proc_sched"] |});
  (SetThreadAreaEventID, {| ID := Some SetThreadAreaEventID; ID32Bit := Some sys32set_thread_area; Name := "set_thread_area"; Probes := [{| event := "set_thread_area"; attach := sysCall; fn := "set_thread_area" |}]; EssentialEvent := false; Sets := ["syscalls"; "proc"] |});
  (IoSetupEventID, {| ID := Some IoSetupEventID; ID32Bit := Some sys32io_setup; Name := "io_setup"; Probes := [{| event := "io_setup"; attach := sysCall; fn := "io_setup" |}]; EssentialEvent := false; Sets := ["syscalls"; "fs"; "fs_async_io"] |});
  (IoDestroyEventID, {| ID := Some IoDestroyEventID; ID32Bit := Some sys32io_destroy; Name := "io_destroy"; Probes := [{| event := "io_destroy"; attach := sysCall; fn := "io_destroy" |}]; EssentialEvent := false; Sets := ["syscalls"; "fs"; "fs_async_io"] |});
  (IoGeteventsEventID, {| ID := Some IoGeteventsEventID; ID32Bit := Some sys32io_getevents; Name := "io_getevents"; Probes := [{| event := "io_getevents"; attach := sysCall; fn := "io_getevents" |}]; EssentialEvent := false; Sets := ["syscalls"; "fs"; "fs_async_io"] |});
  (IoSubmitEventID, {| ID := Some IoSubmitEventID; ID32Bit := Some sys32io_submit; Name := "io_submit"; Probes := [{| event := "io_submit"; attach := sysCall; fn := "io_submit" |}]; EssentialEvent := false; Sets := ["syscalls"; "fs"; "fs_async_io"] |});
  (IoCancelEventID, {| ID := Some IoCancelEventID; ID32Bit := Some sys32io_cancel; Name := "io_cancel"; Probes := [{| event := "io_cancel"; attach := sysCall; fn := "io_cancel" |}]; EssentialEvent := false; Sets := ["syscalls"; "fs"; "fs_async_io"] |});
  (GetThreadAreaEventID, {| ID := Some GetThreadAreaEventID; ID32Bit := Some sys32get_thread_area; Name := "get_thread_area"; Probes := [{| event := "get_thread_area"; attach := sysCall; fn := "get_thread_area" |}]; EssentialEvent := false; Sets := ["syscalls"; "proc"] |});
  (LookupDcookieEventID, {| ID := Some LookupDcookieEventID; ID32Bit := Some sys32lookup_dcookie; Name := "lookup_dcookie"; Probes := [{| event := "lookup_dcookie"; attach := sysCall; fn := "lookup_dcookie" |}]; EssentialEvent := false; Sets := ["syscalls"; "fs"; "fs_dir_ops"] |});
  (EpollCreateEventID, {| ID := Some EpollCreateEventID; ID32Bit := Some sys32epoll_create; Name := "epoll_create"; Probes := [{| event := "epoll_create"; attach := sysCall; fn := "epoll_create" |}]; EssentialEvent := false; Sets := ["syscalls"; "fs"; "fs_mux_io"] |});
  (EpollCtlOldEventID, {| ID := Some EpollCtlOldEventID; ID32Bit := Some sys32undefined; Name := "epoll_ctl_old"; Probes := [{| event := "epoll_ctl_old"; attach := sysCall; fn := "epoll_ctl_old" |}]; EssentialEvent := false; Sets := ["syscalls"; "fs"; "fs_mux_io"] |});
  (EpollWaitOldEventID, {| ID := Some EpollWaitOldEventID; ID32Bit := Some sys32undefined; Name := "epoll_wait_old"; Probes := [{| event := "epoll_wait_old"; attach := sysCall; fn := "epoll_wait_old" |}]; EssentialEvent := false; Sets := ["syscalls"; "fs"; "fs_mux_io"] |});
  (RemapFilePagesEventID, {| ID := Some RemapFilePagesEventID; ID32Bit := Some sys32remap_file_pages; Name := "remap_file_pages"; Probes := [{| event := "remap_file_pages"; attach := sysCall; fn := "remap_file_pages" |}]; EssentialEvent := false; Sets := ["syscalls"] |});
  (Getdents64EventID, {| ID := Some Getdents64EventID; ID32Bit := Some sys32getdents64; Name := "getdents64"; Probes := [{| event := "getdents64"; attach := sysCall; fn := "getdents64" |}]; EssentialEvent := false; Sets := ["default"; "syscalls"; "fs"; "fs_dir_ops"] |});
  (SetTidAddressEventID, {| ID := Some SetTidAddressEventID; ID32Bit := Some sys32set_tid_address; Name := "set_tid_address"; Probes := [{| event := "set_tid_address"; attach := sysCall; fn := "set_tid_address" |}]; EssentialEvent := false; Sets := ["syscalls"; "proc"] |});
  (RestartSyscallEventID, {| ID := Some RestartSyscallEventID; ID32Bit := Some sys32restart_syscall; Name := "restart_syscall"; Probes := [{| event := "restart_syscall"; attach := sysCall; fn := "restart_syscall" |}]; EssentialEvent := false; Sets := ["syscalls"; "signals"] |});
  (SemtimedopEventID, {| ID := Some SemtimedopEventID; ID32Bit := Some sys32semtimedop_time64; Name := "semtimedop"; Probes := [{| event := "semtimedop"; attach := sysCall; fn := "semtimedop" |}]; EssentialEvent := false; Sets := ["syscalls"; "ipc"; "ipc_sem"] |});
  (Fadvise64EventID, {| ID := Some Fadvise64EventID; ID32Bit := Some sys32fadvise64; Name := "fadvise64"; Probes := [{| event := "fadvise64"; attach := sysCall; fn := "fadvise64" |}]; EssentialEvent := false; Sets := ["syscalls"; "fs"] |});
  (TimerCreateEventID, {| ID := Some TimerCreateEventID; ID32Bit := Some sys32timer_create; Name := "timer_create"; Probes := [{| event := "timer_create"; attach := sysCall; fn := "timer_create" |}]; EssentialEvent := false; Sets := ["syscalls"; "time"; "time_timer"] |});
  (TimerSettimeEventID, {| ID := Some TimerSettimeEventID; ID32Bit := Some sys32timer_settime; Name := "timer_settime"; Probes := [{| event := "timer_settime"; attach := sysCall; fn := "timer_settime" |}]; EssentialEvent := false; Sets := ["syscalls"; "time"; "time_timer"] |});
  (TimerGettimeEventID, {| ID := Some TimerGettimeEventID; ID32Bit := Some sys32timer_gettime; Name := "timer_gettime"; Probes := [{| event := "timer_gettime"; attach := sysCall; fn := "timer_gettime" |}]; EssentialEvent := false; Sets := ["syscalls"; "time"; "time_timer"] |});
  (TimerGetoverrunEventID, {| ID := Some TimerGetoverrunEventID; ID32Bit := Some sys32timer_getoverrun; Name := "timer_getoverrun"; Probes := [{| event := "timer_getoverrun"; attach := sysCall; fn := "timer_getoverrun" |}]; EssentialEvent := false; Sets := ["syscalls"; "time"; "time_timer"] |});
  (TimerDeleteEventID, {| ID := Some TimerDeleteEventID; ID32Bit := Some sys32timer_delete; Name := "timer_delete"; Probes := [{| event := "timer_delete"; attach := sysCall; fn := "timer_delete" |}]; EssentialEvent := false; Sets := ["syscalls"; "time"; "time_timer"] |});
  (ClockSettimeEventID, {| ID := Some ClockSettimeEventID; ID32Bit := Some sys32clock_settime; Name := "clock_settime"; Probes := [{| event := "clock_settime"; attach := sysCall; fn := "clock_settime" |}]; EssentialEvent := false; Sets := ["syscalls"; "time"; "time_clock"] |});
  (ClockGettimeEventID, {| ID := Some ClockGettimeEventID; ID32Bit := Some sys32clock_gettime; Name := "clock_gettime"; Probes := [{| event := "clock_gettime"; attach := sysCall; fn := "clock_gettime" |}]; EssentialEvent := false; Sets := ["syscalls"; "time"; "time_clock"] |});
  (ClockGetresEventID, {| ID := Some ClockGetresEventID; ID32Bit := Some sys32clock_getres; Name := "clock_getres"; Probes := [{| event := "clock_getres"; attach := sysCall; fn := "clock_getres" |}]; EssentialEvent := false; Sets := ["syscalls"; "time"; "time_clock"] |});
  (ClockNanosleepEventID, {| ID := Some ClockNanosleepEventID; ID32Bit := Some sys32clock_nanosleep; Name := "clock_nanosleep"; Probes := [{| event := "clock_nanosleep"; attach := sysCall; fn := "clock_nanosleep" |}]; EssentialEvent := false; Sets := ["syscalls"; "time"; "time_clock"] |});
  (ExitGroupEventID, {| ID := Some ExitGroupEventID; ID32Bit := Some sys32exit_group; Name := "exit_group"; Probes := [{| event := "exit_group"; attach := sysCall; fn := "exit_group" |}]; EssentialEvent := false; Sets := ["syscalls"; "proc"; "proc_life"] |});
  (EpollWaitEventID, {| ID := Some EpollWaitEventID; ID32Bit := Some sys32epoll_wait; Name := "epoll_wait"; Probes := [{| event := "epoll_wait"; attach := sysCall; fn := "epoll_wait" |}]; EssentialEvent := false; Sets := ["syscalls"; "fs"; "fs_mux_io"] |});
  (EpollCtlEventID, {| ID := Some EpollCtlEventID; ID32Bit := Some sys32epoll_ctl; Name := "epoll_ctl"; Probes := [{| event := "epoll_ctl"; attach := sysCall; fn := "epoll_ctl" |}]; EssentialEvent := false; Sets := ["syscalls"; "fs"; "fs_mux_io"] |});
  (TgkillEventID, {| ID := Some TgkillEventID; ID32Bit := Some sys32tgkill; Name := "tgkill"; Probes := [{| event := "tgkill"; attach := sysCall; fn := "tgkill" |}]; EssentialEvent := false; Sets := ["syscalls"; "signals"] |});
  (UtimesEventID, {| ID := Some UtimesEventID; ID32Bit := Some sys32utimes; Name := "utimes"; Probes := [{| event := "utimes"; attach := sysCall; fn := "utimes" |}]; EssentialEvent := false; Sets := ["syscalls"; "fs"; "fs_file_attr"] |});
  (VserverEventID, {| ID := Some VserverEventID; ID32Bit := Some sys32vserver; Name := "vserver"; Probes := [{| event := "vserver"; attach := sysCall; fn := "vserver" |}]; EssentialEvent := false; Sets := ["syscalls"] |});
  (MbindEventID, {| ID := Some MbindEventID; ID32Bit := Some sys32mbind; Name := "mbind"; Probes := [{| event := "mbind"; attach := sysCall; fn := "mbind" |}]; EssentialEvent := false; Sets := ["syscalls"; "system"; "system_numa"] |});
  (SetMempolicyEventID, {| ID := Some SetMempolicyEventID; ID32Bit := Some sys32set_mempolicy; Name := "set_mempolicy"; Probes := [{| event := "set_mempolicy"; attach := sysCall; fn := "set_mempolicy" |}]; EssentialEvent := false; Sets := ["syscalls"; "system"; "system_numa"] |});
  (GetMempolicyEventID, {| ID := Some GetMempolicyEventID; ID32Bit := Some sys32get_mempolicy; Name := "get_mempolicy"; Probes := [{| event := "get_mempolicy"; attach := sysCall; fn := "get_mempolicy" |}]; EssentialEvent := false; Sets := ["syscalls"; "system"; "system_numa"] |});
  (MqOpenEventID, {| ID := Some MqOpenEventID; ID32Bit := Some sys32mq_open; Name := "mq_open"; Probes := [{| event := "mq_open"; attach := sysCall; fn := "mq_open" |}]; EssentialEvent := false; Sets := ["syscalls"; "ipc"; "ipc_msgq"] |});
  (MqUnlinkEventID, {| ID := Some MqUnlinkEventID; ID32Bit := Some sys32mq_unlink; Name := "mq_unlink"; Probes := [{| event := "mq_unlink"; attach := sysCall; fn := "mq_unlink" |}]; EssentialEvent := false; Sets := ["syscalls"; "ipc"; "ipc_msgq"] |});
  (MqTimedsendEventID, {| ID := Some MqTimedsendEventID; ID32Bit := Some sys32mq_timedsend; Name := "mq_timedsend"; Probes := [{| event := "mq_timedsend"; attach := sysCall; fn := "mq_timedsend" |}]; EssentialEvent := false; Sets := ["syscalls"; "ipc"; "ipc_msgq"] |});
  (MqTimedreceiveEventID, {| ID := Some MqTimedreceiveEventID; ID32Bit := Some sys32mq_timedreceive; Name := "mq_timedreceive"; Probes := [{| event := "mq_timedreceive"; attach := sysCall; fn := "mq_timedreceive" |}]; EssentialEvent := false; Sets := ["syscalls"; "ipc"; "ipc_msgq"] |});
  (MqNotifyEventID, {| ID := Some MqNotifyEventID; ID32Bit := Some sys32mq_notify; Name := "mq_notify"; Probes := [{| event := "mq_notify"; attach := sysCall; fn := "mq_notify" |}]; EssentialEvent := false; Sets := ["syscalls"; "ipc"; "ipc_msgq"] |});
  (MqGetsetattrEventID, {| ID := Some MqGetsetattrEventID; ID32Bit := Some sys32mq_getsetattr; Name := "mq_getsetattr"; Probes := [{| event := "mq_getsetattr"; attach := sysCall; fn := "mq_getsetattr" |}]; EssentialEvent := false; Sets := ["syscalls"; "ipc"; "ipc_msgq"] |});
  (KexecLoadEventID, {| ID := Some KexecLoadEventID; ID32Bit := Some sys32kexec_load; Name := "kexec_load"; Probes := [{| event := "kexec_load"; attach := sysCall; fn := "kexec_load" |}]; EssentialEvent := false; Sets := ["syscalls"; "system"] |});
  (WaitidEventID, {| ID := Some WaitidEventID; ID32Bit := Some sys32waitid; Name := "waitid"; Probes := [{| event := "waitid"; attach := sysCall; fn := "waitid" |}]; EssentialEvent := false; Sets := ["syscalls"; "proc"; "proc_life"] |});
  (AddKeyEventID, {| ID := Some AddKeyEventID; ID32Bit := Some sys32add_key; Name := "add_key"; Probes := [{| event := "add_key"; attach := sysCall; fn := "add_key" |}]; EssentialEvent := false; Sets := ["syscalls"; "system"; "system_keys"] |});
  (RequestKeyEventID, {| ID := Some RequestKeyEventID; ID32Bit := Some sys32request_key; Name := "request_key"; Probes := [{| event := "request_key"; attach := sysCall; fn := "request_key" |}]; EssentialEvent := false; Sets := ["syscalls"; "system"; "system_keys"] |});
  (KeyctlEventID, {| ID := Some KeyctlEventID; ID32Bit := Some sys32keyctl; Name := "keyctl"; Probes := [{| event := "keyctl"; attach := sysCall; fn := "keyctl" |}]; EssentialEvent := false; Sets := ["syscalls"; "system"; "system_keys"] |});
  (IoprioSetEventID, {| ID := Some IoprioSetEventID; ID32Bit := Some sys32ioprio_set; Name := "ioprio_set"; Probes := [{| event := "ioprio_set"; attach := sysCall; fn := "ioprio_set" |}]; EssentialEvent := false; Sets := ["syscalls"; "proc"; "proc_sched"] |});
  (IoprioGetEventID, {| ID := Some IoprioGetEventID; ID32Bit := Some sys32ioprio_get; Name := "ioprio_get"; Probes := [{| event := "ioprio_get"; attach := sysCall; fn := "ioprio_get" |}]; EssentialEvent := false; Sets := ["syscalls"; "proc"; "proc_sched"] |});
  (InotifyInitEventID, {| ID := Some InotifyInitEventID; ID32Bit := Some sys32inotify_init; Name := "inotify_init"; Probes := [{| event := "inotify_init"; attach := sysCall; fn := "inotify_init" |}]; EssentialEvent := false; Sets := ["syscalls"; "fs"; "fs_monitor"] |});
  (InotifyAddWatchEventID, {| ID := Some InotifyAddWatchEventID; ID32Bit := Some sys32inotify_add_watch; Name := "inotify_add_watch"; Probes := [{| event := "inotify_add_watch"; attach := sysCall; fn := "inotify_add_watch" |}]; EssentialEvent := false; Sets := ["syscalls"; "fs"; "fs_monitor"] |});
  (InotifyRmWatchEventID, {| ID := Some InotifyRmWatchEventID; ID32Bit := Some sys32inotify_rm_watch; Name := "inotify_rm_watch"; Probes := [{| event := "inotify_rm_watch"; attach := sysCall; fn := "inotify_rm_watch" |}]; EssentialEvent := false; Sets := ["syscalls"; "fs"; "fs_monitor"] |});
  (MigratePagesEventID, {| ID := Some MigratePagesEventID; ID32Bit := Some sys32migrate_pages; Name := "migrate_pages"; Probes := [{| event := "migrate_pages"; attach := sysCall; fn := "migrate_pages" |}]; EssentialEvent := false; Sets := ["syscalls"; "system"; "system_numa"] |});
  (OpenatEventID, {| ID := Some OpenatEventID; ID32Bit := Some sys32openat; Name := "openat"; Probes := [{| event := "openat"; attach := sysCall; fn := "openat" |}]; EssentialEvent := false; Sets := ["default"; "syscalls"; "fs"; "fs_file_ops"] |});
  (MkdiratEventID, {| ID := Some MkdiratEventID; ID32Bit := Some sys32mkdirat; Name := "mkdirat"; Probes := [{| event := "mkdirat"; attach := sysCall; fn := "mkdirat" |}]; EssentialEvent := false; Sets := ["syscalls"; "fs"; "fs_dir_ops"] |});
  (MknodatEventID, {| ID := Some MknodatEventID; ID32Bit := Some sys32mknodat; Name := "mknodat"; Probes := [{| event := "mknodat"; attach := sysCall; fn := "mknodat" |}]; EssentialEvent := false; Sets := ["default"; "syscalls"; "fs"; "fs_file_ops"] |});
  (FchownatEventID, {| ID := Some FchownatEventID; ID32Bit := Some sys32fchownat; Name := "fchownat"; Probes := [{| event := "fchownat"; attach := sysCall; fn := "fchownat" |}]; EssentialEvent := false; Sets := ["default"; "syscalls"; "fs"; "fs_file_attr"] |});
  (FutimesatEventID, {| ID := Some FutimesatEventID; ID32Bit := Some sys32futimesat; Name := "futimesat"; Probes := [{| event := "futimesat"; attach := sysCall; fn := "futimesat" |}]; EssentialEvent := false; Sets := ["syscalls"; "fs"; "fs_file_attr"] |});
  (NewfstatatEventID, {| ID := Some NewfstatatEventID; ID32Bit := Some sys32fstatat64; Name := "newfstatat"; Probes := [{| event := "newfstatat"; attach := sysCall; fn := "newfstatat" |}]; EssentialEvent := false; Sets := ["syscalls"; "fs"; "fs_file_attr"] |});
  (UnlinkatEventID, {| ID := Some UnlinkatEventID; ID32Bit := Some sys32unlinkat; Name := "unlinkat"; Probes := [{| event := "unlinkat"; attach := sysCall; fn := "unlinkat" |}]; EssentialEvent := false; Sets := ["default"; "syscalls"; "fs"; "fs_link_ops"] |});
  (RenameatEventID, {| ID := Some RenameatEventID; ID32Bit := Some sys32renameat; Name := "renameat"; Probes := [{| event := "renameat"; attach := sysCall; fn := "renameat" |}]; EssentialEvent := false; Sets := ["syscalls"; "fs"; "fs_file_ops"] |});
  (LinkatEventID, {| ID := Some LinkatEventID; ID32Bit := Some sys32linkat; Name := "linkat"; Probes := [{| event := "linkat"; attach := sysCall; fn := "linkat" |}]; EssentialEvent := false; Sets := ["syscalls"; "fs"; "fs_link_ops"] |});
  (SymlinkatEventID, {| ID := Some SymlinkatEventID; ID32Bit := Some sys32symlinkat; Name := "symlinkat"; Probes := [{| event := "symlinkat"; attach := sysCall; fn := "symlinkat" |}]; EssentialEvent := false; Sets := ["default"; "syscalls"; "fs"; "fs_link_ops"] |});
  (ReadlinkatEventID, {| ID := Some ReadlinkatEventID; ID32Bit := Some sys32readlinkat; Name := "readlinkat"; Probes := [{| event := "readlinkat"; attach := sysCall; fn := "readlinkat" |}]; EssentialEvent := false; Sets := ["syscalls"; "fs"; "fs_link_ops"] |});
  (FchmodatEventID, {| ID := Some FchmodatEventID; ID32Bit := Some sys32fchmodat; Name := "fchmodat"; Probes := [{| event := "fchmodat"; attach := sysCall; fn := "fchmodat" |}]; EssentialEvent := false; Sets := ["default"; "syscalls"; "fs"; "fs_file_attr"] |});
  (FaccessatEventID, {| ID := Some FaccessatEventID; ID32Bit := Some sys32faccessat; Name := "faccessat"; Probes := [{| event := "faccessat"; attach := sysCall; fn := "faccessat" |}]; EssentialEvent := false; Sets := ["default"; "syscalls"; "fs"; "fs_file_attr"] |});
  (Pselect6EventID, {| ID := Some Pselect6EventID; ID32Bit := Some sys32pselect6; Name := "pselect6"; Probes := [{| event := "pselect6"; attach := sysCall; fn := "pselect6" |}]; EssentialEvent := false; Sets := ["syscalls"; "fs"; "fs_mux_io"] |});
  (PpollEventID, {| ID := Some PpollEventID; ID32Bit := Some sys32ppoll; Name := "ppoll"; Probes := [{| event := "ppoll"; attach := sysCall; fn := "ppoll" |}]; EssentialEvent := false; Sets := ["syscalls"; "fs"; "fs_mux_io"] |});
  (UnshareEventID, {| ID := Some UnshareEventID; ID32Bit := Some sys32unshare; Name := "unshare"; Probes := [{| event := "unshare"; attach := sysCall; fn := "unshare" |}]; EssentialEvent := false; Sets := ["syscalls"; "proc"] |});
  (SetRobustListEventID, {| ID := Some SetRobustListEventID; ID32Bit := Some sys32set_robust_list; Name := "set_robust_list"; Probes := [{| event := "set_robust_list"; attach := sysCall; fn := "set_robust_list" |}]; EssentialEvent := false; Sets := ["syscalls"; "ipc"; "ipc_futex"] |});
  (GetRobustListEventID, {| ID := Some GetRobustListEventID; ID32Bit := Some sys32get_robust_list; Name := "get_robust_list"; Probes := [{| event := "get_robust_list"; attach := sysCall; fn := "get_robust_list" |}]; EssentialEvent := false; Sets := ["syscalls"; "ipc"; "ipc_futex"] |});
  (SpliceEventID, {| ID := Some SpliceEventID; ID32Bit := Some sys32splice; Name := "splice"; Probes := [{| event := "splice"; attach := sysCall; fn := "splice" |}]; EssentialEvent := false; Sets := ["syscalls"; "ipc"; "ipc_pipe"] |});
  (TeeEventID, {| ID := Some TeeEventID; ID32Bit := Some sys32tee; Name := "tee"; Probes := [{| event := "tee"; attach := sysCall; fn := "tee" |}]; EssentialEvent := false; Sets := ["syscalls"; "ipc"; "ipc_pipe"] |});
  (SyncFileRangeEventID, {| ID := Some SyncFileRangeEventID; ID32Bit := Some sys32sync_file_range; Name := "sync_file_range"; Probes := [{| event := "sync_file_range"; attach := sysCall; fn := "sync_file_range" |}]; EssentialEvent := false; Sets := ["syscalls"; "fs"; "fs_sync"] |});
  (VmspliceEventID, {| ID := Some VmspliceEventID; ID32Bit := Some sys32vmsplice; Name := "vmsplice"; Probes := [{| event := "vmsplice"; attach := sysCall; fn := "vmsplice" |}]; EssentialEvent := false; Sets := ["syscalls"; "ipc"; "ipc_pipe"] |});
  (MovePagesEventID, {| ID := Some MovePagesEventID; ID32Bit := Some sys32move_pages; Name := "move_pages"; Probes := [{| event := "move_pages"; attach := sysCall; fn := "move_pages" |}]; EssentialEvent := false; Sets := ["syscalls"; "system"; "system_numa"] |});
  (UtimensatEventID, {| ID := Some UtimensatEventID; ID32Bit := Some sys32utimensat; Name := "utimensat"; Probes := [{| event := "utimensat"; attach := sysCall; fn := "utimensat" |}]; EssentialEvent := false; Sets := ["syscalls"; "fs"; "fs_file_attr"] |});
  (EpollPwaitEventID, {| ID := Some EpollPwaitEventID; ID32Bit := Some sys32epoll_pwait; Name := "epoll_pwait"; Probes := [{| event := "epoll_pwait"; attach := sysCall; fn := "epoll_pwait" |}]; EssentialEvent := false; Sets := ["syscalls"; "fs"; "fs_mux_io"] |});
  (SignalfdEventID, {| ID := Some SignalfdEventID; ID32Bit := Some sys32signalfd; Name := "signalfd"; Probes := [{| event := "signalfd"; attach := sysCall; fn := "signalfd" |}]; EssentialEvent := false; Sets := ["syscalls"; "signals"] |});
  (TimerfdCreateEventID, {| ID := Some TimerfdCreateEventID; ID32Bit := Some sys32timerfd_create; Name := "timerfd_create"; Probes := [{| event := "timerfd_create"; attach := sysCall; fn := "timerfd_create" |}]; EssentialEvent := false; Sets := ["syscalls"; "time"; "time_timer"] |});
  (EventfdEventID, {| ID := Some EventfdEventID; ID32Bit := Some sys32eventfd; Name := "eventfd"; Probes := [{| event := "eventfd"; attach := sysCall; fn := "eventfd" |}]; EssentialEvent := false; Sets := ["syscalls"; "signals"] |});
  (FallocateEventID, {| ID := Some FallocateEventID; ID32Bit := Some sys32fallocate; Name := "fallocate"; Probes := [{| event := "fallocate"; attach := sysCall; fn := "fallocate" |}]; EssentialEvent := false; Sets := ["syscalls"; "fs"; "fs_file_ops"] |});
  (TimerfdSettimeEventID, {| ID := Some TimerfdSettimeEventID; ID32Bit := Some sys32timerfd_settime; Name := "timerfd_settime"; Probes := [{| event := "timerfd_settime"; attach := sysCall; fn := "timerfd_settime" |}]; EssentialEvent := false; Sets := ["syscalls"; "time"; "time_timer"] |});
  (TimerfdGettimeEventID, {| ID := Some TimerfdGettimeEventID; ID32Bit := Some sys32timerfd_gettime; Name := "timerfd_gettime"; Probes := [{| event := "timerfd_gettime"; attach := sysCall; fn := "timerfd_gettime" |}]; EssentialEvent := false; Sets := ["syscalls"; "time"; "time_timer"] |});
  (Accept4EventID, {| ID := Some Accept4EventID; ID32Bit := Some sys32accept4; Name := "accept4"; Probes := [{| event := "accept4"; attach := sysCall; fn := "accept4" |}]; EssentialEvent := false; Sets := ["default"; "syscalls"; "net"; "net_sock"] |});
  (Signalfd4EventID, {| ID := Some Signalfd4EventID; ID32Bit := Some sys32signalfd4; Name := "signalfd4"; Probes := [{| event := "signalfd4"; attach := sysCall; fn := "signalfd4" |}]; EssentialEvent := false; Sets := ["syscalls"; "signals"] |});
  (Eventfd2EventID, {| ID := Some Eventfd2EventID; ID32Bit := Some sys32eventfd2; Name := "eventfd2"; Probes := [{| event := "eventfd2"; attach := sysCall; fn := "eventfd2" |}]; EssentialEvent := false; Sets := ["syscalls"; "signals"] |});
  (EpollCreate1EventID, {| ID := Some EpollCreate1EventID; ID32Bit := Some sys32epoll_create1; Name := "epoll_create1"; Probes := [{| event := "epoll_create1"; attach := sysCall; fn := "epoll_create1" |}]; EssentialEvent := false; Sets := ["syscalls"; "fs"; "fs_mux_io"] |});
  (Dup3EventID, {| ID := Some Dup3EventID; ID32Bit := Some sys32dup3; Name := "dup3"; Probes := [{| event := "dup3"; attach := sysCall; fn := "dup3" |}]; EssentialEvent := false; Sets := ["default"; "syscalls"; "fs"; "fs_fd_ops"] |});
  (Pipe2EventID, {| ID := Some Pipe2EventID; ID32Bit := Some sys32pipe2; Name := "pipe2"; Probes := [{| event := "pipe2"; attach := sysCall; fn := "pipe2" |}]; EssentialEvent := false; Sets := ["syscalls"; "ipc"; "ipc_pipe"] |});
  (InotifyInit1EventID, {| ID := Some InotifyInit1EventID; ID32Bit := Some sys32inotify_init1; Name := "inotify_init1"; Probes := [{| event := "inotify_init1"; attach := sysCall; fn := "inotify_init1" |}]; EssentialEvent := false; Sets := ["syscalls"; "fs"; "fs_monitor"] |});
  (PreadvEventID, {| ID := Some PreadvEventID; ID32Bit := Some sys32preadv; Name := "preadv"; Probes := [{| event := "preadv"; attach := sysCall; fn := "preadv" |}]; EssentialEvent := false; Sets := ["syscalls"; "fs"; "fs_read_write"] |});
  (PwritevEventID, {| ID := Some PwritevEventID; ID32Bit := Some sys32pwritev; Name := "pwritev"; Probes := [{| event := "pwritev"; attach := sysCall; fn := "pwritev" |}]; EssentialEvent := false; Sets := ["syscalls"; "fs"; "fs_read_write"] |});
  (RtTgsigqueueinfoEventID, {| ID := Some RtTgsigqueueinfoEventID; ID32Bit := Some sys32rt_tgsigqueueinfo; Name := "rt_tgsigqueueinfo"; Probes := [{| event := "rt_tgsigqueueinfo"; attach := sysCall; fn := "rt_tgsigqueueinfo" |}]; EssentialEvent := false; Sets := ["syscalls"; "signals"] |});
  (PerfEventOpenEventID, {| ID := Some PerfEventOpenEventID; ID32Bit := Some sys32perf_event_open; Name := "perf_event_open"; Probes := [{| event := "perf_event_open"; attach := sysCall; fn := "perf_event_open" |}]; EssentialEvent := false; Sets := ["syscalls"; "system"] |});
  (RecvmmsgEventID, {| ID := Some RecvmmsgEventID; ID32Bit := Some sys32recvmmsg; Name := "recvmmsg"; Probes := [{| event := "recvmmsg"; attach := sysCall; fn := "recvmmsg" |}]; EssentialEvent := false; Sets := ["syscalls"; "net"; "net_snd_rcv"] |});
  (FanotifyInitEventID, {| ID := Some FanotifyInitEventID; ID32Bit := Some sys32fanotify_init; Name := "fanotify_init"; Probes := [{| event := "fanotify_init"; attach := sysCall; fn := "fanotify_init" |}]; EssentialEvent := false; Sets := ["syscalls"; "fs"; "fs_monitor"] |});
  (FanotifyMarkEventID, {| ID := Some FanotifyMarkEventID; ID32Bit := Some sys32fanotify_mark; Name := "fanotify_mark"; Probes := [{| event := "fanotify_mark"; attach := sysCall; fn := "fanotify_mark" |}]; EssentialEvent := false; Sets := ["syscalls"; "fs"; "fs_monitor"] |});
  (Prlimit64EventID, {| ID := Some Prlimit64EventID; ID32Bit := Some sys32prlimit64; Name := "prlimit64"; Probes := [{| event := "prlimit64"; attach := sysCall; fn := "prlimit64" |}]; EssentialEvent := false; Sets := ["syscalls"; "proc"] |});
  (NameToHandleAtEventID, {| ID := Some NameToHandleAtEventID; ID32Bit := Some sys32name_to_handle_at; Name := "name_to_handle_at"; Probes := [{| event := "name_to_handle_at"; attach := sysCall; fn := "name_to_handle_at" |}]; EssentialEvent := false; Sets := ["syscalls"; "fs"; "fs_file_ops"] |});
  (OpenByHandleAtEventID, {| ID := Some OpenByHandleAtEventID; ID32Bit := Some sys32open_by_handle_at; Name := "open_by_handle_at"; Probes := [{| event := "open_by_handle_at"; attach := sysCall; fn := "open_by_handle_at" |}]; EssentialEvent := false; Sets := ["syscalls"; "fs"; "fs_file_ops"] |});
  (ClockAdjtimeEventID, {| ID := Some ClockAdjtimeEventID; ID32Bit := Some sys32clock_adjtime; Name := "clock_adjtime"; Probes := [{| event := "clock_adjtime"; attach := sysCall; fn := "clock_adjtime" |}]; EssentialEvent := false; Sets := ["syscalls"; "time"; "time_clock"] |});
  (SyncfsEventID, {| ID := Some SyncfsEventID; ID32Bit := Some sys32syncfs; Name := "syncfs"; Probes := [{| event := "syncfs"; attach := sysCall; fn := "syncfs" |}]; EssentialEvent := false; Sets := ["syscalls"; "fs"; "fs_sync"] |});
  (SendmmsgEventID, {| ID := Some SendmmsgEventID; ID32Bit := Some sys32sendmmsg; Name := "sendmmsg"; Probes := [{| event := "sendmmsg"; attach := sysCall; fn := "sendmmsg" |}]; EssentialEvent := false; Sets := ["syscalls"; "net"; "net_snd_rcv"] |});
  (SetnsEventID, {| ID := Some SetnsEventID; ID32Bit := Some sys32setns; Name := "setns"; Probes := [{| event := "setns"; attach := sysCall; fn := "setns" |}]; EssentialEvent := false; Sets := ["syscalls"; "proc"] |});
  (GetcpuEventID, {| ID := Some GetcpuEventID; ID32Bit := Some sys32getcpu; Name := "getcpu"; Probes := [{| event := "getcpu"; attach := sysCall; fn := "getcpu" |}]; EssentialEvent := false; Sets := ["syscalls"; "system"; "system_numa"] |});
  (ProcessVmReadvEventID, {| ID := Some ProcessVmReadvEventID; ID32Bit := Some sys32process_vm_readv; Name := "process_vm_readv"; Probes := [{| event := "process_vm_readv"; attach := sysCall; fn := "process_vm_readv" |}]; EssentialEvent := false; Sets := ["default"; "syscalls"; "proc"] |});
  (ProcessVmWritevEventID, {| ID := Some ProcessVmWritevEventID; ID32Bit := Some sys32process_vm_writev; Name := "process_vm_writev"; Probes := [{| event := "process_vm_writev"; attach := sysCall; fn := "process_vm_writev" |}]; EssentialEvent := false; Sets := ["default"; "syscalls"; "proc"] |});
  (KcmpEventID, {| ID := Some KcmpEventID; ID32Bit := Some sys32kcmp; Name := "kcmp"; Probes := [{| event := "kcmp"; attach := sysCall; fn := "kcmp" |}]; EssentialEvent := false; Sets := ["syscalls"; "proc"] |});
  (FinitModuleEventID, {| ID := Some FinitModuleEventID; ID32Bit := Some sys32finit_module; Name := "finit_module"; Probes := [{| event := "finit_module"; attach := sysCall; fn := "finit_module" |}]; EssentialEvent := false; Sets := ["default"; "syscalls"; "system"; "system_module"] |});
  (SchedSetattrEventID, {| ID := Some SchedSetattrEventID; ID32Bit := Some sys32sched_setattr; Name := "sched_setattr"; Probes := [{| event := "sched_setattr"; attach := sysCall; fn := "sched_setattr" |}]; EssentialEvent := false; Sets := ["syscalls"; "proc"; "proc_sched"] |});
  (SchedGetattrEventID, {| ID := Some SchedGetattrEventID; ID32Bit := Some sys32sched_getattr; Name := "sched_getattr"; Probes := [{| event := "sched_getattr"; attach := sysCall; fn := "sched_getattr" |}]; EssentialEvent := false; Sets := ["syscalls"; "proc"; "proc_sched"] |});
  (Renameat2EventID, {| ID := Some Renameat2EventID; ID32Bit := Some sys32renameat2; Name := "renameat2"; Probes := [{| event := "renameat2"; attach := sysCall; fn := "renameat2" |}]; EssentialEvent := false; Sets := ["syscalls"; "fs"; "fs_file_ops"] |});
  (SeccompEventID, {| ID := Some SeccompEventID; ID32Bit := Some sys32seccomp; Name := "seccomp"; Probes := [{| event := "seccomp"; attach := sysCall; fn := "seccomp" |}]; EssentialEvent := false; Sets := ["syscalls"; "proc"] |});
  (GetrandomEventID, {| ID := Some GetrandomEventID; ID32Bit := Some sys32getrandom; Name := "getrandom"; Probes := [{| event := "getrandom"; attach := sysCall; fn := "getrandom" |}]; EssentialEvent := false; Sets := ["syscalls"; "fs"] |});
  (MemfdCreateEventID, {| ID := Some MemfdCreateEventID; ID32Bit := Some sys32memfd_create; Name := "memfd_create"; Probes := [{| event := "memfd_create"; attach := sysCall; fn := "memfd_create" |}]; EssentialEvent := false; Sets := ["default"; "syscalls"; "fs"; "fs_file_ops"] |});
  (KexecFileLoadEventID, {| ID := Some KexecFileLoadEventID; ID32Bit := Some sys32undefined; Name := "kexec_file_load"; Probes := [{| event := "kexec_file_load"; attach := sysCall; fn := "kexec_file_load" |}]; EssentialEvent := false; Sets := ["syscalls"; "system"] |});
  (BpfEventID, {| ID := Some BpfEventID; ID32Bit := Some sys32bpf; Name := "bpf"; Probes := [{| event := "bpf"; attach := sysCall; fn := "bpf" |}]; EssentialEvent := false; Sets := ["default"; "syscalls"; "system"] |});
  (ExecveatEventID, {| ID := Some ExecveatEventID; ID32Bit := Some sys32execveat; Name := "execveat"; Probes := [{| event := "execveat"; attach := sysCall; fn := "execveat" |}]; EssentialEvent := false; Sets := ["default"; "syscalls"; "proc"; "proc_life"] |});
  (UserfaultfdEventID, {| ID := Some UserfaultfdEventID; ID32Bit := Some sys32userfaultfd; Name := "userfaultfd"; Probes := [{| event := "userfaultfd"; attach := sysCall; fn := "userfaultfd" |}]; EssentialEvent := false; Sets := ["syscalls"; "system"] |});
  (MembarrierEventID, {| ID := Some MembarrierEventID; ID32Bit := Some sys32membarrier; Name := "membarrier"; Probes := [{| event := "membarrier"; attach := sysCall; fn := "membarrier" |}]; EssentialEvent := false; Sets := ["syscalls"; "proc"; "proc_mem"] |});
  (Mlock2EventID, {| ID := Some Mlock2EventID; ID32Bit := Some sys32mlock2; Name := "mlock2"; Probes := [{| event := "mlock2"; attach := sysCall; fn := "mlock2" |}]; EssentialEvent := false; Sets := ["syscalls"; "proc"; "proc_mem"] |});
  (CopyFileRangeEventID, {| ID := Some CopyFileRangeEventID; ID32Bit := Some sys32copy_file_range; Name := "copy_file_range"; Probes := [{| event := "copy_file_range"; attach := sysCall; fn := "copy_file_range" |}]; EssentialEvent := false; Sets := ["syscalls"; "fs"; "fs_read_write"] |});
  (Preadv2EventID, {| ID := Some Preadv2EventID; ID32Bit := Some sys32preadv2; Name := "preadv2"; Probes := [{| event := "preadv2"; attach := sysCall; fn := "preadv2" |}]; EssentialEvent := false; Sets := ["syscalls"; "fs"; "fs_read_write"] |});
  (Pwritev2EventID, {| ID := Some Pwritev2EventID; ID32Bit := Some sys32pwritev2; Name := "pwritev2"; Probes := [{| event := "pwritev2"; attach := sysCall; fn := "pwritev2" |}]; EssentialEvent := false; Sets := ["syscalls"; "fs"; "fs_read_write"] |});
  (PkeyMprotectEventID, {| ID := Some PkeyMprotectEventID; ID32Bit := Some sys32pkey_mprotect; Name := "pkey_mprotect"; Probes := [{| event := "pkey_mprotect"; attach := sysCall; fn := "pkey_mprotect" |}]; EssentialEvent := false; Sets := ["default"; "syscalls"; "proc"; "proc_mem"] |});
  (PkeyAllocEventID, {| ID := Some PkeyAllocEventID; ID32Bit := Some sys32pkey_alloc; Name := "pkey_alloc"; Probes := [{| event := "pkey_alloc"; attach := sysCall; fn := "pkey_alloc" |}]; EssentialEvent := false; Sets := ["syscalls"; "proc"; "proc_mem"] |});
  (PkeyFreeEventID, {| ID := Some PkeyFreeEventID; ID32Bit := Some sys32pkey_free; Name := "pkey_free"; Probes := [{| event := "pkey_free"; attach := sysCall; fn := "pkey_free" |}]; EssentialEvent := false; Sets := ["syscalls"; "proc"; "proc_mem"] |});
  (StatxEventID, {| ID := Some StatxEventID; ID32Bit := Some sys32statx; Name := "statx"; Probes := [{| event := "statx"; attach := sysCall; fn := "statx" |}]; EssentialEvent := false; Sets := ["syscalls"; "fs"; "fs_file_attr"] |});
  (IoPgeteventsEventID, {| ID := Some IoPgeteventsEventID; ID32Bit := Some sys32io_pgetevents; Name := "io_pgetevents"; Probes := [{| event := "io_pgetevents"; attach := sysCall; fn := "io_pgetevents" |}]; EssentialEvent := false; Sets := ["syscalls"; "fs"; "fs_async_io"] |});
  (RseqEventID, {| ID := Some RseqEventID; ID32Bit := Some sys32rseq; Name := "rseq"; Probes := [{| event := "rseq"; attach := sysCall; fn := "rseq" |}]; EssentialEvent := false; Sets := ["syscalls"] |});
  (PidfdSendSignalEventID, {| ID := Some PidfdSendSignalEventID; ID32Bit := Some sys32pidfd_send_signal; Name := "pidfd_send_signal"; Probes := [{| event := "pidfd_send_signal"; attach := sysCall; fn := "pidfd_send_signal" |}]; EssentialEvent := false; Sets := ["syscalls"; "signals"] |});
  (IoUringSetupEventID, {| ID := Some IoUringSetupEventID; ID32Bit := Some sys32io_uring_setup; Name := "io_uring_setup"; Probes := [{| event := "io_uring_setup"; attach := sysCall; fn := "io_uring_setup" |}]; EssentialEvent := false; Sets := ["syscalls"] |});
  (IoUringEnterEventID, {| ID := Some IoUringEnterEventID; ID32Bit := Some sys32io_uring_enter; Name := "io_uring_enter"; Probes := [{| event := "io_uring_enter"; attach := sysCall; fn := "io_uring_enter" |}]; EssentialEvent := false; Sets := ["syscalls"] |});
  (IoUringRegisterEventID, {| ID := Some IoUringRegisterEventID; ID32Bit := Some sys32io_uring_register; Name := "io_uring_register"; Probes := [{| event := "io_uring_register"; attach := sysCall; fn := "io_uring_register" |}]; EssentialEvent := false; Sets := ["syscalls"] |});
  (OpenTreeEventID, {| ID := Some OpenTreeEventID; ID32Bit := Some sys32open_tree; Name := "open_tree"; Probes := [{| event := "open_tree"; attach := sysCall; fn := "open_tree" |}]; EssentialEvent := false; Sets := ["syscalls"] |});
  (MoveMountEventID, {| ID := Some MoveMountEventID; ID32Bit := Some sys32move_mount; Name := "move_mount"; Probes := [{| event := "move_mount"; attach := sysCall; fn := "move_mount" |}]; EssentialEvent := false; Sets := ["default"; "syscalls"; "fs"] |});
  (FsopenEventID, {| ID := Some FsopenEventID; ID32Bit := Some sys32fsopen; Name := "fsopen"; Probes := [{| event := "fsopen"; attach := sysCall; fn := "fsopen" |}]; EssentialEvent := false; Sets := ["syscalls"; "fs"] |});
  (FsconfigEventID, {| ID := Some FsconfigEventID; ID32Bit := Some sys32fsconfig; Name := "fsconfig"; Probes := [{| event := "fsconfig"; attach := sysCall; fn := "fsconfig" |}]; EssentialEvent := false; Sets := ["syscalls"; "fs"] |});
  (FsmountEventID, {| ID := Some FsmountEventID; ID32Bit := Some sys32fsmount; Name := "fsmount"; Probes := [{| event := "fsmount"; attach := sysCall; fn := "fsmount" |}]; EssentialEvent := false; Sets := ["syscalls"; "fs"] |});
  (FspickEventID, {| ID := Some FspickEventID; ID32Bit := Some sys32fspick; Name := "fspick"; Probes := [{| event := "fspick"; attach := sysCall; fn := "fspick" |}]; EssentialEvent := false; Sets := ["syscalls"; "fs"] |});
  (PidfdOpenEventID, {| ID := Some PidfdOpenEventID; ID32Bit := Some sys32pidfd_open; Name := "pidfd_open"; Probes := [{| event := "pidfd_open"; attach := sysCall; fn := "pidfd_open" |}]; EssentialEvent := false; Sets := ["syscalls"] |});
  (Clone3EventID, {| ID := Some Clone3EventID; ID32Bit := Some sys32clone3; Name := "clone3"; Probes := [{| event := "clone3"; attach := sysCall; fn := "clone3" |}]; EssentialEvent := false; Sets := ["default"; "syscalls"; "proc"; "proc_life"] |});
  (CloseRangeEventID, {| ID := Some CloseRangeEventID; ID32Bit := Some sys32close_range; Name := "close_range"; Probes := [{| event := "close_range"; attach := sysCall; fn := "close_range" |}]; EssentialEvent := false; Sets := ["default"; "syscalls"; "fs"; "fs_file_ops"] |});
  (Openat2EventID, {| ID := Some Openat2EventID; ID32Bit := Some sys32openat2; Name := "openat2"; Probes := [{| event := "openat2"; attach := sysCall; fn := "openat2" |}]; EssentialEvent := false; Sets := ["default"; "syscalls"; "fs"; "fs_file_ops"] |});
  (PidfdGetfdEventID, {| ID := Some PidfdGetfdEventID; ID32Bit := Some sys32pidfd_getfd; Name := "pidfd_getfd"; Probes := [{| event := "pidfd_getfd"; attach := sysCall; fn := "pidfd_getfd" |}]; EssentialEvent := false; Sets := ["syscalls"] |});
  (Faccessat2EventID, {| ID := Some Faccessat2EventID; ID32Bit := Some sys32faccessat2; Name := "faccessat2"; Probes := [{| event := "faccessat2"; attach := sysCall; fn := "faccessat2" |}]; EssentialEvent := false; Sets := ["default"; "syscalls"; "fs"; "fs_file_attr"] |});
  (ProcessMadviseEventID, {| ID := Some ProcessMadviseEventID; ID32Bit := Some sys32process_madvise; Name := "process_madvise"; Probes := [{| event := "process_madvise"; attach := sysCall; fn := "process_madvise" |}]; EssentialEvent := false; Sets := ["syscalls"] |});
  (EpollPwait2EventID, {| ID := Some EpollPwait2EventID; ID32Bit := Some sys32epoll_pwait2; Name := "epoll_pwait2"; Probes := [{| event := "epoll_pwait2"; attach := sysCall; fn := "epoll_pwait2" |}]; EssentialEvent := false; Sets := ["syscalls"; "fs"; "fs_mux_io"] |});
  (SysEnterEventID, {| ID := Some SysEnterEventID; ID32Bit := Some sys32undefined; Name := "sys_enter"; Probes := [{| event := "raw_syscalls:sys_enter"; attach := rawTracepoint; fn := "tracepoint__raw_syscalls__sys_enter" |}]; EssentialEvent := true; Sets := [] |});
  (SysExitEventID, {| ID := Some SysExitEventID; ID32Bit := Some sys32undefined; Name := "sys_exit"; Probes := [{| event := "raw_syscalls:sys_exit"; attach := rawTracepoint; fn := "tracepoint__raw_syscalls__sys_exit" |}]; EssentialEvent := true; Sets := [] |});
  (SchedProcessForkEventID, {| ID := Some SchedProcessForkEventID; ID32Bit := Some sys32undefined; Name := "sched_process_fork"; Probes := [{| event := "sched:sched_process_fork"; attach := rawTracepoint; fn := "tracepoint__sched__sched_process_fork" |}]; EssentialEvent := true; Sets := [] |});
  (SchedProcessExecEventID, {| ID := Some SchedProcessExecEventID; ID32Bit := Some sys32undefined; Name := "sched_process_exec"; Probes := [{| event := "sched:sched_process_exec"; attach := rawTracepoint; fn := "tracepoint__sched__sched_process_exec" |}]; EssentialEvent := true; Sets := ["default"; "proc"] |});
  (SchedProcessExitEventID, {| ID := Some SchedProcessExitEventID; ID32Bit := Some sys32undefined; Name := "sched_process_exit"; Probes := [{| event := "sched:sched_process_exit"; attach := rawTracepoint; fn := "tracepoint__sched__sched_process_exit" |}]; EssentialEvent := true; Sets := ["default"; "proc"; "proc_life"] |});
  (SchedSwitchEventID, {| ID := Some SchedSwitchEventID; ID32Bit := Some sys32undefined; Name := "sched_switch"; Probes := [{| event := "sched:sched_switch"; attach := rawTracepoint; fn := "tracepoint__sched__sched_switch" |}]; EssentialEvent := false; Sets := [] |});
  (DoExitEventID, {| ID := Some DoExitEventID; ID32Bit := Some sys32undefined; Name := "do_exit"; Probes := [{| event := "do_exit"; attach := kprobe; fn := "trace_do_exit" |}]; EssentialEvent := false; Sets := ["proc"; "proc_life"] |});
  (CapCapableEventID, {| ID := Some CapCapableEventID; ID32Bit := Some sys32undefined; Name := "cap_capable"; Probes := [{| event := "cap_capable"; attach := kprobe; fn := "trace_cap_capable" |}]; EssentialEvent := false; Sets := ["default"] |});
  (VfsWriteEventID, {| ID := Some VfsWriteEventID; ID32Bit := Some sys32undefined; Name := "vfs_write"; Probes := [{| event := "vfs_write"; attach := kprobe; fn := "trace_vfs_write" |}; {| event := "vfs_write"; attach := kretprobe; fn := "trace_ret_vfs_write" |}]; EssentialEvent := false; Sets := [] |});
  (VfsWritevEventID, {| ID := Some VfsWritevEventID; ID32Bit := Some sys32undefined; Name := "vfs_writev"; Probes := [{| event := "vfs_writev"; attach := kprobe; fn := "trace_vfs_writev" |}; {| event := "vfs_writev"; attach := kretprobe; fn := "trace_ret_vfs_writev" |}]; EssentialEvent := false; Sets := [] |});
  (MemProtAlertEventID, {| ID := Some MemProtAlertEventID; ID32Bit := Some sys32undefined; Name := "mem_prot_alert"; Probes := [{| event := "security_mmap_addr"; attach := kprobe; fn := "trace_mmap_alert" |}; {| event := "security_file_mprotect"; attach := kprobe; fn := "trace_mprotect_alert" |}]; EssentialEvent := false; Sets := [] |});
  (CommitCredsEventID, {| ID := Some CommitCredsEventID; ID32Bit := Some sys32undefined; Name := "commit_creds"; Probes := [{| event := "commit_creds"; attach := kprobe; fn := "trace_commit_creds" |}]; EssentialEvent := false; Sets := [] |});
  (SwitchTaskNSEventID, {| ID := Some SwitchTaskNSEventID; ID32Bit := Some sys32undefined; Name := "switch_task_ns"; Probes := [{| event := "switch_task_namespaces"; attach := kprobe; fn := "trace_switch_task_namespaces" |}]; EssentialEvent := false; Sets := [] |});
  (MagicWriteEventID, {| ID := Some MagicWriteEventID; ID32Bit := Some sys32undefined; Name := "magic_write"; Probes := []; EssentialEvent := false; Sets := [] |});
  (CgroupAttachTaskEventID, {| ID := Some CgroupAttachTaskEventID; ID32Bit := Some sys32undefined; Name := "cgroup_attach_task"; Probes := [{| event := "cgroup:cgroup_attach_task"; attach := rawTracepoint; fn := "tracepoint__cgroup__cgroup_attach_task" |}]; EssentialEvent := false; Sets := [] |});
  (CgroupMkdirEventID, {| ID := Some CgroupMkdirEventID; ID32Bit := Some sys32undefined; Name := "cgroup_mkdir"; Probes := [{| event := "cgroup:cgroup_mkdir"; attach := rawTracepoint; fn := "tracepoint__cgroup__cgroup_mkdir" |}]; EssentialEvent := true; Sets := [] |});
  (CgroupRmdirEventID, {| ID := Some CgroupRmdirEventID; ID32Bit := Some sys32undefined; Name := "cgroup_rmdir"; Probes := [{| event := "cgroup:cgroup_rmdir"; attach := rawTracepoint; fn := "tracepoint__cgroup__cgroup_rmdir" |}]; EssentialEvent := true; Sets := [] |});
  (SecurityBprmCheckEventID, {| ID := Some SecurityBprmCheckEventID; ID32Bit := Some sys32undefined; Name := "security_bprm_check"; Probes := [{| event := "security_bprm_check"; attach := kprobe; fn := "trace_security_bprm_check" |}]; EssentialEvent := false; Sets := ["default"; "lsm_hooks"; "proc"; "proc_life"] |});
  (SecurityFileOpenEventID, {| ID := Some SecurityFileOpenEventID; ID32Bit := Some sys32undefined; Name := "security_file_open"; Probes := [{| event := "security_file_open"; attach := kprobe; fn := "trace_security_file_open" |}]; EssentialEvent := false; Sets := ["default"; "lsm_hooks"; "fs"; "fs_file_ops"] |});
  (SecurityInodeUnlinkEventID, {| ID := Some SecurityInodeUnlinkEventID; ID32Bit := Some sys32undefined; Name := "security_inode_unlink"; Probes := [{| event := "security_inode_unlink"; attach := kprobe; fn := "trace_security_inode_unlink" |}]; EssentialEvent := false; Sets := ["default"; "lsm_hooks"; "fs"; "fs_file_ops"] |});
  (SecuritySocketCreateEventID, {| ID := Some SecuritySocketCreateEventID; ID32Bit := Some sys32undefined; Name := "security_socket_create"; Probes := [{| event := "security_socket_create"; attach := kprobe; fn := "trace_security_socket_create" |}]; EssentialEvent := false; Sets := ["default"; "lsm_hooks"; "net"; "net_sock"] |});
  (SecuritySocketListenEventID, {| ID := Some SecuritySocketListenEventID; ID32Bit := Some sys32undefined; Name := "security_socket_listen"; Probes := [{| event := "security_socket_listen"; attach := kprobe; fn := "trace_security_socket_listen" |}]; EssentialEvent := false; Sets := ["default"; "lsm_hooks"; "net"; "net_sock"] |});
  (SecuritySocketConnectEventID, {| ID := Some SecuritySocketConnectEventID; ID32Bit := Some sys32undefined; Name := "security_socket_connect"; Probes := [{| event := "security_socket_connect"; attach := kprobe; fn := "trace_security_socket_connect" |}]; EssentialEvent := false; Sets := ["default"; "lsm_hooks"; "net"; "net_sock"] |});
  (SecuritySocketAcceptEventID, {| ID := Some SecuritySocketAcceptEventID; ID32Bit := Some sys32undefined; Name := "security_socket_accept"; Probes := [{| event := "security_socket_accept"; attach := kprobe; fn := "trace_security_socket_accept" |}]; EssentialEvent := false; Sets := ["default"; "lsm_hooks"; "net"; "net_sock"] |});
  (SecuritySocketBindEventID, {| ID := Some SecuritySocketBindEventID; ID32Bit := Some sys32undefined; Name := "security_socket_bind"; Probes := [{| event := "security_socket_bind"; attach := kprobe; fn := "trace_security_socket_bind" |}]; EssentialEvent := false; Sets := ["default"; "lsm_hooks"; "net"; "net_sock"] |});
  (SecuritySbMountEventID, {| ID := Some SecuritySbMountEventID; ID32Bit := Some sys32undefined; Name := "security_sb_mount"; Probes := [{| event := "security_sb_mount"; attach := kprobe; fn := "trace_security_sb_mount" |}]; EssentialEvent := false; Sets := ["default"; "lsm_hooks"; "fs"] |});
  (SecurityBPFEventID, {| ID := Some SecurityBPFEventID; ID32Bit := Some sys32undefined; Name := "security_bpf"; Probes := [{| event := "security_bpf"; attach := kprobe; fn := "trace_security_bpf" |}]; EssentialEvent := false; Sets := ["lsm_hooks"] |});
  (SecurityBPFMapEventID, {| ID := Some SecurityBPFMapEventID; ID32Bit := Some sys32undefined; Name := "security_bpf_map"; Probes := [{| event := "security_bpf_map"; attach := kprobe; fn := "trace_security_bpf_map" |}]; EssentialEvent := false; Sets := ["lsm_hooks"] |});
  (SecurityKernelReadFileEventID, {| ID := Some SecurityKernelReadFileEventID; ID32Bit := Some sys32undefined; Name := "security_kernel_read_file"; Probes := [{| event := "security_kernel_read_file"; attach := kprobe; fn := "trace_security_kernel_read_file" |}]; EssentialEvent := false; Sets := ["lsm_hooks"] |});
  (SecurityPostReadFileEventID, {| ID := Some SecurityPostReadFileEventID; ID32Bit := Some sys32undefined; Name := "security_kernel_post_read_file"; Probes := [{| event := "security_kernel_post_read_file"; attach := kprobe; fn := "trace_security_kernel_post_read_file" |}]; EssentialEvent := false; Sets := ["lsm_hooks"] |});
  (SecurityInodeMknodEventID, {| ID := Some SecurityInodeMknodEventID; ID32Bit := Some sys32undefined; Name := "security_inode_mknod"; Probes := [{| event := "security_inode_mknod"; attach := kprobe; fn := "trace_security_inode_mknod" |}]; EssentialEvent := false; Sets := ["lsm_hooks"] |});
  (InitNamespacesEventID, {| ID := Some InitNamespacesEventID; ID32Bit := Some sys32undefined; Name := "init_namespaces"; Probes := []; EssentialEvent := false; Sets := [] |});
  (SocketDupEventID, {| ID := Some SocketDupEventID; ID32Bit := Some sys32undefined; Name := "socket_dup"; Probes := []; EssentialEvent := false; Sets := [] |})
].

(** [EventsIDToParams] is list of the parameters (name and type) used by the
    events.  The rows of the literal, in source order. *)
Definition EventsIDToParams_rows : list (EventID * list external.ArgMeta) := [
  (ReadEventID, [{| external.Type_ := "int"; external.Name := "fd" |}; {| external.Type_ := "void*"; external.Name := "buf" |}; {| external.Type_ := "size_t"; external.Name := "count" |}]);
  (WriteEventID, [{| external.Type_ := "int"; external.Name := "fd" |}; {| external.Type_ := "void*"; external.Name := "buf" |}; {| external.Type_ := "size_t"; external.Name := "count" |}]);
  (OpenEventID, [{| external.Type_ := "const char*"; external.Name := "pathname" |}; {| external.Type_ := "int"; external.Name := "flags" |}; {| external.Type_ := "mode_t"; external.Name := "mode" |}]);
  (CloseEventID, [{| external.Type_ := "int"; external.Name := "fd" |}]);
  (StatEventID, [{| external.Type_ := "const char*"; external.Name := "pathname" |}; {| external.Type_ := "struct stat*"; external.Name := "statbuf" |}]);
  (FstatEventID, [{| external.Type_ := "int"; external.Name := "fd" |}; {| external.Type_ := "struct stat*"; external.Name := "statbuf" |}]);
  (LstatEventID, [{| external.Type_ := "const char*"; external.Name := "pathname" |}; {| external.Type_ := "struct stat*"; external.Name := "statbuf" |}]);
  (PollEventID, [{| external.Type_ := "struct pollfd*"; external.Name := "fds" |}; {| external.Type_ := "unsigned int"; external.Name := "nfds" |}; {| external.Type_ := "int"; external.Name := "timeout" |}]);
  (LseekEventID, [{| external.Type_ := "int"; external.Name := "fd" |}; {| external.Type_ := "off_t"; external.Name := "offset" |}; {| external.Type_ := "unsigned int"; external.Name := "whence" |}]);
  (MmapEventID, [{| external.Type_ := "void*"; external.Name := "addr" |}; {| external.Type_ := "size_t"; external.Name := "length" |}; {| external.Type_ := "int"; external.Name := "prot" |}; {| external.Type_ := "int"; external.Name := "flags" |}; {| external.Type_ := "int"; external.Name := "fd" |}; {| external.Type_ := "off_t"; external.Name := "off" |}]);
  (MprotectEventID, [{| external.Type_ := "void*"; external.Name := "addr" |}; {| external.Type_ := "size_t"; external.Name := "len" |}; {| external.Type_ := "int"; external.Name := "prot" |}]);
  (MunmapEventID, [{| external.Type_ := "void*"; external.Name := "addr" |}; {| external.Type_ := "size_t"; external.Name := "length" |}]);
  (BrkEventID, [{| external.Type_ := "void*"; external.Name := "addr" |}]);
  (RtSigactionEventID, [{| external.Type_ := "int"; external.Name := "signum" |}; {| external.Type_ := "const struct sigaction*"; external.Name := "act" |}; {| external.Type_ := "struct sigaction*"; external.Name := "oldact" |}; {| external.Type_ := "size_t"; external.Name := "sigsetsize" |}]);
  (RtSigprocmaskEventID, [{| external.Type_ := "int"; external.Name := "how" |}; {| external.Type_ := "sigset_t*"; external.Name := "set" |}; {| external.Type_ := "sigset_t*"; external.Name := "oldset" |}; {| external.Type_ := "size_t"; external.Name := "sigsetsize" |}]);
  (RtSigreturnEventID, []);
  (IoctlEventID, [{| external.Type_ := "int"; external.Name := "fd" |}; {| external.Type_ := "unsigned long"; external.Name := "request" |}; {| external.Type_ := "unsigned long"; external.Name := "arg" |}]);
  (Pread64EventID, [{| external.Type_ := "int"; external.Name := "fd" |}; {| external.Type_ := "void*"; external.Name := "buf" |}; {| external.Type_ := "size_t"; external.Name := "count" |}; {| external.Type_ := "off_t"; external.Name := "offset" |}]);
  (Pwrite64EventID, [{| external.Type_ := "int"; external.Name := "fd" |}; {| external.Type_ := "const void*"; external.Name := "buf" |}; {| external.Type_ := "size_t"; external.Name := "count" |}; {| external.Type_ := "off_t"; external.Name := "offset" |}]);
  (ReadvEventID, [{| external.Type_ := "int"; external.Name := "fd" |}; {| external.Type_ := "const struct iovec*"; external.Name := "iov" |}; {| external.Type_ := "int"; external.Name := "iovcnt" |}]);
  (WritevEventID, [{| external.Type_ := "int"; external.Name := "fd" |}; {| external.Type_ := "const struct iovec*"; external.Name := "iov" |}; {| external.Type_ := "int"; external.Name := "iovcnt" |}]);
  (AccessEventID, [{| external.Type_ := "const char*"; external.Name := "pathname" |}; {| external.Type_ := "int"; external.Name := "mode" |}]);
  (PipeEventID, [{| external.Type_ := "int[2]"; external.Name := "pipefd" |}]);
  (SelectEventID, [{| external.Type_ := "int"; external.Name := "nfds" |}; {| external.Type_ := "fd_set*"; external.Name := "readfds" |}; {| external.Type_ := "fd_set*"; external.Name := "writefds" |}; {| external.Type_ := "fd_set*"; external.Name := "exceptfds" |}; {| external.Type_ := "struct timeval*"; external.Name := "timeout" |}]);
  (SchedYieldEventID, []);
  (MremapEventID, [{| external.Type_ := "void*"; external.Name := "old_address" |}; {| external.Type_ := "size_t"; external.Name := "old_size" |}; {| external.Type_ := "size_t"; external.Name := "new_size" |}; {| external.Type_ := "int"; external.Name := "flags" |}; {| external.Type_ := "void*"; external.Name := "new_address" |}]);
  (MsyncEventID, [{| external.Type_ := "void*"; external.Name := "addr" |}; {| external.Type_ := "size_t"; external.Name := "length" |}; {| external.Type_ := "int"; external.Name := "flags" |}]);
  (MincoreEventID, [{| external.Type_ := "void*"; external.Name := "addr" |}; {| external.Type_ := "size_t"; external.Name := "length" |}; {| external.Type_ := "unsigned char*"; external.Name := "vec" |}]);
  (MadviseEventID, [{| external.Type_ := "void*"; external.Name := "addr" |}; {| external.Type_ := "size_t"; external.Name := "length" |}; {| external.Type_ := "int"; external.Name := "advice" |}]);
  (ShmgetEventID, [{| external.Type_ := "key_t"; external.Name := "key" |}; {| external.Type_ := "size_t"; external.Name := "size" |}; {| external.Type_ := "int"; external.Name := "shmflg" |}]);
  (ShmatEventID, [{| external.Type_ := "int"; external.Name := "shmid" |}; {| external.Type_ := "const void*"; external.Name := "shmaddr" |}; {| external.Type_ := "int"; external.Name := "shmflg" |}]);
  (ShmctlEventID, [{| external.Type_ := "int"; external.Name := "shmid" |}; {| external.Type_ := "int"; external.Name := "cmd" |}; {| external.Type_ := "struct shmid_ds*"; external.Name := "buf" |}]);
  (DupEventID, [{| external.Type_ := "int"; external.Name := "oldfd" |}]);
  (Dup2EventID, [{| external.Type_ := "int"; external.Name := "oldfd" |}; {| external.Type_ := "int"; external.Name := "newfd" |}]);
  (PauseEventID, []);
  (NanosleepEventID, [{| external.Type_ := "const struct timespec*"; external.Name := "req" |}; {| external.Type_ := "struct timespec*"; external.Name := "rem" |}]);
  (GetitimerEventID, [{| external.Type_ := "int"; external.Name := "which" |}; {| external.Type_ := "struct itimerval*"; external.Name := "curr_value" |}]);
  (AlarmEventID, [{| external.Type_ := "unsigned int"; external.Name := "seconds" |}]);
  (SetitimerEventID, [{| external.Type_ := "int"; external.Name := "which" |}; {| external.Type_ := "struct itimerval*"; external.Name := "new_value" |}; {| external.Type_ := "struct itimerval*"; external.Name := "old_value" |}]);
  (GetpidEventID, []);
  (SendfileEventID, [{| external.Type_ := "int"; external.Name := "out_fd" |}; {| external.Type_ := "int"; external.Name := "in_fd" |}; {| external.Type_ := "off_t*"; external.Name := "offset" |}; {| external.Type_ := "size_t"; external.Name := "count" |}]);
  (SocketEventID, [{| external.Type_ := "int"; external.Name := "domain" |}; {| external.Type_ := "int"; external.Name := "type" |}; {| external.Type_ := "int"; external.Name := "protocol" |}]);
  (ConnectEventID, [{| external.Type_ := "int"; external.Name := "sockfd" |}; {| external.Type_ := "struct sockaddr*"; external.Name := "addr" |}; {| external.Type_ := "int"; external.Name := "addrlen" |}]);
  (AcceptEventID, [{| external.Type_ := "int"; external.Name := "sockfd" |}; {| external.Type_ := "struct sockaddr*"; external.Name := "addr" |}; {| external.Type_ := "int*"; external.Name := "addrlen" |}]);
  (SendtoEventID, [{| external.Type_ := "int"; external.Name := "sockfd" |}; {| external.Type_ := "void*"; external.Name := "buf" |}; {| external.Type_ := "size_t"; external.Name := "len" |}; {| external.Type_ := "int"; external.Name := "flags" |}; {| external.Type_ := "struct sockaddr*"; external.Name := "dest_addr" |}; {| external.Type_ := "int"; external.Name := "addrlen" |}]);
  (RecvfromEventID, [{| external.Type_ := "int"; external.Name := "sockfd" |}; {| external.Type_ := "void*"; external.Name := "buf" |}; {| external.Type_ := "size_t"; external.Name := "len" |}; {| external.Type_ := "int"; external.Name := "flags" |}; {| external.Type_ := "struct sockaddr*"; external.Name := "src_addr" |}; {| external.Type_ := "int*"; external.Name := "addrlen" |}]);
  (SendmsgEventID, [{| external.Type_ := "int"; external.Name := "sockfd" |}; {| external.Type_ := "struct msghdr*"; external.Name := "msg" |}; {| external.Type_ := "int"; external.Name := "flags" |}]);
  (RecvmsgEventID, [{| external.Type_ := "int"; external.Name := "sockfd" |}; {| external.Type_ := "struct msghdr*"; external.Name := "msg" |}; {| external.Type_ := "int"; external.Name := "flags" |}]);
  (ShutdownEventID, [{| external.Type_ := "int"; external.Name := "sockfd" |}; {| external.Type_ := "int"; external.Name := "how" |}]);
  (BindEventID, [{| external.Type_ := "int"; external.Name := "sockfd" |}; {| external.Type_ := "struct sockaddr*"; external.Name := "addr" |}; {| external.Type_ := "int"; external.Name := "addrlen" |}]);
  (ListenEventID, [{| external.Type_ := "int"; external.Name := "sockfd" |}; {| external.Type_ := "int"; external.Name := "backlog" |}]);
  (GetsocknameEventID, [{| external.Type_ := "int"; external.Name := "sockfd" |}; {| external.Type_ := "struct sockaddr*"; external.Name := "addr" |}; {| external.Type_ := "int*"; external.Name := "addrlen" |}]);
  (GetpeernameEventID, [{| external.Type_ := "int"; external.Name := "sockfd" |}; {| external.Type_ := "struct sockaddr*"; external.Name := "addr" |}; {| external.Type_ := "int*"; external.Name := "addrlen" |}]);
  (SocketpairEventID, [{| external.Type_ := "int"; external.Name := "domain" |}; {| external.Type_ := "int"; external.Name := "type" |}; {| external.Type_ := "int"; external.Name := "protocol" |}; {| external.Type_ := "int[2]"; external.Name := "sv" |}]);
  (SetsockoptEventID, [{| external.Type_ := "int"; external.Name := "sockfd" |}; {| external.Type_ := "int"; external.Name := "level" |}; {| external.Type_ := "int"; external.Name := "optname" |}; {| external.Type_ := "const void*"; external.Name := "optval" |}; {| external.Type_ := "int"; external.Name := "optlen" |}]);
  (GetsockoptEventID, [{| external.Type_ := "int"; external.Name := "sockfd" |}; {| external.Type_ := "int"; external.Name := "level" |}; {| external.Type_ := "int"; external.Name := "optname" |}; {| external.Type_ := "void*"; external.Name := "optval" |}; {| external.Type_ := "int*"; external.Name := "optlen" |}]);
  (CloneEventID, [{| external.Type_ := "unsigned long"; external.Name := "flags" |}; {| external.Type_ := "void*"; external.Name := "stack" |}; {| external.Type_ := "int*"; external.Name := "parent_tid" |}; {| external.Type_ := "int*"; external.Name := "child_tid" |}; {| external.Type_ := "unsigned long"; external.Name := "tls" |}]);
  (ForkEventID, []);
  (VforkEventID, []);
  (ExecveEventID, [{| external.Type_ := "const char*"; external.Name := "pathname" |}; {| external.Type_ := "const char*const*"; external.Name := "argv" |}; {| external.Type_ := "const char*const*"; external.Name := "envp" |}]);
  (ExitEventID, [{| external.Type_ := "int"; external.Name := "status" |}]);
  (Wait4EventID, [{| external.Type_ := "pid_t"; external.Name := "pid" |}; {| external.Type_ := "int*"; external.Name := "wstatus" |}; {| external.Type_ := "int"; external.Name := "options" |}; {| external.Type_ := "struct rusage*"; external.Name := "rusage" |}]);
  (KillEventID, [{| external.Type_ := "pid_t"; external.Name := "pid" |}; {| external.Type_ := "int"; external.Name := "sig" |}]);
  (UnameEventID, [{| external.Type_ := "struct utsname*"; external.Name := "buf" |}]);
  (SemgetEventID, [{| external.Type_ := "key_t"; external.Name := "key" |}; {| external.Type_ := "int"; external.Name := "nsems" |}; {| external.Type_ := "int"; external.Name := "semflg" |}]);
  (SemopEventID, [{| external.Type_ := "int"; external.Name := "semid" |}; {| external.Type_ := "struct sembuf*"; external.Name := "sops" |}; {| external.Type_ := "size_t"; external.Name := "nsops" |}]);
  (SemctlEventID, [{| external.Type_ := "int"; external.Name := "semid" |}; {| external.Type_ := "int"; external.Name := "semnum" |}; {| external.Type_ := "int"; external.Name := "cmd" |}; {| external.Type_ := "unsigned long"; external.Name := "arg" |}]);
  (ShmdtEventID, [{| external.Type_ := "const void*"; external.Name := "shmaddr" |}]);
  (MsggetEventID, [{| external.Type_ := "key_t"; external.Name := "key" |}; {| external.Type_ := "int"; external.Name := "msgflg" |}]);
  (MsgsndEventID, [{| external.Type_ := "int"; external.Name := "msqid" |}; {| external.Type_ := "struct msgbuf*"; external.Name := "msgp" |}; {| external.Type_ := "size_t"; external.Name := "msgsz" |}; {| external.Type_ := "int"; external.Name := "msgflg" |}]);
  (MsgrcvEventID, [{| external.Type_ := "int"; external.Name := "msqid" |}; {| external.Type_ := "struct msgbuf*"; external.Name := "msgp" |}; {| external.Type_ := "size_t"; external.Name := "msgsz" |}; {| external.Type_ := "long"; external.Name := "msgtyp" |}; {| external.Type_ := "int"; external.Name := "msgflg" |}]);
  (MsgctlEventID, [{| external.Type_ := "int"; external.Name := "msqid" |}; {| external.Type_ := "int"; external.Name := "cmd" |}; {| external.Type_ := "struct msqid_ds*"; external.Name := "buf" |}]);
  (FcntlEventID, [{| external.Type_ := "int"; external.Name := "fd" |}; {| external.Type_ := "int"; external.Name := "cmd" |}; {| external.Type_ := "unsigned long"; external.Name := "arg" |}]);
  (FlockEventID, [{| external.Type_ := "int"; external.Name := "fd" |}; {| external.Type_ := "int"; external.Name := "operation" |}]);
  (FsyncEventID, [{| external.Type_ := "int"; external.Name := "fd" |}]);
  (FdatasyncEventID, [{| external.Type_ := "int"; external.Name := "fd" |}]);
  (TruncateEventID, [{| external.Type_ := "const char*"; external.Name := "path" |}; {| external.Type_ := "off_t"; external.Name := "length" |}]);
  (FtruncateEventID, [{| external.Type_ := "int"; external.Name := "fd" |}; {| external.Type_ := "off_t"; external.Name := "length" |}]);
  (GetdentsEventID, [{| external.Type_ := "int"; external.Name := "fd" |}; {| external.Type_ := "struct linux_dirent*"; external.Name := "dirp" |}; {| external.Type_ := "unsigned int"; external.Name := "count" |}]);
  (GetcwdEventID, [{| external.Type_ := "char*"; external.Name := "buf" |}; {| external.Type_ := "size_t"; external.Name := "size" |}]);
  (ChdirEventID, [{| external.Type_ := "const char*"; external.Name := "path" |}]);
  (FchdirEventID, [{| external.Type_ := "int"; external.Name := "fd" |}]);
  (RenameEventID, [{| external.Type_ := "const char*"; external.Name := "oldpath" |}; {| external.Type_ := "const char*"; external.Name := "newpath" |}]);
  (MkdirEventID, [{| external.Type_ := "const char*"; external.Name := "pathname" |}; {| external.Type_ := "mode_t"; external.Name := "mode" |}]);
  (RmdirEventID, [{| external.Type_ := "const char*"; external.Name := "pathname" |}]);
  (CreatEventID, [{| external.Type_ := "const char*"; external.Name := "pathname" |}; {| external.Type_ := "mode_t"; external.Name := "mode" |}]);
  (LinkEventID, [{| external.Type_ := "const char*"; external.Name := "oldpath" |}; {| external.Type_ := "const char*"; external.Name := "newpath" |}]);
  (UnlinkEventID, [{| external.Type_ := "const char*"; external.Name := "pathname" |}]);
  (SymlinkEventID, [{| external.Type_ := "const char*"; external.Name := "target" |}; {| external.Type_ := "const char*"; external.Name := "linkpath" |}]);
  (ReadlinkEventID, [{| external.Type_ := "const char*"; external.Name := "pathname" |}; {| external.Type_ := "char*"; external.Name := "buf" |}; {| external.Type_ := "size_t"; external.Name := "bufsiz" |}]);
  (ChmodEventID, [{| external.Type_ := "const char*"; external.Name := "pathname" |}; {| external.Type_ := "mode_t"; external.Name := "mode" |}]);
  (FchmodEventID, [{| external.Type_ := "int"; external.Name := "fd" |}; {| external.Type_ := "mode_t"; external.Name := "mode" |}]);
  (ChownEventID, [{| external.Type_ := "const char*"; external.Name := "pathname" |}; {| external.Type_ := "uid_t"; external.Name := "owner" |}; {| external.Type_ := "gid_t"; external.Name := "group" |}]);
  (FchownEventID, [{| external.Type_ := "int"; external.Name := "fd" |}; {| external.Type_ := "uid_t"; external.Name := "owner" |}; {| external.Type_ := "gid_t"; external.Name := "group" |}]);
  (LchownEventID, [{| external.Type_ := "const char*"; external.Name := "pathname" |}; {| external.Type_ := "uid_t"; external.Name := "owner" |}; {| external.Type_ := "gid_t"; external.Name := "group" |}]);
  (UmaskEventID, [{| external.Type_ := "mode_t"; external.Name := "mask" |}]);
  (GettimeofdayEventID, [{| external.Type_ := "struct timeval*"; external.Name := "tv" |}; {| external.Type_ := "struct timezone*"; external.Name := "tz" |}]);
  (GetrlimitEventID, [{| external.Type_ := "int"; external.Name := "resource" |}; {| external.Type_ := "struct rlimit*"; external.Name := "rlim" |}]);
  (GetrusageEventID, [{| external.Type_ := "int"; external.Name := "who" |}; {| external.Type_ := "struct rusage*"; external.Name := "usage" |}]);
  (SysinfoEventID, [{| external.Type_ := "struct sysinfo*"; external.Name := "info" |}]);
  (TimesEventID, [{| external.Type_ := "struct tms*"; external.Name := "buf" |}]);
  (PtraceEventID, [{| external.Type_ := "long"; external.Name := "request" |}; {| external.Type_ := "pid_t"; external.Name := "pid" |}; {| external.Type_ := "void*"; external.Name := "addr" |}; {| external.Type_ := "void*"; external.Name := "data" |}]);
  (GetuidEventID, []);
  (SyslogEventID, [{| external.Type_ := "int"; external.Name := "type" |}; {| external.Type_ := "char*"; external.Name := "bufp" |}; {| external.Type_ := "int"; external.Name := "len" |}]);
  (GetgidEventID, []);
  (SetuidEventID, [{| external.Type_ := "uid_t"; external.Name := "uid" |}]);
  (SetgidEventID, [{| external.Type_ := "gid_t"; external.Name := "gid" |}]);
  (GeteuidEventID, []);
  (GetegidEventID, []);
  (SetpgidEventID, [{| external.Type_ := "pid_t"; external.Name := "pid" |}; {| external.Type_ := "pid_t"; external.Name := "pgid" |}]);
  (GetppidEventID, []);
  (GetpgrpEventID, []);
  (SetsidEventID, []);
  (SetreuidEventID, [{| external.Type_ := "uid_t"; external.Name := "ruid" |}; {| external.Type_ := "uid_t"; external.Name := "euid" |}]);
  (SetregidEventID, [{| external.Type_ := "gid_t"; external.Name := "rgid" |}; {| external.Type_ := "gid_t"; external.Name := "egid" |}]);
  (GetgroupsEventID, [{| external.Type_ := "int"; external.Name := "size" |}; {| external.Type_ := "gid_t*"; external.Name := "list" |}]);
  (SetgroupsEventID, [{| external.Type_ := "int"; external.Name := "size" |}; {| external.Type_ := "gid_t*"; external.Name := "list" |}]);
  (SetresuidEventID, [{| external.Type_ := "uid_t"; external.Name := "ruid" |}; {| external.Type_ := "uid_t"; external.Name := "euid" |}; {| external.Type_ := "uid_t"; external.Name := "suid" |}]);
  (GetresuidEventID, [{| external.Type_ := "uid_t*"; external.Name := "ruid" |}; {| external.Type_ := "uid_t*"; external.Name := "euid" |}; {| external.Type_ := "uid_t*"; external.Name := "suid" |}]);
  (SetresgidEventID, [{| external.Type_ := "gid_t"; external.Name := "rgid" |}; {| external.Type_ := "gid_t"; external.Name := "egid" |}; {| external.Type_ := "gid_t"; external.Name := "sgid" |}]);
  (GetresgidEventID, [{| external.Type_ := "gid_t*"; external.Name := "rgid" |}; {| external.Type_ := "gid_t*"; external.Name := "egid" |}; {| external.Type_ := "gid_t*"; external.Name := "sgid" |}]);
  (GetpgidEventID, [{| external.Type_ := "pid_t"; external.Name := "pid" |}]);
  (SetfsuidEventID, [{| external.Type_ := "uid_t"; external.Name := "fsuid" |}]);
  (SetfsgidEventID, [{| external.Type_ := "gid_t"; external.Name := "fsgid" |}]);
  (GetsidEventID, [{| external.Type_ := "pid_t"; external.Name := "pid" |}]);
  (CapgetEventID, [{| external.Type_ := "cap_user_header_t"; external.Name := "hdrp" |}; {| external.Type_ := "cap_user_data_t"; external.Name := "datap" |}]);
  (CapsetEventID, [{| external.Type_ := "cap_user_header_t"; external.Name := "hdrp" |}; {| external.Type_ := "const cap_user_data_t"; external.Name := "datap" |}]);
  (RtSigpendingEventID, [{| external.Type_ := "sigset_t*"; external.Name := "set" |}; {| external.Type_ := "size_t"; external.Name := "sigsetsize" |}]);
  (RtSigtimedwaitEventID, [{| external.Type_ := "const sigset_t*"; external.Name := "set" |}; {| external.Type_ := "siginfo_t*"; external.Name := "info" |}; {| external.Type_ := "const struct timespec*"; external.Name := "timeout" |}; {| external.Type_ := "size_t"; external.Name := "sigsetsize" |}]);
  (RtSigqueueinfoEventID, [{| external.Type_ := "pid_t"; external.Name := "tgid" |}; {| external.Type_ := "int"; external.Name := "sig" |}; {| external.Type_ := "siginfo_t*"; external.Name := "info" |}]);
  (RtSigsuspendEventID, [{| external.Type_ := "sigset_t*"; external.Name := "mask" |}; {| external.Type_ := "size_t"; external.Name := "sigsetsize" |}]);
  (SigaltstackEventID, [{| external.Type_ := "const stack_t*"; external.Name := "ss" |}; {| external.Type_ := "stack_t*"; external.Name := "old_ss" |}]);
  (UtimeEventID, [{| external.Type_ := "const char*"; external.Name := "filename" |}; {| external.Type_ := "const struct utimbuf*"; external.Name := "times" |}]);
  (MknodEventID, [{| external.Type_ := "const char*"; external.Name := "pathname" |}; {| external.Type_ := "mode_t"; external.Name := "mode" |}; {| external.Type_ := "dev_t"; external.Name := "dev" |}]);
  (UselibEventID, [{| external.Type_ := "const char*"; external.Name := "library" |}]);
  (PersonalityEventID, [{| external.Type_ := "unsigned long"; external.Name := "persona" |}]);
  (UstatEventID, [{| external.Type_ := "dev_t"; external.Name := "dev" |}; {| external.Type_ := "struct ustat*"; external.Name := "ubuf" |}]);
  (StatfsEventID, [{| external.Type_ := "const char*"; external.Name := "path" |}; {| external.Type_ := "struct statfs*"; external.Name := "buf" |}]);
  (FstatfsEventID, [{| external.Type_ := "int"; external.Name := "fd" |}; {| external.Type_ := "struct statfs*"; external.Name := "buf" |}]);
  (SysfsEventID, [{| external.Type_ := "int"; external.Name := "option" |}]);
  (GetpriorityEventID, [{| external.Type_ := "int"; external.Name := "which" |}; {| external.Type_ := "int"; external.Name := "who" |}]);
  (SetpriorityEventID, [{| external.Type_ := "int"; external.Name := "which" |}; {| external.Type_ := "int"; external.Name := "who" |}; {| external.Type_ := "int"; external.Name := "prio" |}]);
  (SchedSetparamEventID, [{| external.Type_ := "pid_t"; external.Name := "pid" |}; {| external.Type_ := "struct sched_param*"; external.Name := "param" |}]);
  (SchedGetparamEventID, [{| external.Type_ := "pid_t"; external.Name := "pid" |}; {| external.Type_ := "struct sched_param*"; external.Name := "param" |}]);
  (SchedSetschedulerEventID, [{| external.Type_ := "pid_t"; external.Name := "pid" |}; {| external.Type_ := "int"; external.Name := "policy" |}; {| external.Type_ := "struct sched_param*"; external.Name := "param" |}]);
  (SchedGetschedulerEventID, [{| external.Type_ := "pid_t"; external.Name := "pid" |}]);
  (SchedGetPriorityMaxEventID, [{| external.Type_ := "int"; external.Name := "policy" |}]);
  (SchedGetPriorityMinEventID, [{| external.Type_ := "int"; external.Name := "policy" |}]);
  (SchedRrGetIntervalEventID, [{| external.Type_ := "pid_t"; external.Name := "pid" |}; {| external.Type_ := "struct timespec*"; external.Name := "tp" |}]);
  (MlockEventID, [{| external.Type_ := "const void*"; external.Name := "addr" |}; {| external.Type_ := "size_t"; external.Name := "len" |}]);
  (MunlockEventID, [{| external.Type_ := "const void*"; external.Name := "addr" |}; {| external.Type_ := "size_t"; external.Name := "len" |}]);
  (MlockallEventID, [{| external.Type_ := "int"; external.Name := "flags" |}]);
  (MunlockallEventID, []);
  (VhangupEventID, []);
  (ModifyLdtEventID, [{| external.Type_ := "int"; external.Name := "func" |}; {| external.Type_ := "void*"; external.Name := "ptr" |}; {| external.Type_ := "unsigned long"; external.Name := "bytecount" |}]);
  (PivotRootEventID, [{| external.Type_ := "const char*"; external.Name := "new_root" |}; {| external.Type_ := "const char*"; external.Name := "put_old" |}]);
  (SysctlEventID, [{| external.Type_ := "struct __sysctl_args*"; external.Name := "args" |}]);
  (PrctlEventID, [{| external.Type_ := "int"; external.Name := "option" |}; {| external.Type_ := "unsigned long"; external.Name := "arg2" |}; {| external.Type_ := "unsigned long"; external.Name := "arg3" |}; {| external.Type_ := "unsigned long"; external.Name := "arg4" |}; {| external.Type_ := "unsigned long"; external.Name := "arg5" |}]);
  (ArchPrctlEventID, [{| external.Type_ := "int"; external.Name := "option" |}; {| external.Type_ := "unsigned long"; external.Name := "addr" |}]);
  (AdjtimexEventID, [{| external.Type_ := "struct timex*"; external.Name := "buf" |}]);
  (SetrlimitEventID, [{| external.Type_ := "int"; external.Name := "resource" |}; {| external.Type_ := "const struct rlimit*"; external.Name := "rlim" |}]);
  (ChrootEventID, [{| external.Type_ := "const char*"; external.Name := "path" |}]);
  (SyncEventID, []);
  (AcctEventID, [{| external.Type_ := "const char*"; external.Name := "filename" |}]);
  (SettimeofdayEventID, [{| external.Type_ := "const struct timeval*"; external.Name := "tv" |}; {| external.Type_ := "const struct timezone*"; external.Name := "tz" |}]);
  (MountEventID, [{| external.Type_ := "const char*"; external.Name := "source" |}; {| external.Type_ := "const char*"; external.Name := "target" |}; {| external.Type_ := "const char*"; external.Name := "filesystemtype" |}; {| external.Type_ := "unsigned long"; external.Name := "mountflags" |}; {| external.Type_ := "const void*"; external.Name := "data" |}]);
  (UmountEventID, [{| external.Type_ := "const char*"; external.Name := "target" |}; {| external.Type_ := "int"; external.Name := "flags" |}]);
  (SwaponEventID, [{| external.Type_ := "const char*"; external.Name := "path" |}; {| external.Type_ := "int"; external.Name := "swapflags" |}]);
  (SwapoffEventID, [{| external.Type_ := "const char*"; external.Name := "path" |}]);
  (RebootEventID, [{| external.Type_ := "int"; external.Name := "magic" |}; {| external.Type_ := "int"; external.Name := "magic2" |}; {| external.Type_ := "int"; external.Name := "cmd" |}; {| external.Type_ := "void*"; external.Name := "arg" |}]);
  (SethostnameEventID, [{| external.Type_ := "const char*"; external.Name := "name" |}; {| external.Type_ := "size_t"; external.Name := "len" |}]);
  (SetdomainnameEventID, [{| external.Type_ := "const char*"; external.Name := "name" |}; {| external.Type_ := "size_t"; external.Name := "len" |}]);
  (IoplEventID, [{| external.Type_ := "int"; external.Name := "level" |}]);
  (IopermEventID, [{| external.Type_ := "unsigned long"; external.Name := "from" |}; {| external.Type_ := "unsigned long"; external.Name := "num" |}; {| external.Type_ := "int"; external.Name := "turn_on" |}]);
  (InitModuleEventID, [{| external.Type_ := "void*"; external.Name := "module_image" |}; {| external.Type_ := "unsigned long"; external.Name := "len" |}; {| external.Type_ := "const char*"; external.Name := "param_values" |}]);
  (DeleteModuleEventID, [{| external.Type_ := "const char*"; external.Name := "name" |}; {| external.Type_ := "int"; external.Name := "flags" |}]);
  (QuotactlEventID, [{| external.Type_ := "int"; external.Name := "cmd" |}; {| external.Type_ := "const char*"; external.Name := "special" |}; {| external.Type_ := "int"; external.Name := "id" |}; {| external.Type_ := "void*"; external.Name := "addr" |}]);
  (GettidEventID, []);
  (ReadaheadEventID, [{| external.Type_ := "int"; external.Name := "fd" |}; {| external.Type_ := "off_t"; external.Name := "offset" |}; {| external.Type_ := "size_t"; external.Name := "count" |}]);
  (SetxattrEventID, [{| external.Type_ := "const char*"; external.Name := "path" |}; {| external.Type_ := "const char*"; external.Name := "name" |}; {| external.Type_ := "const void*"; external.Name := "value" |}; {| external.Type_ := "size_t"; external.Name := "size" |}; {| external.Type_ := "int"; external.Name := "flags" |}]);
  (LsetxattrEventID, [{| external.Type_ := "const char*"; external.Name := "path" |}; {| external.Type_ := "const char*"; external.Name := "name" |}; {| external.Type_ := "const void*"; external.Name := "value" |}; {| external.Type_ := "size_t"; external.Name := "size" |}; {| external.Type_ := "int"; external.Name := "flags" |}]);
  (FsetxattrEventID, [{| external.Type_ := "int"; external.Name := "fd" |}; {| external.Type_ := "const char*"; external.Name := "name" |}; {| external.Type_ := "const void*"; external.Name := "value" |}; {| external.Type_ := "size_t"; external.Name := "size" |}; {| external.Type_ := "int"; external.Name := "flags" |}]);
  (GetxattrEventID, [{| external.Type_ := "const char*"; external.Name := "path" |}; {| external.Type_ := "const char*"; external.Name := "name" |}; {| external.Type_ := "void*"; external.Name := "value" |}; {| external.Type_ := "size_t"; external.Name := "size" |}]);
  (LgetxattrEventID, [{| external.Type_ := "const char*"; external.Name := "path" |}; {| external.Type_ := "const char*"; external.Name := "name" |}; {| external.Type_ := "void*"; external.Name := "value" |}; {| external.Type_ := "size_t"; external.Name := "size" |}]);
  (FgetxattrEventID, [{| external.Type_ := "int"; external.Name := "fd" |}; {| external.Type_ := "const char*"; external.Name := "name" |}; {| external.Type_ := "void*"; external.Name := "value" |}; {| external.Type_ := "size_t"; external.Name := "size" |}]);
  (ListxattrEventID, [{| external.Type_ := "const char*"; external.Name := "path" |}; {| external.Type_ := "char*"; external.Name := "list" |}; {| external.Type_ := "size_t"; external.Name := "size" |}]);
  (LlistxattrEventID, [{| external.Type_ := "const char*"; external.Name := "path" |}; {| external.Type_ := "char*"; external.Name := "list" |}; {| external.Type_ := "size_t"; external.Name := "size" |}]);
  (FlistxattrEventID, [{| external.Type_ := "int"; external.Name := "fd" |}; {| external.Type_ := "char*"; external.Name := "list" |}; {| external.Type_ := "size_t"; external.Name := "size" |}]);
  (RemovexattrEventID, [{| external.Type_ := "const char*"; external.Name := "path" |}; {| external.Type_ := "const char*"; external.Name := "name" |}]);
  (LremovexattrEventID, [{| external.Type_ := "const char*"; external.Name := "path" |}; {| external.Type_ := "const char*"; external.Name := "name" |}]);
  (FremovexattrEventID, [{| external.Type_ := "int"; external.Name := "fd" |}; {| external.Type_ := "const char*"; external.Name := "name" |}]);
  (TkillEventID, [{| external.Type_ := "int"; external.Name := "tid" |}; {| external.Type_ := "int"; external.Name := "sig" |}]);
  (TimeEventID, [{| external.Type_ := "time_t*"; external.Name := "tloc" |}]);
  (FutexEventID, [{| external.Type_ := "int*"; external.Name := "uaddr" |}; {| external.Type_ := "int"; external.Name := "futex_op" |}; {| external.Type_ := "int"; external.Name := "val" |}; {| external.Type_ := "const struct timespec*"; external.Name := "timeout" |}; {| external.Type_ := "int*"; external.Name := "uaddr2" |}; {| external.Type_ := "int"; external.Name := "val3" |}]);
  (SchedSetaffinityEventID, [{| external.Type_ := "pid_t"; external.Name := "pid" |}; {| external.Type_ := "size_t"; external.Name := "cpusetsize" |}; {| external.Type_ := "unsigned long*"; external.Name := "mask" |}]);
  (SchedGetaffinityEventID, [{| external.Type_ := "pid_t"; external.Name := "pid" |}; {| external.Type_ := "size_t"; external.Name := "cpusetsize" |}; {| external.Type_ := "unsigned long*"; external.Name := "mask" |}]);
  (SetThreadAreaEventID, [{| external.Type_ := "struct user_desc*"; external.Name := "u_info" |}]);
  (IoSetupEventID, [{| external.Type_ := "unsigned int"; external.Name := "nr_events" |}; {| external.Type_ := "io_context_t*"; external.Name := "ctx_idp" |}]);
  (IoDestroyEventID, [{| external.Type_ := "io_context_t"; external.Name := "ctx_id" |}]);
  (IoGeteventsEventID, [{| external.Type_ := "io_context_t"; external.Name := "ctx_id" |}; {| external.Type_ := "long"; external.Name := "min_nr" |}; {| external.Type_ := "long"; external.Name := "nr" |}; {| external.Type_ := "struct io_event*"; external.Name := "events" |}; {| external.Type_ := "struct timespec*"; external.Name := "timeout" |}]);
  (IoSubmitEventID, [{| external.Type_ := "io_context_t"; external.Name := "ctx_id" |}; {| external.Type_ := "long"; external.Name := "nr" |}; {| external.Type_ := "struct iocb**"; external.Name := "iocbpp" |}]);
  (IoCancelEventID, [{| external.Type_ := "io_context_t"; external.Name := "ctx_id" |}; {| external.Type_ := "struct iocb*"; external.Name := "iocb" |}; {| external.Type_ := "struct io_event*"; external.Name := "result" |}]);
  (GetThreadAreaEventID, [{| external.Type_ := "struct user_desc*"; external.Name := "u_info" |}]);
  (LookupDcookieEventID, [{| external.Type_ := "u64"; external.Name := "cookie" |}; {| external.Type_ := "char*"; external.Name := "buffer" |}; {| external.Type_ := "size_t"; external.Name := "len" |}]);
  (EpollCreateEventID, [{| external.Type_ := "int"; external.Name := "size" |}]);
  (RemapFilePagesEventID, [{| external.Type_ := "void*"; external.Name := "addr" |}; {| external.Type_ := "size_t"; external.Name := "size" |}; {| external.Type_ := "int"; external.Name := "prot" |}; {| external.Type_ := "size_t"; external.Name := "pgoff" |}; {| external.Type_ := "int"; external.Name := "flags" |}]);
  (Getdents64EventID, [{| external.Type_ := "unsigned int"; external.Name := "fd" |}; {| external.Type_ := "struct linux_dirent64*"; external.Name := "dirp" |}; {| external.Type_ := "unsigned int"; external.Name := "count" |}]);
  (SetTidAddressEventID, [{| external.Type_ := "int*"; external.Name := "tidptr" |}]);
  (RestartSyscallEventID, []);
  (SemtimedopEventID, [{| external.Type_ := "int"; external.Name := "semid" |}; {| external.Type_ := "struct sembuf*"; external.Name := "sops" |}; {| external.Type_ := "size_t"; external.Name := "nsops" |}; {| external.Type_ := "const struct timespec*"; external.Name := "timeout" |}]);
  (Fadvise64EventID, [{| external.Type_ := "int"; external.Name := "fd" |}; {| external.Type_ := "off_t"; external.Name := "offset" |}; {| external.Type_ := "size_t"; external.Name := "len" |}; {| external.Type_ := "int"; external.Name := "advice" |}]);
  (TimerCreateEventID, [{| external.Type_ := "const clockid_t"; external.Name := "clockid" |}; {| external.Type_ := "struct sigevent*"; external.Name := "sevp" |}; {| external.Type_ := "timer_t*"; external.Name := "timer_id" |}]);
  (TimerSettimeEventID, [{| external.Type_ := "timer_t"; external.Name := "timer_id" |}; {| external.Type_ := "int"; external.Name := "flags" |}; {| external.Type_ := "const struct itimerspec*"; external.Name := "new_value" |}; {| external.Type_ := "struct itimerspec*"; external.Name := "old_value" |}]);
  (TimerGettimeEventID, [{| external.Type_ := "timer_t"; external.Name := "timer_id" |}; {| external.Type_ := "struct itimerspec*"; external.Name := "curr_value" |}]);
  (TimerGetoverrunEventID, [{| external.Type_ := "timer_t"; external.Name := "timer_id" |}]);
  (TimerDeleteEventID, [{| external.Type_ := "timer_t"; external.Name := "timer_id" |}]);
  (ClockSettimeEventID, [{| external.Type_ := "const clockid_t"; external.Name := "clockid" |}; {| external.Type_ := "const struct timespec*"; external.Name := "tp" |}]);
  (ClockGettimeEventID, [{| external.Type_ := "const clockid_t"; external.Name := "clockid" |}; {| external.Type_ := "struct timespec*"; external.Name := "tp" |}]);
  (ClockGetresEventID, [{| external.Type_ := "const clockid_t"; external.Name := "clockid" |}; {| external.Type_ := "struct timespec*"; external.Name := "res" |}]);
  (ClockNanosleepEventID, [{| external.Type_ := "const clockid_t"; external.Name := "clockid" |}; {| external.Type_ := "int"; external.Name := "flags" |}; {| external.Type_ := "const struct timespec*"; external.Name := "request" |}; {| external.Type_ := "struct timespec*"; external.Name := "remain" |}]);
  (ExitGroupEventID, [{| external.Type_ := "int"; external.Name := "status" |}]);
  (EpollWaitEventID, [{| external.Type_ := "int"; external.Name := "epfd" |}; {| external.Type_ := "struct epoll_event*"; external.Name := "events" |}; {| external.Type_ := "int"; external.Name := "maxevents" |}; {| external.Type_ := "int"; external.Name := "timeout" |}]);
  (EpollCtlEventID, [{| external.Type_ := "int"; external.Name := "epfd" |}; {| external.Type_ := "int"; external.Name := "op" |}; {| external.Type_ := "int"; external.Name := "fd" |}; {| external.Type_ := "struct epoll_event*"; external.Name := "event" |}]);
  (TgkillEventID, [{| external.Type_ := "int"; external.Name := "tgid" |}; {| external.Type_ := "int"; external.Name := "tid" |}; {| external.Type_ := "int"; external.Name := "sig" |}]);
  (UtimesEventID, [{| external.Type_ := "char*"; external.Name := "filename" |}; {| external.Type_ := "struct timeval*"; external.Name := "times" |}]);
  (MbindEventID, [{| external.Type_ := "void*"; external.Name := "addr" |}; {| external.Type_ := "unsigned long"; external.Name := "len" |}; {| external.Type_ := "int"; external.Name := "mode" |}; {| external.Type_ := "const unsigned long*"; external.Name := "nodemask" |}; {| external.Type_ := "unsigned long"; external.Name := "maxnode" |}; {| external.Type_ := "unsigned int"; external.Name := "flags" |}]);
  (SetMempolicyEventID, [{| external.Type_ := "int"; external.Name := "mode" |}; {| external.Type_ := "const unsigned long*"; external.Name := "nodemask" |}; {| external.Type_ := "unsigned long"; external.Name := "maxnode" |}]);
  (GetMempolicyEventID, [{| external.Type_ := "int*"; external.Name := "mode" |}; {| external.Type_ := "unsigned long*"; external.Name := "nodemask" |}; {| external.Type_ := "unsigned long"; external.Name := "maxnode" |}; {| external.Type_ := "void*"; external.Name := "addr" |}; {| external.Type_ := "unsigned long"; external.Name := "flags" |}]);
  (MqOpenEventID, [{| external.Type_ := "const char*"; external.Name := "name" |}; {| external.Type_ := "int"; external.Name := "oflag" |}; {| external.Type_ := "mode_t"; external.Name := "mode" |}; {| external.Type_ := "struct mq_attr*"; external.Name := "attr" |}]);
  (MqUnlinkEventID, [{| external.Type_ := "const char*"; external.Name := "name" |}]);
  (MqTimedsendEventID, [{| external.Type_ := "mqd_t"; external.Name := "mqdes" |}; {| external.Type_ := "const char*"; external.Name := "msg_ptr" |}; {| external.Type_ := "size_t"; external.Name := "msg_len" |}; {| external.Type_ := "unsigned int"; external.Name := "msg_prio" |}; {| external.Type_ := "const struct timespec*"; external.Name := "abs_timeout" |}]);
  (MqTimedreceiveEventID, [{| external.Type_ := "mqd_t"; external.Name := "mqdes" |}; {| external.Type_ := "char*"; external.Name := "msg_ptr" |}; {| external.Type_ := "size_t"; external.Name := "msg_len" |}; {| external.Type_ := "unsigned int*"; external.Name := "msg_prio" |}; {| external.Type_ := "const struct timespec*"; external.Name := "abs_timeout" |}]);
  (MqNotifyEventID, [{| external.Type_ := "mqd_t"; external.Name := "mqdes" |}; {| external.Type_ := "const struct sigevent*"; external.Name := "sevp" |}]);
  (MqGetsetattrEventID, [{| external.Type_ := "mqd_t"; external.Name := "mqdes" |}; {| external.Type_ := "const struct mq_attr*"; external.Name := "newattr" |}; {| external.Type_ := "struct mq_attr*"; external.Name := "oldattr" |}]);
  (KexecLoadEventID, [{| external.Type_ := "unsigned long"; external.Name := "entry" |}; {| external.Type_ := "unsigned long"; external.Name := "nr_segments" |}; {| external.Type_ := "struct kexec_segment*"; external.Name := "segments" |}; {| external.Type_ := "unsigned long"; external.Name := "flags" |}]);
  (WaitidEventID, [{| external.Type_ := "int"; external.Name := "idtype" |}; {| external.Type_ := "pid_t"; external.Name := "id" |}; {| external.Type_ := "struct siginfo*"; external.Name := "infop" |}; {| external.Type_ := "int"; external.Name := "options" |}; {| external.Type_ := "struct rusage*"; external.Name := "rusage" |}]);
  (AddKeyEventID, [{| external.Type_ := "const char*"; external.Name := "type" |}; {| external.Type_ := "const char*"; external.Name := "description" |}; {| external.Type_ := "const void*"; external.Name := "payload" |}; {| external.Type_ := "size_t"; external.Name := "plen" |}; {| external.Type_ := "key_serial_t"; external.Name := "keyring" |}]);
  (RequestKeyEventID, [{| external.Type_ := "const char*"; external.Name := "type" |}; {| external.Type_ := "const char*"; external.Name := "description" |}; {| external.Type_ := "const char*"; external.Name := "callout_info" |}; {| external.Type_ := "key_serial_t"; external.Name := "dest_keyring" |}]);
  (KeyctlEventID, [{| external.Type_ := "int"; external.Name := "operation" |}; {| external.Type_ := "unsigned long"; external.Name := "arg2" |}; {| external.Type_ := "unsigned long"; external.Name := "arg3" |}; {| external.Type_ := "unsigned long"; external.Name := "arg4" |}; {| external.Type_ := "unsigned long"; external.Name := "arg5" |}]);
  (IoprioSetEventID, [{| external.Type_ := "int"; external.Name := "which" |}; {| external.Type_ := "int"; external.Name := "who" |}; {| external.Type_ := "int"; external.Name := "ioprio" |}]);
  (IoprioGetEventID, [{| external.Type_ := "int"; external.Name := "which" |}; {| external.Type_ := "int"; external.Name := "who" |}]);
  (InotifyInitEventID, []);
  (InotifyAddWatchEventID, [{| external.Type_ := "int"; external.Name := "fd" |}; {| external.Type_ := "const char*"; external.Name := "pathname" |}; {| external.Type_ := "u32"; external.Name := "mask" |}]);
  (InotifyRmWatchEventID, [{| external.Type_ := "int"; external.Name := "fd" |}; {| external.Type_ := "int"; external.Name := "wd" |}]);
  (MigratePagesEventID, [{| external.Type_ := "int"; external.Name := "pid" |}; {| external.Type_ := "unsigned long"; external.Name := "maxnode" |}; {| external.Type_ := "const unsigned long*"; external.Name := "old_nodes" |}; {| external.Type_ := "const unsigned long*"; external.Name := "new_nodes" |}]);
  (OpenatEventID, [{| external.Type_ := "int"; external.Name := "dirfd" |}; {| external.Type_ := "const char*"; external.Name := "pathname" |}; {| external.Type_ := "int"; external.Name := "flags" |}; {| external.Type_ := "mode_t"; external.Name := "mode" |}]);
  (MkdiratEventID, [{| external.Type_ := "int"; external.Name := "dirfd" |}; {| external.Type_ := "const char*"; external.Name := "pathname" |}; {| external.Type_ := "mode_t"; external.Name := "mode" |}]);
  (MknodatEventID, [{| external.Type_ := "int"; external.Name := "dirfd" |}; {| external.Type_ := "const char*"; external.Name := "pathname" |}; {| external.Type_ := "mode_t"; external.Name := "mode" |}; {| external.Type_ := "dev_t"; external.Name := "dev" |}]);
  (FchownatEventID, [{| external.Type_ := "int"; external.Name := "dirfd" |}; {| external.Type_ := "const char*"; external.Name := "pathname" |}; {| external.Type_ := "uid_t"; external.Name := "owner" |}; {| external.Type_ := "gid_t"; external.Name := "group" |}; {| external.Type_ := "int"; external.Name := "flags" |}]);
  (FutimesatEventID, [{| external.Type_ := "int"; external.Name := "dirfd" |}; {| external.Type_ := "const char*"; external.Name := "pathname" |}; {| external.Type_ := "struct timeval*"; external.Name := "times" |}]);
  (NewfstatatEventID, [{| external.Type_ := "int"; external.Name := "dirfd" |}; {| external.Type_ := "const char*"; external.Name := "pathname" |}; {| external.Type_ := "struct stat*"; external.Name := "statbuf" |}; {| external.Type_ := "int"; external.Name := "flags" |}]);
  (UnlinkatEventID, [{| external.Type_ := "int"; external.Name := "dirfd" |}; {| external.Type_ := "const char*"; external.Name := "pathname" |}; {| external.Type_ := "int"; external.Name := "flags" |}]);
  (RenameatEventID, [{| external.Type_ := "int"; external.Name := "olddirfd" |}; {| external.Type_ := "const char*"; external.Name := "oldpath" |}; {| external.Type_ := "int"; external.Name := "newdirfd" |}; {| external.Type_ := "const char*"; external.Name := "newpath" |}]);
  (LinkatEventID, [{| external.Type_ := "int"; external.Name := "olddirfd" |}; {| external.Type_ := "const char*"; external.Name := "oldpath" |}; {| external.Type_ := "int"; external.Name := "newdirfd" |}; {| external.Type_ := "const char*"; external.Name := "newpath" |}; {| external.Type_ := "unsigned int"; external.Name := "flags" |}]);
  (SymlinkatEventID, [{| external.Type_ := "const char*"; external.Name := "target" |}; {| external.Type_ := "int"; external.Name := "newdirfd" |}; {| external.Type_ := "const char*"; external.Name := "linkpath" |}]);
  (ReadlinkatEventID, [{| external.Type_ := "int"; external.Name := "dirfd" |}; {| external.Type_ := "const char*"; external.Name := "pathname" |}; {| external.Type_ := "char*"; external.Name := "buf" |}; {| external.Type_ := "int"; external.Name := "bufsiz" |}]);
  (FchmodatEventID, [{| external.Type_ := "int"; external.Name := "dirfd" |}; {| external.Type_ := "const char*"; external.Name := "pathname" |}; {| external.Type_ := "mode_t"; external.Name := "mode" |}; {| external.Type_ := "int"; external.Name := "flags" |}]);
  (FaccessatEventID, [{| external.Type_ := "int"; external.Name := "dirfd" |}; {| external.Type_ := "const char*"; external.Name := "pathname" |}; {| external.Type_ := "int"; external.Name := "mode" |}; {| external.Type_ := "int"; external.Name := "flags" |}]);
  (Pselect6EventID, [{| external.Type_ := "int"; external.Name := "nfds" |}; {| external.Type_ := "fd_set*"; external.Name := "readfds" |}; {| external.Type_ := "fd_set*"; external.Name := "writefds" |}; {| external.Type_ := "fd_set*"; external.Name := "exceptfds" |}; {| external.Type_ := "struct timespec*"; external.Name := "timeout" |}; {| external.Type_ := "void*"; external.Name := "sigmask" |}]);
  (PpollEventID, [{| external.Type_ := "struct pollfd*"; external.Name := "fds" |}; {| external.Type_ := "unsigned int"; external.Name := "nfds" |}; {| external.Type_ := "struct timespec*"; external.Name := "tmo_p" |}; {| external.Type_ := "const sigset_t*"; external.Name := "sigmask" |}; {| external.Type_ := "size_t"; external.Name := "sigsetsize" |}]);
  (UnshareEventID, [{| external.Type_ := "int"; external.Name := "flags" |}]);
  (SetRobustListEventID, [{| external.Type_ := "struct robust_list_head*"; external.Name := "head" |}; {| external.Type_ := "size_t"; external.Name := "len" |}]);
  (GetRobustListEventID, [{| external.Type_ := "int"; external.Name := "pid" |}; {| external.Type_ := "struct robust_list_head**"; external.Name := "head_ptr" |}; {| external.Type_ := "size_t*"; external.Name := "len_ptr" |}]);
  (SpliceEventID, [{| external.Type_ := "int"; external.Name := "fd_in" |}; {| external.Type_ := "off_t*"; external.Name := "off_in" |}; {| external.Type_ := "int"; external.Name := "fd_out" |}; {| external.Type_ := "off_t*"; external.Name := "off_out" |}; {| external.Type_ := "size_t"; external.Name := "len" |}; {| external.Type_ := "unsigned int"; external.Name := "flags" |}]);
  (TeeEventID, [{| external.Type_ := "int"; external.Name := "fd_in" |}; {| external.Type_ := "int"; external.Name := "fd_out" |}; {| external.Type_ := "size_t"; external.Name := "len" |}; {| external.Type_ := "unsigned int"; external.Name := "flags" |}]);
  (SyncFileRangeEventID, [{| external.Type_ := "int"; external.Name := "fd" |}; {| external.Type_ := "off_t"; external.Name := "offset" |}; {| external.Type_ := "off_t"; external.Name := "nbytes" |}; {| external.Type_ := "unsigned int"; external.Name := "flags" |}]);
  (VmspliceEventID, [{| external.Type_ := "int"; external.Name := "fd" |}; {| external.Type_ := "const struct iovec*"; external.Name := "iov" |}; {| external.Type_ := "unsigned long"; external.Name := "nr_segs" |}; {| external.Type_ := "unsigned int"; external.Name := "flags" |}]);
  (MovePagesEventID, [{| external.Type_ := "int"; external.Name := "pid" |}; {| external.Type_ := "unsigned long"; external.Name := "count" |}; {| external.Type_ := "const void**"; external.Name := "pages" |}; {| external.Type_ := "const int*"; external.Name := "nodes" |}; {| external.Type_ := "int*"; external.Name := "status" |}; {| external.Type_ := "int"; external.Name := "flags" |}]);
  (UtimensatEventID, [{| external.Type_ := "int"; external.Name := "dirfd" |}; {| external.Type_ := "const char*"; external.Name := "pathname" |}; {| external.Type_ := "struct timespec*"; external.Name := "times" |}; {| external.Type_ := "int"; external.Name := "flags" |}]);
  (EpollPwaitEventID, [{| external.Type_ := "int"; external.Name := "epfd" |}; {| external.Type_ := "struct epoll_event*"; external.Name := "events" |}; {| external.Type_ := "int"; external.Name := "maxevents" |}; {| external.Type_ := "int"; external.Name := "timeout" |}; {| external.Type_ := "const sigset_t*"; external.Name := "sigmask" |}; {| external.Type_ := "size_t"; external.Name := "sigsetsize" |}]);
  (SignalfdEventID, [{| external.Type_ := "int"; external.Name := "fd" |}; {| external.Type_ := "sigset_t*"; external.Name := "mask" |}; {| external.Type_ := "int"; external.Name := "flags" |}]);
  (TimerfdCreateEventID, [{| external.Type_ := "int"; external.Name := "clockid" |}; {| external.Type_ := "int"; external.Name := "flags" |}]);
  (EventfdEventID, [{| external.Type_ := "unsigned int"; external.Name := "initval" |}; {| external.Type_ := "int"; external.Name := "flags" |}]);
  (FallocateEventID, [{| external.Type_ := "int"; external.Name := "fd" |}; {| external.Type_ := "int"; external.Name := "mode" |}; {| external.Type_ := "off_t"; external.Name := "offset" |}; {| external.Type_ := "off_t"; external.Name := "len" |}]);
  (TimerfdSettimeEventID, [{| external.Type_ := "int"; external.Name := "fd" |}; {| external.Type_ := "int"; external.Name := "flags" |}; {| external.Type_ := "const struct itimerspec*"; external.Name := "new_value" |}; {| external.Type_ := "struct itimerspec*"; external.Name := "old_value" |}]);
  (TimerfdGettimeEventID, [{| external.Type_ := "int"; external.Name := "fd" |}; {| external.Type_ := "struct itimerspec*"; external.Name := "curr_value" |}]);
  (Accept4EventID, [{| external.Type_ := "int"; external.Name := "sockfd" |}; {| external.Type_ := "struct sockaddr*"; external.Name := "addr" |}; {| external.Type_ := "int*"; external.Name := "addrlen" |}; {| external.Type_ := "int"; external.Name := "flags" |}]);
  (Signalfd4EventID, [{| external.Type_ := "int"; external.Name := "fd" |}; {| external.Type_ := "const sigset_t*"; external.Name := "mask" |}; {| external.Type_ := "size_t"; external.Name := "sizemask" |}; {| external.Type_ := "int"; external.Name := "flags" |}]);
  (Eventfd2EventID, [{| external.Type_ := "unsigned int"; external.Name := "initval" |}; {| external.Type_ := "int"; external.Name := "flags" |}]);
  (EpollCreate1EventID, [{| external.Type_ := "int"; external.Name := "flags" |}]);
  (Dup3EventID, [{| external.Type_ := "int"; external.Name := "oldfd" |}; {| external.Type_ := "int"; external.Name := "newfd" |}; {| external.Type_ := "int"; external.Name := "flags" |}]);
  (Pipe2EventID, [{| external.Type_ := "int[2]"; external.Name := "pipefd" |}; {| external.Type_ := "int"; external.Name := "flags" |}]);
  (InotifyInit1EventID, [{| external.Type_ := "int"; external.Name := "flags" |}]);
  (PreadvEventID, [{| external.Type_ := "int"; external.Name := "fd" |}; {| external.Type_ := "const struct iovec*"; external.Name := "iov" |}; {| external.Type_ := "unsigned long"; external.Name := "iovcnt" |}; {| external.Type_ := "unsigned long"; external.Name := "pos_l" |}; {| external.Type_ := "unsigned long"; external.Name := "pos_h" |}]);
  (PwritevEventID, [{| external.Type_ := "int"; external.Name := "fd" |}; {| external.Type_ := "const struct iovec*"; external.Name := "iov" |}; {| external.Type_ := "unsigned long"; external.Name := "iovcnt" |}; {| external.Type_ := "unsigned long"; external.Name := "pos_l" |}; {| external.Type_ := "unsigned long"; external.Name := "pos_h" |}]);
  (RtTgsigqueueinfoEventID, [{| external.Type_ := "pid_t"; external.Name := "tgid" |}; {| external.Type_ := "pid_t"; external.Name := "tid" |}; {| external.Type_ := "int"; external.Name := "sig" |}; {| external.Type_ := "siginfo_t*"; external.Name := "info" |}]);
  (PerfEventOpenEventID, [{| external.Type_ := "struct perf_event_attr*"; external.Name := "attr" |}; {| external.Type_ := "pid_t"; external.Name := "pid" |}; {| external.Type_ := "int"; external.Name := "cpu" |}; {| external.Type_ := "int"; external.Name := "group_fd" |}; {| external.Type_ := "unsigned long"; external.Name := "flags" |}]);
  (RecvmmsgEventID, [{| external.Type_ := "int"; external.Name := "sockfd" |}; {| external.Type_ := "struct mmsghdr*"; external.Name := "msgvec" |}; {| external.Type_ := "unsigned int"; external.Name := "vlen" |}; {| external.Type_ := "int"; external.Name := "flags" |}; {| external.Type_ := "struct timespec*"; external.Name := "timeout" |}]);
  (FanotifyInitEventID, [{| external.Type_ := "unsigned int"; external.Name := "flags" |}; {| external.Type_ := "unsigned int"; external.Name := "event_f_flags" |}]);
  (FanotifyMarkEventID, [{| external.Type_ := "int"; external.Name := "fanotify_fd" |}; {| external.Type_ := "unsigned int"; external.Name := "flags" |}; {| external.Type_ := "u64"; external.Name := "mask" |}; {| external.Type_ := "int"; external.Name := "dirfd" |}; {| external.Type_ := "const char*"; external.Name := "pathname" |}]);
  (Prlimit64EventID, [{| external.Type_ := "pid_t"; external.Name := "pid" |}; {| external.Type_ := "int"; external.Name := "resource" |}; {| external.Type_ := "const struct rlimit64*"; external.Name := "new_limit" |}; {| external.Type_ := "struct rlimit64*"; external.Name := "old_limit" |}]);
  (NameToHandleAtEventID, [{| external.Type_ := "int"; external.Name := "dirfd" |}; {| external.Type_ := "const char*"; external.Name := "pathname" |}; {| external.Type_ := "struct file_handle*"; external.Name := "handle" |}; {| external.Type_ := "int*"; external.Name := "mount_id" |}; {| external.Type_ := "int"; external.Name := "flags" |}]);
  (OpenByHandleAtEventID, [{| external.Type_ := "int"; external.Name := "mount_fd" |}; {| external.Type_ := "struct file_handle*"; external.Name := "handle" |}; {| external.Type_ := "int"; external.Name := "flags" |}]);
  (ClockAdjtimeEventID, [{| external.Type_ := "const clockid_t"; external.Name := "clk_id" |}; {| external.Type_ := "struct timex*"; external.Name := "buf" |}]);
  (SyncfsEventID, [{| external.Type_ := "int"; external.Name := "fd" |}]);
  (SendmmsgEventID, [{| external.Type_ := "int"; external.Name := "sockfd" |}; {| external.Type_ := "struct mmsghdr*"; external.Name := "msgvec" |}; {| external.Type_ := "unsigned int"; external.Name := "vlen" |}; {| external.Type_ := "int"; external.Name := "flags" |}]);
  (SetnsEventID, [{| external.Type_ := "int"; external.Name := "fd" |}; {| external.Type_ := "int"; external.Name := "nstype" |}]);
  (GetcpuEventID, [{| external.Type_ := "unsigned int*"; external.Name := "cpu" |}; {| external.Type_ := "unsigned int*"; external.Name := "node" |}; {| external.Type_ := "struct getcpu_cache*"; external.Name := "tcache" |}]);
  (ProcessVmReadvEventID, [{| external.Type_ := "pid_t"; external.Name := "pid" |}; {| external.Type_ := "const struct iovec*"; external.Name := "local_iov" |}; {| external.Type_ := "unsigned long"; external.Name := "liovcnt" |}; {| external.Type_ := "const struct iovec*"; external.Name := "remote_iov" |}; {| external.Type_ := "unsigned long"; external.Name := "riovcnt" |}; {| external.Type_ := "unsigned long"; external.Name := "flags" |}]);
  (ProcessVmWritevEventID, [{| external.Type_ := "pid_t"; external.Name := "pid" |}; {| external.Type_ := "const struct iovec*"; external.Name := "local_iov" |}; {| external.Type_ := "unsigned long"; external.Name := "liovcnt" |}; {| external.Type_ := "const struct iovec*"; external.Name := "remote_iov" |}; {| external.Type_ := "unsigned long"; external.Name := "riovcnt" |}; {| external.Type_ := "unsigned long"; external.Name := "flags" |}]);
  (KcmpEventID, [{| external.Type_ := "pid_t"; external.Name := "pid1" |}; {| external.Type_ := "pid_t"; external.Name := "pid2" |}; {| external.Type_ := "int"; external.Name := "type" |}; {| external.Type_ := "unsigned long"; external.Name := "idx1" |}; {| external.Type_ := "unsigned long"; external.Name := "idx2" |}]);
  (FinitModuleEventID, [{| external.Type_ := "int"; external.Name := "fd" |}; {| external.Type_ := "const char*"; external.Name := "param_values" |}; {| external.Type_ := "int"; external.Name := "flags" |}]);
  (SchedSetattrEventID, [{| external.Type_ := "pid_t"; external.Name := "pid" |}; {| external.Type_ := "struct sched_attr*"; external.Name := "attr" |}; {| external.Type_ := "unsigned int"; external.Name := "flags" |}]);
  (SchedGetattrEventID, [{| external.Type_ := "pid_t"; external.Name := "pid" |}; {| external.Type_ := "struct sched_attr*"; external.Name := "attr" |}; {| external.Type_ := "unsigned int"; external.Name := "size" |}; {| external.Type_ := "unsigned int"; external.Name := "flags" |}]);
  (Renameat2EventID, [{| external.Type_ := "int"; external.Name := "olddirfd" |}; {| external.Type_ := "const char*"; external.Name := "oldpath" |}; {| external.Type_ := "int"; external.Name := "newdirfd" |}; {| external.Type_ := "const char*"; external.Name := "newpath" |}; {| external.Type_ := "unsigned int"; external.Name := "flags" |}]);
  (SeccompEventID, [{| external.Type_ := "unsigned int"; external.Name := "operation" |}; {| external.Type_ := "unsigned int"; external.Name := "flags" |}; {| external.Type_ := "const void*"; external.Name := "args" |}]);
  (GetrandomEventID, [{| external.Type_ := "void*"; external.Name := "buf" |}; {| external.Type_ := "size_t"; external.Name := "buflen" |}; {| external.Type_ := "unsigned int"; external.Name := "flags" |}]);
  (MemfdCreateEventID, [{| external.Type_ := "const char*"; external.Name := "name" |}; {| external.Type_ := "unsigned int"; external.Name := "flags" |}]);
  (KexecFileLoadEventID, [{| external.Type_ := "int"; external.Name := "kernel_fd" |}; {| external.Type_ := "int"; external.Name := "initrd_fd" |}; {| external.Type_ := "unsigned long"; external.Name := "cmdline_len" |}; {| external.Type_ := "const char*"; external.Name := "cmdline" |}; {| external.Type_ := "unsigned long"; external.Name := "flags" |}]);
  (BpfEventID, [{| external.Type_ := "int"; external.Name := "cmd" |}; {| external.Type_ := "union bpf_attr*"; external.Name := "attr" |}; {| external.Type_ := "unsigned int"; external.Name := "size" |}]);
  (ExecveatEventID, [{| external.Type_ := "int"; external.Name := "dirfd" |}; {| external.Type_ := "const char*"; external.Name := "pathname" |}; {| external.Type_ := "const char*const*"; external.Name := "argv" |}; {| external.Type_ := "const char*const*"; external.Name := "envp" |}; {| external.Type_ := "int"; external.Name := "flags" |}]);
  (UserfaultfdEventID, [{| external.Type_ := "int"; external.Name := "flags" |}]);
  (MembarrierEventID, [{| external.Type_ := "int"; external.Name := "cmd" |}; {| external.Type_ := "int"; external.Name := "flags" |}]);
  (Mlock2EventID, [{| external.Type_ := "const void*"; external.Name := "addr" |}; {| external.Type_ := "size_t"; external.Name := "len" |}; {| external.Type_ := "int"; external.Name := "flags" |}]);
  (CopyFileRangeEventID, [{| external.Type_ := "int"; external.Name := "fd_in" |}; {| external.Type_ := "off_t*"; external.Name := "off_in" |}; {| external.Type_ := "int"; external.Name := "fd_out" |}; {| external.Type_ := "off_t*"; external.Name := "off_out" |}; {| external.Type_ := "size_t"; external.Name := "len" |}; {| external.Type_ := "unsigned int"; external.Name := "flags" |}]);
  (Preadv2EventID, [{| external.Type_ := "int"; external.Name := "fd" |}; {| external.Type_ := "const struct iovec*"; external.Name := "iov" |}; {| external.Type_ := "unsigned long"; external.Name := "iovcnt" |}; {| external.Type_ := "unsigned long"; external.Name := "pos_l" |}; {| external.Type_ := "unsigned long"; external.Name := "pos_h" |}; {| external.Type_ := "int"; external.Name := "flags" |}]);
  (Pwritev2EventID, [{| external.Type_ := "int"; external.Name := "fd" |}; {| external.Type_ := "const struct iovec*"; external.Name := "iov" |}; {| external.Type_ := "unsigned long"; external.Name := "iovcnt" |}; {| external.Type_ := "unsigned long"; external.Name := "pos_l" |}; {| external.Type_ := "unsigned long"; external.Name := "pos_h" |}; {| external.Type_ := "int"; external.Name := "flags" |}]);
  (PkeyMprotectEventID, [{| external.Type_ := "void*"; external.Name := "addr" |}; {| external.Type_ := "size_t"; external.Name := "len" |}; {| external.Type_ := "int"; external.Name := "prot" |}; {| external.Type_ := "int"; external.Name := "pkey" |}]);
  (PkeyAllocEventID, [{| external.Type_ := "unsigned int"; external.Name := "flags" |}; {| external.Type_ := "unsigned long"; external.Name := "access_rights" |}]);
  (PkeyFreeEventID, [{| external.Type_ := "int"; external.Name := "pkey" |}]);
  (StatxEventID, [{| external.Type_ := "int"; external.Name := "dirfd" |}; {| external.Type_ := "const char*"; external.Name := "pathname" |}; {| external.Type_ := "int"; external.Name := "flags" |}; {| external.Type_ := "unsigned int"; external.Name := "mask" |}; {| external.Type_ := "struct statx*"; external.Name := "statxbuf" |}]);
  (IoPgeteventsEventID, [{| external.Type_ := "aio_context_t"; external.Name := "ctx_id" |}; {| external.Type_ := "long"; external.Name := "min_nr" |}; {| external.Type_ := "long"; external.Name := "nr" |}; {| external.Type_ := "struct io_event*"; external.Name := "events" |}; {| external.Type_ := "struct timespec*"; external.Name := "timeout" |}; {| external.Type_ := "const struct __aio_sigset*"; external.Name := "usig" |}]);
  (RseqEventID, [{| external.Type_ := "struct rseq*"; external.Name := "rseq" |}; {| external.Type_ := "u32"; external.Name := "rseq_len" |}; {| external.Type_ := "int"; external.Name := "flags" |}; {| external.Type_ := "u32"; external.Name := "sig" |}]);
  (PidfdSendSignalEventID, [{| external.Type_ := "int"; external.Name := "pidfd" |}; {| external.Type_ := "int"; external.Name := "sig" |}; {| external.Type_ := "siginfo_t*"; external.Name := "info" |}; {| external.Type_ := "unsigned int"; external.Name := "flags" |}]);
  (IoUringSetupEventID, [{| external.Type_ := "unsigned int"; external.Name := "entries" |}; {| external.Type_ := "struct io_uring_params*"; external.Name := "p" |}]);
  (IoUringEnterEventID, [{| external.Type_ := "unsigned int"; external.Name := "fd" |}; {| external.Type_ := "unsigned int"; external.Name := "to_submit" |}; {| external.Type_ := "unsigned int"; external.Name := "min_complete" |}; {| external.Type_ := "unsigned int"; external.Name := "flags" |}; {| external.Type_ := "sigset_t*"; external.Name := "sig" |}]);
  (IoUringRegisterEventID, [{| external.Type_ := "unsigned int"; external.Name := "fd" |}; {| external.Type_ := "unsigned int"; external.Name := "opcode" |}; {| external.Type_ := "void*"; external.Name := "arg" |}; {| external.Type_ := "unsigned int"; external.Name := "nr_args" |}]);
  (OpenTreeEventID, [{| external.Type_ := "int"; external.Name := "dfd" |}; {| external.Type_ := "const char*"; external.Name := "filename" |}; {| external.Type_ := "unsigned int"; external.Name := "flags" |}]);
  (MoveMountEventID, [{| external.Type_ := "int"; external.Name := "from_dfd" |}; {| external.Type_ := "const char*"; external.Name := "from_path" |}; {| external.Type_ := "int"; external.Name := "to_dfd" |}; {| external.Type_ := "const char*"; external.Name := "to_path" |}; {| external.Type_ := "unsigned int"; external.Name := "flags" |}]);
  (FsopenEventID, [{| external.Type_ := "const char*"; external.Name := "fsname" |}; {| external.Type_ := "unsigned int"; external.Name := "flags" |}]);
  (FsconfigEventID, [{| external.Type_ := "int*"; external.Name := "fs_fd" |}; {| external.Type_ := "unsigned int"; external.Name := "cmd" |}; {| external.Type_ := "const char*"; external.Name := "key" |}; {| external.Type_ := "const void*"; external.Name := "value" |}; {| external.Type_ := "int"; external.Name := "aux" |}]);
  (FsmountEventID, [{| external.Type_ := "int"; external.Name := "fsfd" |}; {| external.Type_ := "unsigned int"; external.Name := "flags" |}; {| external.Type_ := "unsigned int"; external.Name := "ms_flags" |}]);
  (FspickEventID, [{| external.Type_ := "int"; external.Name := "dirfd" |}; {| external.Type_ := "const char*"; external.Name := "pathname" |}; {| external.Type_ := "unsigned int"; external.Name := "flags" |}]);
  (PidfdOpenEventID, [{| external.Type_ := "pid_t"; external.Name := "pid" |}; {| external.Type_ := "unsigned int"; external.Name := "flags" |}]);
  (Clone3EventID, [{| external.Type_ := "struct clone_args*"; external.Name := "cl_args" |}; {| external.Type_ := "size_t"; external.Name := "size" |}]);
  (CloseRangeEventID, [{| external.Type_ := "unsigned int"; external.Name := "first" |}; {| external.Type_ := "unsigned int"; external.Name := "last" |}]);
  (Openat2EventID, [{| external.Type_ := "int"; external.Name := "dirfd" |}; {| external.Type_ := "const char*"; external.Name := "pathname" |}; {| external.Type_ := "struct open_how*"; external.Name := "how" |}; {| external.Type_ := "size_t"; external.Name := "size" |}]);
  (PidfdGetfdEventID, [{| external.Type_ := "int"; external.Name := "pidfd" |}; {| external.Type_ := "int"; external.Name := "targetfd" |}; {| external.Type_ := "unsigned int"; external.Name := "flags" |}]);
  (Faccessat2EventID, [{| external.Type_ := "int"; external.Name := "fd" |}; {| external.Type_ := "const char*"; external.Name := "path" |}; {| external.Type_ := "int"; external.Name := "mode" |}; {| external.Type_ := "int"; external.Name := "flag" |}]);
  (ProcessMadviseEventID, [{| external.Type_ := "int"; external.Name := "pidfd" |}; {| external.Type_ := "void*"; external.Name := "addr" |}; {| external.Type_ := "size_t"; external.Name := "length" |}; {| external.Type_ := "int"; external.Name := "advice" |}; {| external.Type_ := "unsigned long"; external.Name := "flags" |}]);
  (EpollPwait2EventID, [{| external.Type_ := "int"; external.Name := "fd" |}; {| external.Type_ := "struct epoll_event*"; external.Name := "events" |}; {| external.Type_ := "int"; external.Name := "maxevents" |}; {| external.Type_ := "const struct timespec*"; external.Name := "timeout" |}; {| external.Type_ := "const sigset_t*"; external.Name := "sigset" |}]);
  (SysEnterEventID, [{| external.Type_ := "int"; external.Name := "syscall" |}]);
  (SysExitEventID, [{| external.Type_ := "int"; external.Name := "syscall" |}]);
  (SchedProcessForkEventID, [{| external.Type_ := "int"; external.Name := "parent_tid" |}; {| external.Type_ := "int"; external.Name := "parent_ns_tid" |}; {| external.Type_ := "int"; external.Name := "child_tid" |}; {| external.Type_ := "int"; external.Name := "child_ns_tid" |}]);
  (SchedProcessExecEventID, [{| external.Type_ := "const char*"; external.Name := "cmdpath" |}; {| external.Type_ := "const char*"; external.Name := "pathname" |}; {| external.Type_ := "const char**"; external.Name := "argv" |}; {| external.Type_ := "const char**"; external.Name := "env" |}; {| external.Type_ := "dev_t"; external.Name := "dev" |}; {| external.Type_ := "unsigned long"; external.Name := "inode" |}; {| external.Type_ := "int"; external.Name := "invoked_from_kernel" |}; {| external.Type_ := "unsigned long"; external.Name := "ctime" |}]);
  (SchedProcessExitEventID, [{| external.Type_ := "long"; external.Name := "exit_code" |}]);
  (SchedSwitchEventID, [{| external.Type_ := "int"; external.Name := "cpu" |}; {| external.Type_ := "int"; external.Name := "prev_tid" |}; {| external.Type_ := "const char*"; external.Name := "prev_comm" |}; {| external.Type_ := "int"; external.Name := "next_tid" |}; {| external.Type_ := "const char*"; external.Name := "next_comm" |}]);
  (DoExitEventID, []);
  (CapCapableEventID, [{| external.Type_ := "int"; external.Name := "cap" |}; {| external.Type_ := "int"; external.Name := "syscall" |}]);
  (VfsWriteEventID, [{| external.Type_ := "const char*"; external.Name := "pathname" |}; {| external.Type_ := "dev_t"; external.Name := "dev" |}; {| external.Type_ := "unsigned long"; external.Name := "inode" |}; {| external.Type_ := "size_t"; external.Name := "count" |}; {| external.Type_ := "off_t"; external.Name := "pos" |}]);
  (VfsWritevEventID, [{| external.Type_ := "const char*"; external.Name := "pathname" |}; {| external.Type_ := "dev_t"; external.Name := "dev" |}; {| external.Type_ := "unsigned long"; external.Name := "inode" |}; {| external.Type_ := "unsigned long"; external.Name := "vlen" |}; {| external.Type_ := "off_t"; external.Name := "pos" |}]);
  (MemProtAlertEventID, [{| external.Type_ := "u32"; external.Name := "alert" |}]);
  (CommitCredsEventID, [{| external.Type_ := "slim_cred_t"; external.Name := "old_cred" |}; {| external.Type_ := "slim_cred_t"; external.Name := "new_cred" |}; {| external.Type_ := "int"; external.Name := "syscall" |}]);
  (SwitchTaskNSEventID, [{| external.Type_ := "pid_t"; external.Name := "pid" |}; {| external.Type_ := "u32"; external.Name := "new_mnt" |}; {| external.Type_ := "u32"; external.Name := "new_pid" |}; {| external.Type_ := "u32"; external.Name := "new_uts" |}; {| external.Type_ := "u32"; external.Name := "new_ipc" |}; {| external.Type_ := "u32"; external.Name := "new_net" |}; {| external.Type_ := "u32"; external.Name := "new_cgroup" |}]);
  (MagicWriteEventID, [{| external.Type_ := "const char*"; external.Name := "pathname" |}; {| external.Type_ := "bytes"; external.Name := "bytes" |}; {| external.Type_ := "dev_t"; external.Name := "dev" |}; {| external.Type_ := "unsigned long"; external.Name := "inode" |}]);
  (CgroupAttachTaskEventID, [{| external.Type_ := "const char*"; external.Name := "cgroup_path" |}; {| external.Type_ := "const char*"; external.Name := "comm" |}; {| external.Type_ := "pid_t"; external.Name := "pid" |}]);
  (CgroupMkdirEventID, [{| external.Type_ := "u64"; external.Name := "cgroup_id" |}; {| external.Type_ := "const char*"; external.Name := "cgroup_path" |}]);
  (CgroupRmdirEventID, [{| external.Type_ := "u64"; external.Name := "cgroup_id" |}; {| external.Type_ := "const char*"; external.Name := "cgroup_path" |}]);
  (SecurityBprmCheckEventID, [{| external.Type_ := "const char*"; external.Name := "pathname" |}; {| external.Type_ := "dev_t"; external.Name := "dev" |}; {| external.Type_ := "unsigned long"; external.Name := "inode" |}]);
  (SecurityFileOpenEventID, [{| external.Type_ := "const char*"; external.Name := "pathname" |}; {| external.Type_ := "int"; external.Name := "flags" |}; {| external.Type_ := "dev_t"; external.Name := "dev" |}; {| external.Type_ := "unsigned long"; external.Name := "inode" |}; {| external.Type_ := "int"; external.Name := "syscall" |}]);
  (SecurityInodeUnlinkEventID, [{| external.Type_ := "const char*"; external.Name := "pathname" |}]);
  (SecuritySocketCreateEventID, [{| external.Type_ := "int"; external.Name := "family" |}; {| external.Type_ := "int"; external.Name := "type" |}; {| external.Type_ := "int"; external.Name := "protocol" |}; {| external.Type_ := "int"; external.Name := "kern" |}]);
  (SecuritySocketListenEventID, [{| external.Type_ := "int"; external.Name := "sockfd" |}; {| external.Type_ := "struct sockaddr*"; external.Name := "local_addr" |}; {| external.Type_ := "int"; external.Name := "backlog" |}]);
  (SecuritySocketConnectEventID, [{| external.Type_ := "int"; external.Name := "sockfd" |}; {| external.Type_ := "struct sockaddr*"; external.Name := "remote_addr" |}]);
  (SecuritySocketAcceptEventID, [{| external.Type_ := "int"; external.Name := "sockfd" |}; {| external.Type_ := "struct sockaddr*"; external.Name := "local_addr" |}]);
  (SecuritySocketBindEventID, [{| external.Type_ := "int"; external.Name := "sockfd" |}; {| external.Type_ := "struct sockaddr*"; external.Name := "local_addr" |}]);
  (SecuritySbMountEventID, [{| external.Type_ := "const char*"; external.Name := "dev_name" |}; {| external.Type_ := "const char*"; external.Name := "path" |}; {| external.Type_ := "const char*"; external.Name := "type" |}; {| external.Type_ := "unsigned long"; external.Name := "flags" |}]);
  (SecurityBPFEventID, [{| external.Type_ := "int"; external.Name := "cmd" |}]);
  (SecurityBPFMapEventID, [{| external.Type_ := "unsigned int"; external.Name := "map_id" |}; {| external.Type_ := "const char*"; external.Name := "map_name" |}]);
  (SecurityKernelReadFileEventID, [{| external.Type_ := "const char*"; external.Name := "pathname" |}; {| external.Type_ := "dev_t"; external.Name := "dev" |}; {| external.Type_ := "unsigned long"; external.Name := "inode" |}; {| external.Type_ := "int"; external.Name := "type" |}]);
  (SecurityPostReadFileEventID, [{| external.Type_ := "const char*"; external.Name := "pathname" |}; {| external.Type_ := "long"; external.Name := "size" |}; {| external.Type_ := "int"; external.Name := "type" |}]);
  (SecurityInodeMknodEventID, [{| external.Type_ := "const char*"; external.Name := "file_name" |}; {| external.Type_ := "umode_t"; external.Name := "mode" |}; {| external.Type_ := "dev_t"; external.Name := "dev" |}]);
  (InitNamespacesEventID, [{| external.Type_ := "u32"; external.Name := "cgroup" |}; {| external.Type_ := "u32"; external.Name := "ipc" |}; {| external.Type_ := "u32"; external.Name := "mnt" |}; {| external.Type_ := "u32"; external.Name := "net" |}; {| external.Type_ := "u32"; external.Name := "pid" |}; {| external.Type_ := "u32"; external.Name := "pid_for_children" |}; {| external.Type_ := "u32"; external.Name := "time" |}; {| external.Type_ := "u32"; external.Name := "time_for_children" |}; {| external.Type_ := "u32"; external.Name := "user" |}; {| external.Type_ := "u32"; external.Name := "uts" |}]);
  (SocketDupEventID, [{| external.Type_ := "int"; external.Name := "oldfd" |}; {| external.Type_ := "int"; external.Name := "newfd" |}; {| external.Type_ := "struct sockaddr*"; external.Name := "remote_addr" |}])
].

Definition EventsIDToEvent : gmap EventID EventConfig :=
  list_to_map EventsIDToEvent_rows.

Definition EventsIDToParams : gmap EventID (list external.ArgMeta) :=
  list_to_map EventsIDToParams_rows.

(** The name of an event, read as [EventsIDToEvent[id].Name]; an identifier
    that is no key of the registry has none. *)
Definition EventIDToName (id : EventID) : option string :=
  Name <$> EventsIDToEvent !! id.

(** Modelled from the spec: the lookup of an identifier by display name,
    whose table is built outside this package.  "Given a display name, it
    returns the associated identifier", and the lookup of an unknown name
    "signals a not found condition": the identifier of a name is the [ID] of
    the record of the registry that carries the name. *)
Definition EventNameToID (name : string) : option EventID :=
  p ← list_find (λ cfg, Name cfg = name) (map_to_list EventsIDToEvent).*2;
  ID p.2.

(** ** Library functions used by the init-namespaces event *)

Definition byte_of (c : ascii) : Z := Z.of_N (N_of_ascii c).

(** [[:digit:]] *)
Definition is_digit (c : ascii) : bool :=
  (48 <=? byte_of c) && (byte_of c <=? 57).

(** *** Package [regexp]

    The fragment of the syntax that the program uses: a concatenation of
    literal bytes and of starred character classes.  A match is the one a
    backtracking search finds first (leftmost, and a star takes as many bytes
    as the rest of the expression allows). *)
Inductive regexp_node : Type :=
  | Literal (c : ascii)
  | StarClass (cls : ascii → bool).

Definition Regexp : Type := list regexp_node.

(** A starred class followed by the rest of the expression, whose matcher is
    [rest]: the star first takes a byte of the class when there is one, and
    gives it back when the rest then fails. *)
Fixpoint regexp_star (cls : ascii → bool) (rest : string → option nat)
    (s : string) : option nat :=
  match s with
  | String a s' =>
      if cls a then
        match regexp_star cls rest s' with
        | Some n => Some (S n)
        | None => rest s
        end
      else rest s
  | EmptyString => rest s
  end.

(** Length of the match of [re] that starts at the head of [s], if any. *)
Fixpoint regexp_match_here (re : Regexp) (s : string) {struct re} : option nat :=
  match re with
  | [] => Some 0%nat
  | Literal c :: re' =>
      match s with
      | String a s' =>
          if Ascii.eqb a c then S <$> regexp_match_here re' s' else None
      | EmptyString => None
      end
  | StarClass cls :: re' => regexp_star cls (regexp_match_here re') s
  end.

(** [FindString] returns the text of the leftmost match, and the empty
    string when there is no match. *)
Fixpoint regexp_FindString (re : Regexp) (s : string) : string :=
  match regexp_match_here re s with
  | Some n => substring 0 n s
  | None =>
      match s with
      | String _ s' => regexp_FindString re s'
      | EmptyString => ""
      end
  end.

(** *** Package [strings] *)

Fixpoint strings_ContainsByte (cutset : string) (c : ascii) : bool :=
  match cutset with
  | String a cutset' => Ascii.eqb a c || strings_ContainsByte cutset' c
  | EmptyString => false
  end.

Fixpoint strings_TrimLeft (s cutset : string) : string :=
  match s with
  | String c s' =>
      if strings_ContainsByte cutset c then strings_TrimLeft s' cutset else s
  | EmptyString => ""
  end.

Fixpoint strings_TrimRight (s cutset : string) : string :=
  match s with
  | String c s' =>
      match strings_TrimRight s' cutset with
      | EmptyString => if strings_ContainsByte cutset c then "" else String c ""
      | r => String c r
      end
  | EmptyString => ""
  end.

(** [Trim] returns [s] with all leading and trailing bytes contained in
    [cutset] removed (the cutsets used here are ASCII). *)
Definition strings_Trim (s cutset : string) : string :=
  strings_TrimLeft (strings_TrimRight s cutset) cutset.

(** *** Package [strconv] *)

Inductive NumError : Set := ErrSyntax | ErrRange | ErrBase | ErrBitSize.

#[global] Instance NumError_eq_dec : EqDecision NumError.
Proof. solve_decision. Defined.

Definition maxUint64 : Z := 2 ^ 64 - 1.

(** [lower(c)] is [c | ('x' - 'X')]. *)
Definition lower (c : Z) : Z := Z.lor c 32.

(** The loop of [ParseUint] over the bytes of the string; [n] is the [uint64]
    read so far. *)
Fixpoint ParseUint_loop (base cutoff maxVal n : Z) (s : string) : Z * option NumError :=
  match s with
  | EmptyString => (n, None)
  | String ch s' =>
      let c := byte_of ch in
      let digit :=
        if (48 <=? c) && (c <=? 57) then Some (c - 48)
        else if (97 <=? lower c) && (lower c <=? 122) then Some (lower c - 97 + 10)
        else None in
      match digit with
      | None => (0, Some ErrSyntax)
      | Some d =>
          if base <=? d then (0, Some ErrSyntax)
          else if cutoff <=? n then (maxVal, Some ErrRange)
          else
            let n' := (n * base) mod 2 ^ 64 in
            let n1 := (n' + d) mod 2 ^ 64 in
            if (n1 <? n') || (maxVal <? n1) then (maxVal, Some ErrRange)
            else ParseUint_loop base cutoff maxVal n1 s'
      end
  end.

(** [ParseUint(s, base, bitSize)] for an explicit base between 2 and 36.
    Base 0, which reads the base from a prefix of [s], is not used by the
    program and is not distinguished from the other invalid bases here. *)
Definition strconv_ParseUint (s : string) (base bitSize : Z) : Z * option NumError :=
  if String.eqb s "" then (0, Some ErrSyntax)
  else if negb ((2 <=? base) && (base <=? 36)) then (0, Some ErrBase)
  else if (bitSize <? 0) || (64 <? bitSize) then (0, Some ErrBitSize)
  else
    let bitSize := if bitSize =? 0 then 64 else bitSize in
    let cutoff := maxUint64 / base + 1 in
    let maxVal := (Z.shiftl 1 bitSize mod 2 ^ 64 - 1) mod 2 ^ 64 in
    ParseUint_loop base cutoff maxVal 0 s.

(** The conversion [uint32(x)]. *)
Definition uint32 (x : Z) : Z := x mod 2 ^ 32.

(** *** The environment: clock and file system

    [ReadDir] is [ioutil.ReadDir], of whose result only the entry names are
    used: [None] is an error (the returned list is then nil), [Some names]
    the names of the entries.  [Readlink] is [os.Readlink]: [None] is an
    error (the returned string is then empty). *)
Record World : Type := {
  now_UnixNano : Z;
  ReadDir : string → option (list string);
  Readlink : string → option string
}.

(** [filepath.Join] of a clean directory path and an entry name. *)
Definition filepath_Join (dir name : string) : string := dir +:+ "/" +:+ name.

(** ** Invoked tracee-ebpf events from user mode *)

Definition InitProcNsDir : string := "/proc/1/ns".

(** [regexp.MustCompile(":[[[:digit:]]*]")]: the byte [:], then any number of
    bytes of the class that holds [[] and the digits, then the byte []]. *)
Definition namespaceValueReg : Regexp :=
  [ Literal ":"; StarClass (λ c, Ascii.eqb c "[" || is_digit c); Literal "]" ].

(** The body of the loop of [fetchInitNamespaces] after [Readlink]: the
    number recorded for a link whose text is [linkString]. *)
Definition namespaceNumberOf (linkString : string) : Z :=
  let trim := strings_Trim (regexp_FindString namespaceValueReg linkString) "[]:" in
  let namespaceNumber := (strconv_ParseUint trim 10 32).1 in
  uint32 namespaceNumber.

(** [fetchInitNamespaces] fetch the namespaces values from the /proc/1/ns
    directory.  The errors of [ReadDir], [Readlink] and [ParseUint] are
    dropped and the values returned along with them are used. *)
Definition fetchInitNamespaces (w : World) : gmap string Z :=
  let namespacesLinks := default [] (ReadDir w InitProcNsDir) in
  foldl
    (λ (initNamespacesMap : gmap string Z) (namespaceLink : string),
       let linkString :=
         default "" (Readlink w (filepath_Join InitProcNsDir namespaceLink)) in
       <[namespaceLink := namespaceNumberOf linkString]> initNamespacesMap)
    ∅ namespacesLinks.

(** The zero [external.Argument], as [make] allocates it. *)
Definition zero_Argument : external.Argument :=
  {| external.Meta := {| external.Name := ""; external.Type_ := "" |};
     external.Value := None |}.

(** The loop of [getInitNamespaceArguments] over the indexes of the slice
    [make([]external.Argument, len(params))]; [None] is the panic of an index
    out of range. *)
Definition fillInitNamespaceArguments
    (params : list external.ArgMeta) (initNamespaces : gmap string Z)
    : option (list external.Argument) :=
  let initNamespacesArgs := replicate (length params) zero_Argument in
  foldl
    (λ (acc : option (list external.Argument)) (i : nat),
       args ← acc;
       arg ← args !! i;
       meta ← params !! i;
       let arg := {| external.Meta := meta; external.Value := external.Value arg |} in
       let arg :=
         {| external.Meta := external.Meta arg;
            external.Value :=
              Some (default 0 (initNamespaces !! external.Name (external.Meta arg))) |} in
       Some (<[i := arg]> args))
    (Some initNamespacesArgs) (seq 0 (length initNamespacesArgs)).

(** [getInitNamespaceArguments] Fetch the namespaces of the init process and
    parse them into event arguments. *)
Definition getInitNamespaceArguments (w : World) : option (list external.Argument) :=
  let initNamespaces := fetchInitNamespaces w in
  fillInitNamespaceArguments
    (default [] (EventsIDToParams !! InitNamespacesEventID)) initNamespaces.

Inductive error : Set := errorString (s : string).

(** [CreateInitNamespacesEvent] collect the init process namespaces and
    create event from them.  [int] is 64 bits wide on the supported
    architectures, so the conversions to [int] keep the value. *)
Definition CreateInitNamespacesEvent (w : World) : option (external.Event * option error) :=
  initNamespacesArgs ← getInitNamespaceArguments w;
  let initNamespacesEvent :=
    {| external.Timestamp := now_UnixNano w;
       external.ProcessName := "tracee-ebpf";
       external.EventID := const_value user_event_block InitNamespacesEventID;
       external.EventName := default "" (Name <$> EventsIDToEvent !! InitNamespacesEventID);
       external.ArgsNum := Z.of_nat (length initNamespacesArgs);
       external.Args := initNamespacesArgs |} in
  Some (initNamespacesEvent, None).

(** The value of the argument called [name] of an event. *)
Definition argValue (ev : external.Event) (name : string) : option Z :=
  arg ← (list_find (λ a, external.Name (external.Meta a) = name) (external.Args ev));
  external.Value arg.2.

(** ** Notions used to state the properties *)

(** The twelve syscalls that the kernel does not implement; the registry lists
    them, the schema table does not. *)
Definition unimplemented_syscalls : list EventID :=
  [ CreateModuleEventID; GetKernelSymsEventID; QueryModuleEventID;
    NfsservctlEventID; GetpmsgEventID; PutpmsgEventID; AfsEventID;
    TuxcallEventID; SecurityEventID; EpollCtlOldEventID; EpollWaitOldEventID;
    VserverEventID ].

(** The argument that the loop of [getInitNamespaceArguments] stores for the
    schema entry [meta]. *)
Definition namespaceArgument (initNamespaces : gmap string Z)
    (meta : external.ArgMeta) : external.Argument :=
  {| external.Meta := meta;
     external.Value := Some (default 0 (initNamespaces !! external.Name meta)) |}.

(** The text that the loop of [fetchInitNamespaces] gets from [Readlink] for
    the directory entry [name]. *)
Definition linkStringOf (w : World) (name : string) : string :=
  default "" (Readlink w (filepath_Join InitProcNsDir name)).

(** The text handed to [ParseUint] for a link text. *)
Definition trimOf (linkString : string) : string :=
  strings_Trim (regexp_FindString namespaceValueReg linkString) "[]:".

(** The defects of a single directory entry: its link cannot be read, or the
    expression finds no match in the link text, or the text between the
    brackets is not a number ([ParseUint] reports a syntax error). *)
Inductive entry_defect (w : World) (name : string) : Prop :=
  | broken_link :
      Readlink w (filepath_Join InitProcNsDir name) = None →
      entry_defect w name
  | target_without_match (target : string) :
      Readlink w (filepath_Join InitProcNsDir name) = Some target →
      regexp_FindString namespaceValueReg target = "" →
      entry_defect w name
  | suffix_syntax_error (target : string) :
      Readlink w (filepath_Join InitProcNsDir name) = Some target →
      (strconv_ParseUint (trimOf target) 10 32).2 = Some ErrSyntax →
      entry_defect w name.

(** A numeric suffix that [ParseUint] refuses, for whatever reason. *)
Definition suffix_unparsable (w : World) (name : string) : Prop :=
  ∃ target : string,
    Readlink w (filepath_Join InitProcNsDir name) = Some target
    ∧ is_Some (strconv_ParseUint (trimOf target) 10 32).2.

Fixpoint all_digits (s : string) : bool :=
  match s with
  | String c s' => is_digit c && all_digits s'
  | EmptyString => true
  end.

Fixpoint no_colon (s : string) : bool :=
  match s with
  | String c s' => negb (Ascii.eqb c ":") && no_colon s'
  | EmptyString => true
  end.

(** The number that the decimal digits [s] denote after the digits that
    denote [n]. *)
Fixpoint decimal_from (n : Z) (s : string) : Z :=
  match s with
  | String c s' => decimal_from (n * 10 + (byte_of c - 48)) s'
  | EmptyString => n
  end.

Definition decimal (s : string) : Z := decimal_from 0 s.

(** A world whose clock reads [t] and whose directory /proc/1/ns holds the
    given entries, each a name with the result of reading its link. *)
Definition ns_world (t : Z) (entries : list (string * option string)) : World :=
  {| now_UnixNano := t;
     ReadDir := λ dir, if String.eqb dir InitProcNsDir then Some entries.*1 else None;
     Readlink := λ path,
       match list_find (λ e, filepath_Join InitProcNsDir e.1 = path) entries with
       | Some (_, e) => e.2
       | None => None
       end |}.

(** A world in which the directory cannot be read at all. *)
Definition unreadable_world (t : Z) : World :=
  {| now_UnixNano := t; ReadDir := λ _, None; Readlink := λ _, None |}.

(** The schema of the init-namespaces event. *)
Definition initNamespacesParams : list external.ArgMeta :=
  default [] (EventsIDToParams !! InitNamespacesEventID).

(** The directory of the example: [net] and [pid], with their links. *)
Definition example_world : World :=
  ns_world 0 [ ("net", Some "net:[4026531840]"); ("pid", Some "pid:[12]") ].

(** Two calls on the same directory, the clock reading 1 at the first and 2
    at the second. *)
Definition first_call_world : World := ns_world 1 [ ("pid", Some "pid:[12]") ].
Definition second_call_world : World := ns_world 2 [ ("pid", Some "pid:[12]") ].

(** A directory whose [pid] link carries a number one above the largest
    [uint32], next to a well-formed [net] link. *)
Definition overflow_world : World :=
  ns_world 0 [ ("net", Some "net:[4026531840]"); ("pid", Some "pid:[4294967296]") ].

(** A directory with one defect of each kind next to a well-formed [pid]
    link: [ipc] cannot be read, the text of [mnt] has no match, the brackets
    of [uts] hold no number. *)
Definition defects_world : World :=
  ns_world 0
    [ ("ipc", None); ("mnt", Some "mnt:4026531841"); ("pid", Some "pid:[12]");
      ("uts", Some "uts:[12[34]") ].

(** ** Reading the literals

    The rows of a literal are searched with a boolean comparison of the
    constants; [rows_lookup] is the first row with the given key. *)
Definition EventID_eqb (x y : EventID) : bool :=
  Pos.eqb (EventID_index x) (EventID_index y).

Fixpoint rows_lookup {V : Type} (id : EventID) (rows : list (EventID * V)) : option V :=
  match rows with
  | [] => None
  | (k, v) :: rows' => if EventID_eqb k id then Some v else rows_lookup id rows'
  end.

Definition memb {A : Type} (eqb : A → A → bool) (x : A) (l : list A) : bool :=
  existsb (eqb x) l.

Fixpoint nodupb {A : Type} (eqb : A → A → bool) (l : list A) : bool :=
  match l with
  | [] => true
  | x :: l' => negb (memb eqb x l') && nodupb eqb l'
  end.

(** ** Further constants of the package *)

(** The comparison slots of the inequality filters: [uidLess uint32 = iota]
    and the names after it. *)
Inductive inequalityName : Set :=
  | uidLess
  | uidGreater
  | pidLess
  | pidGreater
  | mntNsLess
  | mntNsGreater
  | pidNsLess
  | pidNsGreater.

#[global] Instance inequalityName_eq_dec : EqDecision inequalityName.
Proof. solve_decision. Defined.

Definition inequality_names : list inequalityName :=
  [ uidLess; uidGreater; pidLess; pidGreater; mntNsLess; mntNsGreater;
    pidNsLess; pidNsGreater ].

Definition inequality_block : list (inequalityName * Z) :=
  iota_block 0 inequality_names.

Definition inequalityIndex (c : inequalityName) : Z :=
  const_value inequality_block c.

(** [binType] is an enum that specifies the type of binary data sent in the
    file perf map: [sendVfsWrite binType = iota + 1] and the names after it;
    [type binType uint8]. *)
Inductive binTypeName : Set :=
  | sendVfsWrite
  | sendMprotect
  | sendKernelModule.

#[global] Instance binTypeName_eq_dec : EqDecision binTypeName.
Proof. solve_decision. Defined.

Definition binType_names : list binTypeName :=
  [ sendVfsWrite; sendMprotect; sendKernelModule ].

Definition binType_block : list (binTypeName * Z) := iota_block 1 binType_names.

Definition binType (b : binTypeName) : Z := const_value binType_block b.

(** [argType] is an enum that encodes the argument types that the BPF
    program may write to the shared buffer: [noneT argType = iota] and the
    names after it; [type argType uint8]. *)
Inductive argTypeName : Set :=
  | noneT
  | intT
  | uintT
  | longT
  | ulongT
  | offT
  | modeT
  | devT
  | sizeT
  | pointerT
  | strT
  | strArrT
  | sockAddrT
  | bytesT
  | u16T
  | credT
  | intArr2T
  | argsArrT.

#[global] Instance argTypeName_eq_dec : EqDecision argTypeName.
Proof. solve_decision. Defined.

Definition argType_names : list argTypeName :=
  [ noneT; intT; uintT; longT; ulongT; offT; modeT; devT; sizeT; pointerT;
    strT; strArrT; sockAddrT; bytesT; u16T; credT; intArr2T; argsArrT ].

Definition argType_block : list (argTypeName * Z) := iota_block 0 argType_names.

Definition argType (t : argTypeName) : Z := const_value argType_block t.

(** ** Further notions used to state the properties *)

(** Position of a compatibility number in the declaration of [Sys32],
    counted from 1; it serves to compare two of them. *)
Definition Sys32_index (c : Sys32) : positive :=
  match c with
  | sys32read => 1 | sys32write => 2 | sys32open => 3 | sys32close => 4
  | sys32stat => 5 | sys32fstat => 6 | sys32lstat => 7 | sys32poll => 8
  | sys32lseek => 9 | sys32mmap => 10 | sys32mprotect => 11
  | sys32munmap => 12 | sys32brk => 13 | sys32rt_sigaction => 14
  | sys32rt_sigprocmask => 15 | sys32rt_sigreturn => 16 | sys32ioctl => 17
  | sys32pread64 => 18 | sys32pwrite64 => 19 | sys32readv => 20
  | sys32writev => 21 | sys32access => 22 | sys32pipe => 23
  | sys32select => 24 | sys32sched_yield => 25 | sys32mremap => 26
  | sys32msync => 27 | sys32mincore => 28 | sys32madvise => 29
  | sys32shmget => 30 | sys32shmat => 31 | sys32shmctl => 32 | sys32dup => 33
  | sys32dup2 => 34 | sys32pause => 35 | sys32nanosleep => 36
  | sys32getitimer => 37 | sys32alarm => 38 | sys32setitimer => 39
  | sys32getpid => 40 | sys32sendfile => 41 | sys32socket => 42
  | sys32connect => 43 | sys32undefined => 44 | sys32sendto => 45
  | sys32recvfrom => 46 | sys32sendmsg => 47 | sys32recvmsg => 48
  | sys32shutdown => 49 | sys32bind => 50 | sys32listen => 51
  | sys32getsockname => 52 | sys32getpeername => 53 | sys32socketpair => 54
  | sys32setsockopt => 55 | sys32getsockopt => 56 | sys32clone => 57
  | sys32fork => 58 | sys32vfork => 59 | sys32execve => 60 | sys32exit => 61
  | sys32wait4 => 62 | sys32kill => 63 | sys32uname => 64 | sys32semget => 65
  | sys32semctl => 66 | sys32shmdt => 67 | sys32msgget => 68
  | sys32msgsnd => 69 | sys32msgrcv => 70 | sys32msgctl => 71
  | sys32fcntl => 72 | sys32flock => 73 | sys32fsync => 74
  | sys32fdatasync => 75 | sys32truncate => 76 | sys32ftruncate => 77
  | sys32getdents => 78 | sys32getcwd => 79 | sys32chdir => 80
  | sys32fchdir => 81 | sys32rename => 82 | sys32mkdir => 83
  | sys32rmdir => 84 | sys32creat => 85 | sys32link => 86 | sys32unlink => 87
  | sys32symlink => 88 | sys32readlink => 89 | sys32chmod => 90
  | sys32fchmod => 91 | sys32chown => 92 | sys32fchown => 93
  | sys32lchown => 94 | sys32umask => 95 | sys32gettimeofday => 96
  | sys32getrlimit => 97 | sys32getrusage => 98 | sys32sysinfo => 99
  | sys32times => 100 | sys32ptrace => 101 | sys32getuid => 102
  | sys32syslog => 103 | sys32getgid => 104 | sys32setuid => 105
  | sys32setgid => 106 | sys32geteuid => 107 | sys32getegid => 108
  | sys32setpgid => 109 | sys32getppid => 110 | sys32getpgrp => 111
  | sys32setsid => 112 | sys32setreuid => 113 | sys32setregid => 114
  | sys32getgroups => 115 | sys32setgroups => 116 | sys32setresuid => 117
  | sys32getresuid => 118 | sys32setresgid => 119 | sys32getresgid => 120
  | sys32getpgid => 121 | sys32setfsuid => 122 | sys32setfsgid => 123
  | sys32getsid => 124 | sys32capget => 125 | sys32capset => 126
  | sys32rt_sigpending => 127 | sys32rt_sigtimedwait => 128
  | sys32rt_sigqueueinfo => 129 | sys32rt_sigsuspend => 130
  | sys32sigaltstack => 131 | sys32utime => 132 | sys32mknod => 133
  | sys32uselib => 134 | sys32personality => 135 | sys32ustat => 136
  | sys32statfs => 137 | sys32fstatfs => 138 | sys32sysfs => 139
  | sys32getpriority => 140 | sys32setpriority => 141
  | sys32sched_setparam => 142 | sys32sched_getparam => 143
  | sys32sched_setscheduler => 144 | sys32sched_getscheduler => 145
  | sys32sched_get_priority_max => 146 | sys32sched_get_priority_min => 147
  | sys32sched_rr_get_interval => 148 | sys32mlock => 149
  | sys32munlock => 150 | sys32mlockall => 151 | sys32munlockall => 152
  | sys32vhangup => 153 | sys32modify_ldt => 154 | sys32pivot_root => 155
  | sys32prctl => 156 | sys32arch_prctl => 157 | sys32adjtimex => 158
  | sys32setrlimit => 159 | sys32chroot => 160 | sys32sync => 161
  | sys32acct => 162 | sys32settimeofday => 163 | sys32mount => 164
  | sys32umount => 165 | sys32swapon => 166 | sys32swapoff => 167
  | sys32reboot => 168 | sys32sethostname => 169 | sys32setdomainname => 170
  | sys32iopl => 171 | sys32ioperm => 172 | sys32create_module => 173
  | sys32init_module => 174 | sys32delete_module => 175
  | sys32get_kernel_syms => 176 | sys32query_module => 177
  | sys32quotactl => 178 | sys32nfsservctl => 179 | sys32getpmsg => 180
  | sys32putpmsg => 181 | sys32gettid => 182 | sys32readahead => 183
  | sys32setxattr => 184 | sys32lsetxattr => 185 | sys32fsetxattr => 186
  | sys32getxattr => 187 | sys32lgetxattr => 188 | sys32fgetxattr => 189
  | sys32listxattr => 190 | sys32llistxattr => 191 | sys32flistxattr => 192
  | sys32removexattr => 193 | sys32lremovexattr => 194
  | sys32fremovexattr => 195 | sys32tkill => 196 | sys32time => 197
  | sys32futex => 198 | sys32sched_setaffinity => 199
  | sys32sched_getaffinity => 200 | sys32set_thread_area => 201
  | sys32io_setup => 202 | sys32io_destroy => 203 | sys32io_getevents => 204
  | sys32io_submit => 205 | sys32io_cancel => 206
  | sys32get_thread_area => 207 | sys32lookup_dcookie => 208
  | sys32epoll_create => 209 | sys32remap_file_pages => 210
  | sys32getdents64 => 211 | sys32set_tid_address => 212
  | sys32restart_syscall => 213 | sys32semtimedop_time64 => 214
  | sys32fadvise64 => 215 | sys32timer_create => 216
  | sys32timer_settime => 217 | sys32timer_gettime => 218
  | sys32timer_getoverrun => 219 | sys32timer_delete => 220
  | sys32clock_settime => 221 | sys32clock_gettime => 222
  | sys32clock_getres => 223 | sys32clock_nanosleep => 224
  | sys32exit_group => 225 | sys32epoll_wait => 226 | sys32epoll_ctl => 227
  | sys32tgkill => 228 | sys32utimes => 229 | sys32vserver => 230
  | sys32mbind => 231 | sys32set_mempolicy => 232 | sys32get_mempolicy => 233
  | sys32mq_open => 234 | sys32mq_unlink => 235 | sys32mq_timedsend => 236
  | sys32mq_timedreceive => 237 | sys32mq_notify => 238
  | sys32mq_getsetattr => 239 | sys32kexec_load => 240 | sys32waitid => 241
  | sys32add_key => 242 | sys32request_key => 243 | sys32keyctl => 244
  | sys32ioprio_set => 245 | sys32ioprio_get => 246 | sys32inotify_init => 247
  | sys32inotify_add_watch => 248 | sys32inotify_rm_watch => 249
  | sys32migrate_pages => 250 | sys32openat => 251 | sys32mkdirat => 252
  | sys32mknodat => 253 | sys32fchownat => 254 | sys32futimesat => 255
  | sys32fstatat64 => 256 | sys32unlinkat => 257 | sys32renameat => 258
  | sys32linkat => 259 | sys32symlinkat => 260 | sys32readlinkat => 261
  | sys32fchmodat => 262 | sys32faccessat => 263 | sys32pselect6 => 264
  | sys32ppoll => 265 | sys32unshare => 266 | sys32set_robust_list => 267
  | sys32get_robust_list => 268 | sys32splice => 269 | sys32tee => 270
  | sys32sync_file_range => 271 | sys32vmsplice => 272
  | sys32move_pages => 273 | sys32utimensat => 274 | sys32epoll_pwait => 275
  | sys32signalfd => 276 | sys32timerfd_create => 277 | sys32eventfd => 278
  | sys32fallocate => 279 | sys32timerfd_settime => 280
  | sys32timerfd_gettime => 281 | sys32accept4 => 282 | sys32signalfd4 => 283
  | sys32eventfd2 => 284 | sys32epoll_create1 => 285 | sys32dup3 => 286
  | sys32pipe2 => 287 | sys32inotify_init1 => 288 | sys32preadv => 289
  | sys32pwritev => 290 | sys32rt_tgsigqueueinfo => 291
  | sys32perf_event_open => 292 | sys32recvmmsg => 293
  | sys32fanotify_init => 294 | sys32fanotify_mark => 295
  | sys32prlimit64 => 296 | sys32name_to_handle_at => 297
  | sys32open_by_handle_at => 298 | sys32clock_adjtime => 299
  | sys32syncfs => 300 | sys32sendmmsg => 301 | sys32setns => 302
  | sys32getcpu => 303 | sys32process_vm_readv => 304
  | sys32process_vm_writev => 305 | sys32kcmp => 306
  | sys32finit_module => 307 | sys32sched_setattr => 308
  | sys32sched_getattr => 309 | sys32renameat2 => 310 | sys32seccomp => 311
  | sys32getrandom => 312 | sys32memfd_create => 313 | sys32bpf => 314
  | sys32execveat => 315 | sys32userfaultfd => 316 | sys32membarrier => 317
  | sys32mlock2 => 318 | sys32copy_file_range => 319 | sys32preadv2 => 320
  | sys32pwritev2 => 321 | sys32pkey_mprotect => 322 | sys32pkey_alloc => 323
  | sys32pkey_free => 324 | sys32statx => 325 | sys32io_pgetevents => 326
  | sys32rseq => 327 | sys32pidfd_send_signal => 328
  | sys32io_uring_setup => 329 | sys32io_uring_enter => 330
  | sys32io_uring_register => 331 | sys32open_tree => 332
  | sys32move_mount => 333 | sys32fsopen => 334 | sys32fsconfig => 335
  | sys32fsmount => 336 | sys32fspick => 337 | sys32pidfd_open => 338
  | sys32clone3 => 339 | sys32close_range => 340 | sys32openat2 => 341
  | sys32pidfd_getfd => 342 | sys32faccessat2 => 343
  | sys32process_madvise => 344 | sys32epoll_pwait2 => 345
  end%positive.

(** The sets that have sub-sets, whose names start with the name of the set
    and an underscore. *)
Definition set_domains : list string :=
  [ "fs"; "proc"; "net"; "ipc"; "time"; "system" ].

(** The events of the registry that no probe feeds. *)
Definition events_without_probe : list EventID :=
  [ MagicWriteEventID; InitNamespacesEventID; SocketDupEventID ].

(** The value that the event carries for a namespace kind: the number of the
    link of the entry when the directory lists the kind, and 0 otherwise. *)
Definition namespaceValueIn (w : World) (name : string) : Z :=
  if decide (name ∈ default [] (ReadDir w InitProcNsDir))
  then namespaceNumberOf (linkStringOf w name)
  else 0.

(** A directory with entries that are no namespace kinds, and the same
    directory without them. *)
Definition crowded_world : World :=
  ns_world 0
    [ ("lost+found", None); ("net", Some "net:[4026531840]");
      ("pid", Some "pid:[12]"); ("zz", Some "zz:[7]") ].

(** A directory whose [pid] link has text after the closing bracket. *)
Definition trailing_world : World :=
  ns_world 0 [ ("pid", Some "pid:[0012] (deleted)") ].

(** * Properties of the enumerations *)

(** Closes a decidable goal over small data by evaluation. *)
Ltac by_evaluation := apply (bool_decide_unpack _); vm_compute; exact I.

(** Closes an equation between closed terms by evaluation. *)
Ltac by_computation := vm_compute; reflexivity.

(** C8: the scalar configuration slots [configDetectOrigSyscall] ...
    [configCgroupV1] take, in declaration order, the values 1, 2, ..., 20:
    the enumeration is dense and contiguous, its least value is 1, no slot
    has the value 0 and no two slots share a value. *)
Theorem bpfConfig_dense_from_one :
  bpfConfig <$> bpfConfig_names = seqZ 1 20
  ∧ (∀ c : bpfConfigName, c ∈ bpfConfig_names)
  ∧ bpfConfig configDetectOrigSyscall = 1
  ∧ (∀ c : bpfConfigName, 1 ≤ bpfConfig c ≤ 20)
  ∧ (∀ c : bpfConfigName, bpfConfig c ≠ 0)
  ∧ (∀ c1 c2 : bpfConfigName, bpfConfig c1 = bpfConfig c2 → c1 = c2).
Proof.
  split; [reflexivity|].
  split; [intros []; by_evaluation|].
  split; [reflexivity|].
  split; [intros []; vm_compute; split; discriminate|].
  split; [intros []; discriminate|].
  intros [] []; vm_compute; first [reflexivity | discriminate].
Qed.

Lemma bpfConfig_dense_from_one_witness :
  bpfConfig configExecEnv = bpfConfig configExecEnv
  ∧ configExecEnv = configExecEnv.
Proof.
  split; [reflexivity|].
  apply (proj2 (proj2 (proj2 (proj2 (proj2 bpfConfig_dense_from_one))))).
  reflexivity.
Defined.

(** C9: the tail-call indexes [tailVfsWrite], [tailVfsWritev], [tailSendBin],
    [tailSendBinTP] take, in declaration order, the values 0, 1, 2, 3: the
    first declared index is 0, the values are dense and contiguous and no two
    names share a value. *)
Theorem tailIndex_dense_from_zero :
  tailIndex <$> tail_names = seqZ 0 4
  ∧ (∀ t : tailName, t ∈ tail_names)
  ∧ tailIndex tailVfsWrite = 0
  ∧ (∀ t : tailName, 0 ≤ tailIndex t ≤ 3)
  ∧ (∀ t1 t2 : tailName, tailIndex t1 = tailIndex t2 → t1 = t2).
Proof.
  split; [reflexivity|].
  split; [intros []; by_evaluation|].
  split; [reflexivity|].
  split; [intros []; vm_compute; split; discriminate|].
  intros [] []; vm_compute; first [reflexivity | discriminate].
Qed.

Lemma tailIndex_dense_from_zero_witness :
  tailIndex tailSendBin = tailIndex tailSendBin ∧ tailSendBin = tailSendBin.
Proof.
  split; [reflexivity|].
  apply (proj2 (proj2 (proj2 (proj2 tailIndex_dense_from_zero)))).
  reflexivity.
Defined.

(** * Properties of the registry *)

(** ** From the boolean checks to the maps *)

Lemma EventID_index_inj (x y : EventID) :
  EventID_index x = EventID_index y → x = y.
Proof.
  intros E.
  assert (R : ∀ e, EventID_of_index (EventID_index e) = Some e)
    by (intros []; reflexivity).
  apply (inj Some). rewrite <- (R x), <- (R y), E. reflexivity.
Qed.

Lemma EventID_eqb_eq (x y : EventID) : EventID_eqb x y = true ↔ x = y.
Proof.
  unfold EventID_eqb. rewrite Pos.eqb_eq. split.
  - apply EventID_index_inj.
  - intros ->. reflexivity.
Qed.

Section BooleanChecks.

Context {A : Type} (eqb : A → A → bool).
Hypothesis eqb_eq : ∀ a b : A, eqb a b = true ↔ a = b.

Lemma memb_elem_of (x : A) (l : list A) : memb eqb x l = true ↔ x ∈ l.
Proof.
  unfold memb. induction l as [|a l IH]; simpl.
  - split; [discriminate | intros H; inversion H].
  - rewrite orb_true_iff, IH, eqb_eq, elem_of_cons. reflexivity.
Qed.

Lemma nodupb_NoDup (l : list A) : nodupb eqb l = true → NoDup l.
Proof.
  induction l as [|a l IH]; simpl; intros H.
  - constructor.
  - apply andb_prop in H as [Ha Hl]. apply negb_true_iff in Ha.
    constructor; [|exact (IH Hl)].
    intros Hin. apply memb_elem_of in Hin. congruence.
Qed.

End BooleanChecks.

Lemma forallb_elem_of {A : Type} (f : A → bool) (l : list A) (x : A) :
  forallb f l = true → x ∈ l → f x = true.
Proof.
  intros H Hin. apply list_elem_of_In in Hin.
  exact (proj1 (forallb_forall f l) H x Hin).
Qed.

(** A map literal holds, for each key, the first row of that key. *)
Lemma list_to_map_rows_lookup {V : Type} (rows : list (EventID * V)) (id : EventID) :
  (list_to_map rows : gmap EventID V) !! id = rows_lookup id rows.
Proof.
  induction rows as [|[k v] rows IH]; simpl.
  - apply lookup_empty.
  - destruct (EventID_eqb k id) eqn:E.
    + apply EventID_eqb_eq in E as ->. apply lookup_insert_eq.
    + rewrite lookup_insert_ne; [exact IH|].
      intros ->. rewrite (proj2 (EventID_eqb_eq id id) eq_refl) in E.
      discriminate E.
Qed.

Lemma rows_lookup_elem_of {V : Type} (rows : list (EventID * V)) (id : EventID) (v : V) :
  rows_lookup id rows = Some v → (id, v) ∈ rows.
Proof.
  induction rows as [|[k w] rows IH]; simpl; [discriminate|].
  destruct (EventID_eqb k id) eqn:E.
  - apply EventID_eqb_eq in E as ->. intros [= ->]. left.
  - intros H. right. exact (IH H).
Qed.

Lemma rows_lookup_is_Some {V : Type} (rows : list (EventID * V)) (id : EventID) :
  is_Some (rows_lookup id rows) ↔ memb EventID_eqb id rows.*1 = true.
Proof.
  unfold memb. induction rows as [|[k w] rows IH]; simpl.
  - split; [intros [? H]; discriminate H | discriminate].
  - destruct (EventID_eqb k id) eqn:E.
    + apply EventID_eqb_eq in E as ->.
      rewrite (proj2 (EventID_eqb_eq id id) eq_refl). simpl.
      split; [reflexivity | eauto].
    + replace (EventID_eqb id k) with false; [exact IH|].
      symmetry. apply not_true_is_false. intros E'.
      apply EventID_eqb_eq in E' as ->.
      rewrite (proj2 (EventID_eqb_eq k k) eq_refl) in E. discriminate E.
Qed.

Lemma EventsIDToEvent_lookup (id : EventID) :
  EventsIDToEvent !! id = rows_lookup id EventsIDToEvent_rows.
Proof. apply list_to_map_rows_lookup. Qed.

Lemma EventsIDToParams_lookup (id : EventID) :
  EventsIDToParams !! id = rows_lookup id EventsIDToParams_rows.
Proof. apply list_to_map_rows_lookup. Qed.

Lemma EventsIDToEvent_row (id : EventID) (cfg : EventConfig) :
  EventsIDToEvent !! id = Some cfg → (id, cfg) ∈ EventsIDToEvent_rows.
Proof. rewrite EventsIDToEvent_lookup. apply rows_lookup_elem_of. Qed.

(** ** Facts read off the two literals by evaluation *)

Lemma EventsIDToEvent_keys_NoDup : NoDup EventsIDToEvent_rows.*1.
Proof.
  apply (nodupb_NoDup EventID_eqb); [exact EventID_eqb_eq|].
  by_computation.
Qed.

Lemma EventsIDToEvent_names_NoDup : NoDup (Name <$> EventsIDToEvent_rows.*2).
Proof.
  apply (nodupb_NoDup String.eqb); [exact String.eqb_eq|].
  by_computation.
Qed.

Lemma EventsIDToEvent_ID_is_key (id : EventID) (cfg : EventConfig) :
  EventsIDToEvent !! id = Some cfg → ID cfg = Some id.
Proof.
  intros H. apply EventsIDToEvent_row in H.
  assert (Hall : forallb
            (λ row : EventID * EventConfig,
               match ID row.2 with
               | Some i => EventID_eqb i row.1
               | None => false
               end) EventsIDToEvent_rows = true)
    by by_computation.
  pose proof (forallb_elem_of _ _ _ Hall H) as Hrow. cbn [fst snd] in Hrow.
  destruct (ID cfg) as [i|]; [|discriminate Hrow].
  apply EventID_eqb_eq in Hrow as ->. reflexivity.
Qed.

Lemma EventsIDToEvent_ID32Bit_given (id : EventID) (cfg : EventConfig) :
  EventsIDToEvent !! id = Some cfg → is_Some (ID32Bit cfg).
Proof.
  intros H. apply EventsIDToEvent_row in H.
  assert (Hall : forallb
            (λ row : EventID * EventConfig,
               match ID32Bit row.2 with Some _ => true | None => false end)
            EventsIDToEvent_rows = true)
    by by_computation.
  pose proof (forallb_elem_of _ _ _ Hall H) as Hrow. cbn [snd] in Hrow.
  destruct (ID32Bit cfg) as [c|]; [eauto | discriminate Hrow].
Qed.

(** Every key of the registry is an unimplemented syscall or a key of the
    schema table; the unimplemented syscalls are keys of the registry and no
    keys of the schema table. *)
Lemma EventsIDToParams_coverage (id : EventID) :
  is_Some (EventsIDToEvent !! id) →
  id ∈ unimplemented_syscalls ∨ is_Some (EventsIDToParams !! id).
Proof.
  intros [cfg H]. apply EventsIDToEvent_row in H.
  assert (Hall : forallb
            (λ row : EventID * EventConfig,
               memb EventID_eqb row.1 unimplemented_syscalls
               || memb EventID_eqb row.1 EventsIDToParams_rows.*1)
            EventsIDToEvent_rows = true)
    by by_computation.
  pose proof (forallb_elem_of _ _ _ Hall H) as Hrow. cbn [fst] in Hrow.
  apply orb_prop in Hrow as [Hrow | Hrow].
  - left. apply (memb_elem_of EventID_eqb); [exact EventID_eqb_eq | exact Hrow].
  - right. rewrite EventsIDToParams_lookup. apply rows_lookup_is_Some. exact Hrow.
Qed.

Lemma unimplemented_syscalls_rows (id : EventID) :
  id ∈ unimplemented_syscalls →
  is_Some (EventsIDToEvent !! id) ∧ EventsIDToParams !! id = None.
Proof.
  intros Hin.
  assert (Hall : forallb
            (λ k : EventID,
               memb EventID_eqb k EventsIDToEvent_rows.*1
               && negb (memb EventID_eqb k EventsIDToParams_rows.*1))
            unimplemented_syscalls = true)
    by by_computation.
  pose proof (forallb_elem_of _ _ _ Hall Hin) as Hrow.
  apply andb_prop in Hrow as [Hev Hpa]. apply negb_true_iff in Hpa.
  split.
  - rewrite EventsIDToEvent_lookup. apply rows_lookup_is_Some. exact Hev.
  - rewrite EventsIDToParams_lookup. apply eq_None_not_Some.
    rewrite rows_lookup_is_Some, Hpa. discriminate.
Qed.

Lemma NoDup_fmap_eq {A B : Type} (f : A → B) (l : list A) (x y : A) :
  NoDup (f <$> l) → x ∈ l → y ∈ l → f x = f y → x = y.
Proof.
  induction l as [|a l IH]; intros Hnd Hx Hy Hf.
  - inversion Hx.
  - rewrite fmap_cons in Hnd. apply NoDup_cons in Hnd as [Hnotin Hnd].
    apply elem_of_cons in Hx as [-> | Hx]; apply elem_of_cons in Hy as [-> | Hy].
    + reflexivity.
    + exfalso. apply Hnotin. rewrite Hf. apply list_elem_of_fmap. eauto.
    + exfalso. apply Hnotin. rewrite <- Hf. apply list_elem_of_fmap. eauto.
    + apply IH; assumption.
Qed.

(** No two records of the registry share a [Name]. *)
Lemma EventsIDToEvent_name_inj id1 id2 cfg1 cfg2 :
  EventsIDToEvent !! id1 = Some cfg1 →
  EventsIDToEvent !! id2 = Some cfg2 →
  Name cfg1 = Name cfg2 → id1 = id2 ∧ cfg1 = cfg2.
Proof.
  intros H1 H2 Hn.
  apply EventsIDToEvent_row in H1, H2.
  assert (E : (id1, cfg1) = (id2, cfg2)).
  { apply (NoDup_fmap_eq (λ p, Name p.2) EventsIDToEvent_rows); try assumption.
    pose proof EventsIDToEvent_names_NoDup as Hnd.
    rewrite <- list_fmap_compose in Hnd. exact Hnd. }
  inversion E. auto.
Qed.

(** ** Identifiers, names, schema entries and probes *)

(** C2, as stated, fails: [CreateModuleEventID] is a key of the registry and
    the schema table has no entry for it. *)
Lemma schema_entry_missing_for_create_module :
  is_Some (EventsIDToEvent !! CreateModuleEventID)
  ∧ syscall_band CreateModuleEventID = true
  ∧ EventsIDToParams !! CreateModuleEventID = None.
Proof.
  split; [|split].
  - rewrite EventsIDToEvent_lookup. apply rows_lookup_is_Some.
    by_computation.
  - by_computation.
  - rewrite EventsIDToParams_lookup. by_computation.
Qed.

(** C2, amended: every identifier of the registry other than the twelve
    unimplemented syscalls has an entry in the schema table; the twelve are
    keys of the registry without an entry, so that indexing the table with
    them yields the nil list; and every record of the syscall band gives its
    compatibility id explicitly. *)
Theorem schema_entries_of_registry :
  (∀ id : EventID,
     is_Some (EventsIDToEvent !! id) → id ∉ unimplemented_syscalls →
     is_Some (EventsIDToParams !! id))
  ∧ (∀ id : EventID,
       id ∈ unimplemented_syscalls →
       is_Some (EventsIDToEvent !! id) ∧ EventsIDToParams !! id = None
       ∧ default [] (EventsIDToParams !! id) = [])
  ∧ (∀ (id : EventID) (cfg : EventConfig),
       EventsIDToEvent !! id = Some cfg → syscall_band id = true →
       is_Some (ID32Bit cfg)).
Proof.
  split; [|split].
  - intros id Hev Hnot.
    destruct (EventsIDToParams_coverage id Hev); [contradiction|assumption].
  - intros id Hin.
    destruct (unimplemented_syscalls_rows id Hin) as [Hev Hpa].
    split; [exact Hev|]. split; [exact Hpa|]. rewrite Hpa. reflexivity.
  - intros id cfg Hcfg _. exact (EventsIDToEvent_ID32Bit_given id cfg Hcfg).
Qed.

Lemma schema_entries_of_registry_witness :
  is_Some (EventsIDToParams !! ReadEventID)
  ∧ EventsIDToParams !! AfsEventID = None
  ∧ (∃ cfg, EventsIDToEvent !! ReadEventID = Some cfg ∧ is_Some (ID32Bit cfg)).
Proof.
  destruct schema_entries_of_registry as (H1 & H2 & H3).
  split; [|split].
  - apply H1.
    + rewrite EventsIDToEvent_lookup. apply rows_lookup_is_Some.
      by_computation.
    + by_evaluation.
  - apply (H2 AfsEventID). by_evaluation.
  - eexists. split; [rewrite EventsIDToEvent_lookup; by_computation|].
    eapply (H3 ReadEventID);
      [rewrite EventsIDToEvent_lookup; by_computation | reflexivity].
Defined.

(** C3: the registry literal lists no identifier twice, the values of the
    identifiers declared in this file are pairwise distinct, no two records
    share a [Name], the [ID] of every record is its key, and the lookups by
    identifier and by name are inverse to each other. *)
Theorem registry_ids_and_names_inverse :
  NoDup EventsIDToEvent_rows.*1
  ∧ NoDup (common_event_block ++ user_event_block).*2
  ∧ (∀ (id1 id2 : EventID) (cfg1 cfg2 : EventConfig),
       EventsIDToEvent !! id1 = Some cfg1 → EventsIDToEvent !! id2 = Some cfg2 →
       Name cfg1 = Name cfg2 → id1 = id2)
  ∧ (∀ (id : EventID) (cfg : EventConfig),
       EventsIDToEvent !! id = Some cfg → ID cfg = Some id)
  ∧ (∀ (id : EventID) (name : string),
       EventIDToName id = Some name ↔ EventNameToID name = Some id).
Proof.
  split; [exact EventsIDToEvent_keys_NoDup|].
  split; [apply (nodupb_NoDup Z.eqb); [exact Z.eqb_eq | by_computation]|].
  split; [intros id1 id2 cfg1 cfg2 H1 H2 Hn;
          exact (proj1 (EventsIDToEvent_name_inj _ _ _ _ H1 H2 Hn))|].
  split; [exact EventsIDToEvent_ID_is_key|].
  intros id name. unfold EventIDToName, EventNameToID. split.
  - intros H. apply fmap_Some in H as (cfg & Hcfg & ->).
    assert (Hin : cfg ∈ (map_to_list EventsIDToEvent).*2).
    { apply list_elem_of_fmap. exists (id, cfg). split; [reflexivity|].
      apply elem_of_map_to_list. exact Hcfg. }
    destruct (list_find_elem_of (λ c, Name c = Name cfg) _ cfg Hin eq_refl)
      as [[i cfg'] Hfind].
    rewrite Hfind. cbn [mbind option_bind snd].
    apply list_find_Some in Hfind as (Hi & Hname & _).
    apply list_elem_of_lookup_2 in Hi.
    apply list_elem_of_fmap in Hi as ([id' c] & -> & Hc). cbn [snd] in *.
    apply elem_of_map_to_list in Hc.
    destruct (EventsIDToEvent_name_inj _ _ _ _ Hc Hcfg Hname) as [_ ->].
    exact (EventsIDToEvent_ID_is_key id cfg Hcfg).
  - intros H. apply bind_Some in H as ([i cfg'] & Hfind & HID). simpl in HID.
    apply list_find_Some in Hfind as (Hi & Hname & _).
    apply list_elem_of_lookup_2 in Hi.
    apply list_elem_of_fmap in Hi as ([id' c] & -> & Hc). cbn [snd] in *.
    apply elem_of_map_to_list in Hc.
    pose proof (EventsIDToEvent_ID_is_key id' c Hc) as HID'.
    rewrite HID in HID'. injection HID' as ->.
    rewrite Hc. cbn [fmap option_fmap option_map]. rewrite Hname. reflexivity.
Qed.

Lemma registry_ids_and_names_inverse_witness :
  EventIDToName InitNamespacesEventID = Some "init_namespaces"
  ∧ EventNameToID "init_namespaces" = Some InitNamespacesEventID.
Proof.
  assert (H : EventIDToName InitNamespacesEventID = Some "init_namespaces")
    by (unfold EventIDToName; rewrite EventsIDToEvent_lookup;
        by_computation).
  split; [exact H|].
  apply (proj2 (proj2 (proj2 (proj2 registry_ids_and_names_inverse)))).
  exact H.
Defined.

(** C4: every record of the registry whose [EssentialEvent] flag is set has
    at least one probe. *)
Theorem essential_event_has_probes (id : EventID) (cfg : EventConfig) :
  EventsIDToEvent !! id = Some cfg → EssentialEvent cfg = true →
  Probes cfg ≠ [].
Proof.
  intros H. apply EventsIDToEvent_row in H.
  assert (Hall : forallb
            (λ row : EventID * EventConfig,
               implb (EssentialEvent row.2)
                 match Probes row.2 with [] => false | _ :: _ => true end)
            EventsIDToEvent_rows = true)
    by by_computation.
  pose proof (forallb_elem_of _ _ _ Hall H) as Hrow. cbn [snd] in Hrow.
  intros He Hp. rewrite He, Hp in Hrow. discriminate Hrow.
Qed.

Lemma essential_event_has_probes_witness :
  ∃ cfg : EventConfig,
    EventsIDToEvent !! SysEnterEventID = Some cfg
    ∧ EssentialEvent cfg = true ∧ Probes cfg ≠ [].
Proof.
  eexists.
  split; [rewrite EventsIDToEvent_lookup; by_computation|].
  split; [reflexivity|].
  eapply (essential_event_has_probes SysEnterEventID);
    [rewrite EventsIDToEvent_lookup; by_computation | reflexivity].
Defined.

(** * Properties of the init-namespaces event *)

(** The loop of [getInitNamespaceArguments] never indexes out of range and
    fills the slice with one argument per schema entry, in schema order. *)
Lemma fillInitNamespaceArguments_spec
    (params : list external.ArgMeta) (m : gmap string Z) :
  fillInitNamespaceArguments params m = Some (namespaceArgument m <$> params).
Proof.
  unfold fillInitNamespaceArguments. rewrite length_replicate.
  set (n := length params).
  set (step := λ (acc : option (list external.Argument)) (i : nat), _).
  assert (H : ∀ k : nat, (k ≤ n)%nat →
    foldl step (Some (replicate n zero_Argument)) (seq 0 k)
    = Some ((namespaceArgument m <$> take k params)
            ++ replicate (n - k) zero_Argument)).
  { induction k as [|k IH]; intros Hk.
    - simpl. rewrite Nat.sub_0_r. reflexivity.
    - rewrite seq_S, foldl_app, IH by lia. simpl.
      assert (Hlen : length (namespaceArgument m <$> take k params) = k)
        by (rewrite length_fmap, length_take; lia).
      destruct (lookup_lt_is_Some_2 params k ltac:(lia)) as [meta Hmeta].
      cbn [mbind option_bind].
      rewrite lookup_app_r by lia. rewrite Hlen, Nat.sub_diag.
      replace (n - k)%nat with (S (n - S k)) by lia.
      cbn [replicate lookup list_lookup]. rewrite Hmeta. cbn [mbind option_bind].
      f_equal.
      rewrite insert_app_r_alt by lia. rewrite Hlen, Nat.sub_diag.
      cbn [insert list_insert].
      rewrite (take_S_r _ _ _ Hmeta), fmap_app, <- app_assoc. reflexivity. }
  rewrite (H n) by lia.
  rewrite Nat.sub_diag, app_nil_r. unfold n. rewrite firstn_all. reflexivity.
Qed.

(** What [fetchInitNamespaces] records: an entry of the directory gets the
    number of its own link, a name that is no entry gets nothing. *)
Lemma fetchInitNamespaces_lookup (w : World) (name : string) :
  fetchInitNamespaces w !! name
  = if decide (name ∈ default [] (ReadDir w InitProcNsDir))
    then Some (namespaceNumberOf (linkStringOf w name))
    else None.
Proof.
  unfold fetchInitNamespaces.
  generalize (default [] (ReadDir w InitProcNsDir)). intros l.
  assert (H : ∀ acc : gmap string Z,
    foldl (λ (initNamespacesMap : gmap string Z) (namespaceLink : string),
             <[namespaceLink :=
                 namespaceNumberOf
                   (default "" (Readlink w (filepath_Join InitProcNsDir namespaceLink)))]>
               initNamespacesMap) acc l !! name
    = if decide (name ∈ l) then Some (namespaceNumberOf (linkStringOf w name))
      else acc !! name).
  { induction l as [|x l IH]; intros acc.
    - simpl. destruct (decide (name ∈ [])) as [Hin|]; [inversion Hin|reflexivity].
    - simpl. rewrite IH.
      destruct (decide (name ∈ l)) as [Hl|Hl].
      + rewrite decide_True by (right; exact Hl). reflexivity.
      + destruct (decide (x = name)) as [->|Hne].
        * rewrite decide_True by left. rewrite lookup_insert_eq. reflexivity.
        * rewrite lookup_insert_ne by exact Hne.
          rewrite decide_False; [reflexivity|].
          intros Hin. apply elem_of_cons in Hin as [->|Hin]; [apply Hne; reflexivity|contradiction]. }
  rewrite H. destruct (decide (name ∈ l)); [reflexivity|apply lookup_empty].
Qed.

Lemma initNamespacesParams_names :
  external.Name <$> initNamespacesParams
  = [ "cgroup"; "ipc"; "mnt"; "net"; "pid"; "pid_for_children"; "time";
      "time_for_children"; "user"; "uts" ].
Proof.
  unfold initNamespacesParams. rewrite EventsIDToParams_lookup.
  by_computation.
Qed.

Lemma initNamespacesParams_length : length initNamespacesParams = 10%nat.
Proof.
  rewrite <- (length_fmap external.Name), initNamespacesParams_names.
  reflexivity.
Qed.

(** The event that [CreateInitNamespacesEvent] returns: it never panics and
    its error is nil. *)
Lemma CreateInitNamespacesEvent_spec (w : World) :
  CreateInitNamespacesEvent w
  = Some ({| external.Timestamp := now_UnixNano w;
             external.ProcessName := "tracee-ebpf";
             external.EventID := 2000;
             external.EventName := "init_namespaces";
             external.ArgsNum := 10;
             external.Args :=
               namespaceArgument (fetchInitNamespaces w) <$> initNamespacesParams |},
          None).
Proof.
  unfold CreateInitNamespacesEvent, getInitNamespaceArguments.
  fold initNamespacesParams.
  rewrite fillInitNamespaceArguments_spec. cbn [mbind option_bind].
  rewrite length_fmap.
  rewrite initNamespacesParams_length, EventsIDToEvent_lookup.
  replace (rows_lookup InitNamespacesEventID EventsIDToEvent_rows)
    with (Some {| ID := Some InitNamespacesEventID;
                  ID32Bit := Some sys32undefined;
                  Name := "init_namespaces";
                  Probes := [];
                  EssentialEvent := false;
                  Sets := [] |})
    by by_computation.
  reflexivity.
Qed.

(** The value of the argument of an event looked up by any name. *)
Lemma argValue_namespaceArguments (ev : external.Event) (m : gmap string Z)
    (params : list external.ArgMeta) (name : string) :
  external.Args ev = namespaceArgument m <$> params →
  argValue ev name
  = if decide (name ∈ external.Name <$> params)
    then Some (default 0 (m !! name)) else None.
Proof.
  intros Hargs. unfold argValue. rewrite Hargs. clear Hargs.
  induction params as [|meta params IH].
  - rewrite decide_False by (intros H; inversion H). reflexivity.
  - rewrite !fmap_cons. cbn [list_find namespaceArgument external.Meta].
    destruct (decide (external.Name meta = name)) as [<- | Hne].
    + rewrite decide_True by left. reflexivity.
    + destruct (decide (name ∈ external.Name <$> params)) as [Hin | Hin].
      * rewrite decide_True by (right; exact Hin).
        destruct (list_find _ _) as [[i a]|]; [|discriminate IH].
        exact IH.
      * rewrite decide_False.
        -- destruct (list_find _ _) as [[i a]|]; [|reflexivity]. exact IH.
        -- intros H. apply elem_of_cons in H as [-> | H];
             [apply Hne; reflexivity | contradiction].
Qed.

(** C1: whatever the directory, [CreateInitNamespacesEvent] returns an event
    with exactly one argument per entry of the schema of
    [InitNamespacesEventID], in schema order; the value of each argument is
    the number that [fetchInitNamespaces] recorded under the name of the
    argument, and 0 when it recorded none; for a directory whose [pid] entry
    links to "pid:[12]" and whose [net] entry links to "net:[4026531840]" the
    [pid] argument is 12 and the [net] argument is 4026531840. *)
Theorem CreateInitNamespacesEvent_arguments (w : World) :
  ∃ ev : external.Event,
    CreateInitNamespacesEvent w = Some (ev, None)
    ∧ external.Meta <$> external.Args ev
      = default [] (EventsIDToParams !! InitNamespacesEventID)
    ∧ (λ a, external.Name (external.Meta a)) <$> external.Args ev
      = [ "cgroup"; "ipc"; "mnt"; "net"; "pid"; "pid_for_children"; "time";
          "time_for_children"; "user"; "uts" ]
    ∧ external.ArgsNum ev = Z.of_nat (length (external.Args ev))
    ∧ (∀ a : external.Argument,
         a ∈ external.Args ev →
         external.Value a
         = Some (default 0 (fetchInitNamespaces w
                              !! external.Name (external.Meta a))))
    ∧ (∀ a : external.Argument,
         a ∈ external.Args ev →
         fetchInitNamespaces w !! external.Name (external.Meta a) = None →
         external.Value a = Some 0)
    ∧ (∀ names : list string,
         ReadDir w InitProcNsDir = Some names →
         "pid" ∈ names → "net" ∈ names →
         Readlink w "/proc/1/ns/pid" = Some "pid:[12]" →
         Readlink w "/proc/1/ns/net" = Some "net:[4026531840]" →
         argValue ev "pid" = Some 12 ∧ argValue ev "net" = Some 4026531840).
Proof.
  eexists. split; [apply CreateInitNamespacesEvent_spec|].
  cbn [external.Args external.ArgsNum].
  assert (Hval : ∀ a : external.Argument,
    a ∈ namespaceArgument (fetchInitNamespaces w) <$> initNamespacesParams →
    external.Value a
    = Some (default 0 (fetchInitNamespaces w !! external.Name (external.Meta a)))).
  { intros a Ha. apply list_elem_of_fmap in Ha as (meta & -> & _). reflexivity. }
  split; [|split; [|split; [|split; [|split]]]].
  - rewrite <- list_fmap_compose. apply list_fmap_id.
  - rewrite <- list_fmap_compose. exact initNamespacesParams_names.
  - rewrite length_fmap, initNamespacesParams_length. reflexivity.
  - exact Hval.
  - intros a Ha Hnone. rewrite (Hval a Ha), Hnone. reflexivity.
  - intros names Hdir Hpid Hnet Lpid Lnet.
    rewrite !(argValue_namespaceArguments _ (fetchInitNamespaces w)
                initNamespacesParams) by reflexivity.
    rewrite initNamespacesParams_names.
    rewrite !decide_True by (by_evaluation).
    rewrite !fetchInitNamespaces_lookup, Hdir. cbn [default].
    rewrite !decide_True by assumption.
    unfold linkStringOf.
    change (filepath_Join InitProcNsDir "pid") with "/proc/1/ns/pid".
    change (filepath_Join InitProcNsDir "net") with "/proc/1/ns/net".
    rewrite Lpid, Lnet. split; by_computation.
Qed.

Lemma CreateInitNamespacesEvent_arguments_witness :
  ∃ ev : external.Event,
    CreateInitNamespacesEvent example_world = Some (ev, None)
    ∧ argValue ev "pid" = Some 12 ∧ argValue ev "net" = Some 4026531840.
Proof.
  destruct (CreateInitNamespacesEvent_arguments example_world)
    as (ev & Hev & _ & _ & _ & _ & _ & Hexample).
  exists ev. split; [exact Hev|].
  apply (Hexample ["net"; "pid"]);
    first [reflexivity | by_evaluation].
Defined.

(** C6: when the directory cannot be read at all, [CreateInitNamespacesEvent]
    still returns an event, with a nil error; the event has all the arguments
    of the schema and each of them has the value 0. *)
Theorem CreateInitNamespacesEvent_unreadable_directory (w : World) :
  ReadDir w InitProcNsDir = None →
  ∃ ev : external.Event,
    CreateInitNamespacesEvent w = Some (ev, None)
    ∧ external.Meta <$> external.Args ev = initNamespacesParams
    ∧ length (external.Args ev) = 10%nat
    ∧ (∀ a : external.Argument,
         a ∈ external.Args ev → external.Value a = Some 0).
Proof.
  intros Hdir. eexists. split; [apply CreateInitNamespacesEvent_spec|].
  cbn [external.Args].
  split; [rewrite <- list_fmap_compose; apply list_fmap_id|].
  split; [rewrite length_fmap; apply initNamespacesParams_length|].
  intros a Ha. apply list_elem_of_fmap in Ha as (meta & -> & _).
  unfold namespaceArgument. cbn [external.Value].
  rewrite fetchInitNamespaces_lookup, Hdir. cbn [default].
  rewrite decide_False by (intros Hin; inversion Hin). reflexivity.
Qed.

Lemma CreateInitNamespacesEvent_unreadable_directory_witness :
  ∃ ev : external.Event,
    CreateInitNamespacesEvent (unreadable_world 0) = Some (ev, None)
    ∧ external.Meta <$> external.Args ev = initNamespacesParams
    ∧ length (external.Args ev) = 10%nat
    ∧ (∀ a : external.Argument,
         a ∈ external.Args ev → external.Value a = Some 0).
Proof.
  apply (CreateInitNamespacesEvent_unreadable_directory (unreadable_world 0)).
  reflexivity.
Defined.

(** Worlds that agree on the directory give the same inventory. *)
Lemma fetchInitNamespaces_ext (w1 w2 : World) :
  ReadDir w1 InitProcNsDir = ReadDir w2 InitProcNsDir →
  (∀ name : string,
     name ∈ default [] (ReadDir w1 InitProcNsDir) →
     Readlink w1 (filepath_Join InitProcNsDir name)
     = Readlink w2 (filepath_Join InitProcNsDir name)) →
  fetchInitNamespaces w1 = fetchInitNamespaces w2.
Proof.
  intros Hdir Hlink. apply map_eq. intros name.
  rewrite !fetchInitNamespaces_lookup, <- Hdir.
  destruct (decide (name ∈ default [] (ReadDir w1 InitProcNsDir))) as [Hin|];
    [|reflexivity].
  unfold linkStringOf. rewrite (Hlink name Hin). reflexivity.
Qed.

(** C7, as stated, fails: the directory is the same at both calls and the
    two events differ, because each carries the time of its call. *)
Lemma CreateInitNamespacesEvent_calls_differ :
  ReadDir first_call_world InitProcNsDir = ReadDir second_call_world InitProcNsDir
  ∧ (∀ path : string,
       Readlink first_call_world path = Readlink second_call_world path)
  ∧ CreateInitNamespacesEvent first_call_world
    ≠ CreateInitNamespacesEvent second_call_world.
Proof.
  split; [reflexivity|]. split; [reflexivity|].
  rewrite !CreateInitNamespacesEvent_spec. intros H.
  apply (f_equal (λ r, external.Timestamp <$> (fst <$> r))) in H.
  change (Some 1 = Some 2) in H. discriminate H.
Qed.

(** C7, amended: two calls between which the directory (its listing and the
    links of its entries) is unchanged return events that agree in every
    field but [Timestamp], which is the clock reading of each call; the two
    events are equal when the two readings are. *)
Theorem CreateInitNamespacesEvent_repeatable_up_to_timestamp (w1 w2 : World) :
  ReadDir w1 InitProcNsDir = ReadDir w2 InitProcNsDir →
  (∀ name : string,
     name ∈ default [] (ReadDir w1 InitProcNsDir) →
     Readlink w1 (filepath_Join InitProcNsDir name)
     = Readlink w2 (filepath_Join InitProcNsDir name)) →
  ∃ ev1 ev2 : external.Event,
    CreateInitNamespacesEvent w1 = Some (ev1, None)
    ∧ CreateInitNamespacesEvent w2 = Some (ev2, None)
    ∧ external.Timestamp ev1 = now_UnixNano w1
    ∧ external.Timestamp ev2 = now_UnixNano w2
    ∧ external.ProcessName ev1 = external.ProcessName ev2
    ∧ external.EventID ev1 = external.EventID ev2
    ∧ external.EventName ev1 = external.EventName ev2
    ∧ external.ArgsNum ev1 = external.ArgsNum ev2
    ∧ external.Args ev1 = external.Args ev2
    ∧ (now_UnixNano w1 = now_UnixNano w2 → ev1 = ev2).
Proof.
  intros Hdir Hlink. do 2 eexists.
  split; [apply CreateInitNamespacesEvent_spec|].
  split; [apply CreateInitNamespacesEvent_spec|].
  cbn. rewrite (fetchInitNamespaces_ext w1 w2 Hdir Hlink).
  repeat (split; [reflexivity|]).
  intros ->. reflexivity.
Qed.

Lemma CreateInitNamespacesEvent_repeatable_up_to_timestamp_witness :
  ∃ ev1 ev2 : external.Event,
    CreateInitNamespacesEvent first_call_world = Some (ev1, None)
    ∧ CreateInitNamespacesEvent second_call_world = Some (ev2, None)
    ∧ external.Timestamp ev1 = 1 ∧ external.Timestamp ev2 = 2
    ∧ external.Args ev1 = external.Args ev2.
Proof.
  destruct (CreateInitNamespacesEvent_repeatable_up_to_timestamp
              first_call_world second_call_world)
    as (ev1 & ev2 & H1 & H2 & T1 & T2 & _ & _ & _ & _ & HA & _).
  - reflexivity.
  - intros name _. reflexivity.
  - exists ev1, ev2. repeat split; assumption.
Defined.

(** ** The text of a link: expression, trimming and parsing *)

Lemma is_digit_range (c : ascii) :
  is_digit c = true → 0 ≤ byte_of c - 48 ≤ 9.
Proof. unfold is_digit. intros H. apply andb_prop in H as [H1 H2]. lia. Qed.

Lemma is_digit_not_cutset (c : ascii) :
  is_digit c = true → strings_ContainsByte "[]:" c = false.
Proof.
  destruct c as [[] [] [] [] [] [] [] []]; vm_compute; congruence.
Qed.

Lemma append_nil_l (t : string) : "" +:+ t = t.
Proof. reflexivity. Qed.

Lemma append_String (a : ascii) (s t : string) :
  String a s +:+ t = String a (s +:+ t).
Proof. reflexivity. Qed.

Lemma substring_whole (s : string) : substring 0 (String.length s) s = s.
Proof.
  induction s as [|c s IH]; [reflexivity|].
  cbn [String.length substring]. rewrite IH. reflexivity.
Qed.

Lemma length_append (s t : string) :
  String.length (s +:+ t) = (String.length s + String.length t)%nat.
Proof.
  induction s as [|c s IH]; [reflexivity|].
  rewrite append_String. cbn [String.length]. rewrite IH. reflexivity.
Qed.

(** The star takes a whole run of digits when the byte after the run is
    outside the class and the rest of the expression matches there. *)
Lemma regexp_star_digits (rest : string → option nat) (ds : string)
    (a : ascii) (tail : string) (n : nat) :
  all_digits ds = true →
  Ascii.eqb a "[" || is_digit a = false →
  rest (String a tail) = Some n →
  regexp_star (λ c, Ascii.eqb c "[" || is_digit c) rest (ds +:+ String a tail)
  = Some (String.length ds + n)%nat.
Proof.
  intros Hds Ha Hrest. induction ds as [|c ds IH]; simpl.
  - rewrite Ha. exact Hrest.
  - simpl in Hds. apply andb_prop in Hds as [Hc Hds].
    rewrite Hc, orb_true_r, (IH Hds). reflexivity.
Qed.

(** In a link text of the form kind:[digits] the expression finds the part
    from the colon on. *)
Lemma regexp_FindString_kind_number (kind ds : string) :
  no_colon kind = true → all_digits ds = true →
  regexp_FindString namespaceValueReg (kind +:+ ":[" +:+ ds +:+ "]")
  = ":[" +:+ ds +:+ "]".
Proof.
  intros Hkind Hds. induction kind as [|c kind IH].
  - rewrite append_nil_l, !append_String, append_nil_l.
    cbn [regexp_FindString namespaceValueReg regexp_match_here].
    change (Ascii.eqb ":" ":") with true. cbn iota.
    cbn [regexp_star].
    change (Ascii.eqb "[" "[" || is_digit "[") with true. cbn iota.
    rewrite (regexp_star_digits _ ds "]" "" 1); [|exact Hds|reflexivity|reflexivity].
    cbn [fmap option_fmap option_map substring].
    replace (String.length ds + 1)%nat with (String.length (ds +:+ "]"))
      by (rewrite length_append; reflexivity).
    rewrite substring_whole. reflexivity.
  - simpl in Hkind. apply andb_prop in Hkind as [Hc Hkind].
    apply negb_true_iff in Hc.
    rewrite append_String.
    cbn [regexp_FindString namespaceValueReg regexp_match_here].
    rewrite Hc. exact (IH Hkind).
Qed.

(** Trimming the brackets and the colon leaves the digits. *)
Lemma strings_TrimRight_digits (ds : string) :
  all_digits ds = true → ds ≠ "" →
  strings_TrimRight (ds +:+ "]") "[]:" = ds.
Proof.
  induction ds as [|c ds IH]; intros Hds Hne; [congruence|].
  simpl in Hds. apply andb_prop in Hds as [Hc Hds].
  rewrite append_String. cbn [strings_TrimRight].
  destruct ds as [|d ds'].
  - rewrite append_nil_l.
    change (strings_TrimRight "]" "[]:") with "".
    cbn iota. rewrite (is_digit_not_cutset c Hc). reflexivity.
  - rewrite (IH Hds) by congruence. reflexivity.
Qed.

Lemma strings_Trim_kind_number (ds : string) :
  all_digits ds = true → ds ≠ "" →
  strings_Trim (":[" +:+ ds +:+ "]") "[]:" = ds.
Proof.
  intros Hds Hne. unfold strings_Trim.
  rewrite !append_String, append_nil_l. cbn [strings_TrimRight].
  rewrite (strings_TrimRight_digits ds Hds Hne).
  destruct ds as [|c ds']; [congruence|].
  simpl in Hds. apply andb_prop in Hds as [Hc _].
  cbn [strings_TrimLeft].
  change (strings_ContainsByte "[]:" ":") with true.
  change (strings_ContainsByte "[]:" "[") with true.
  cbn iota. rewrite (is_digit_not_cutset c Hc). reflexivity.
Qed.

Lemma trimOf_kind_number (kind ds : string) :
  no_colon kind = true → all_digits ds = true → ds ≠ "" →
  trimOf (kind +:+ ":[" +:+ ds +:+ "]") = ds.
Proof.
  intros Hkind Hds Hne. unfold trimOf.
  rewrite (regexp_FindString_kind_number kind ds Hkind Hds).
  exact (strings_Trim_kind_number ds Hds Hne).
Qed.

(** ** [ParseUint] on decimal digits *)

Lemma namespaceNumberOf_trimOf (linkString : string) :
  namespaceNumberOf linkString
  = uint32 (strconv_ParseUint (trimOf linkString) 10 32).1.
Proof. reflexivity. Qed.

Lemma strconv_ParseUint_10_32 (s : string) :
  s ≠ "" →
  strconv_ParseUint s 10 32
  = ParseUint_loop 10 1844674407370955162 4294967295 0 s.
Proof. intros Hne. destruct s as [|c s]; [congruence|]. reflexivity. Qed.

Lemma decimal_from_ge (n : Z) (ds : string) :
  all_digits ds = true → 0 ≤ n → n ≤ decimal_from n ds.
Proof.
  revert n. induction ds as [|c ds IH]; intros n Hds Hn; simpl; [lia|].
  simpl in Hds. apply andb_prop in Hds as [Hc Hds].
  pose proof (is_digit_range c Hc).
  specialize (IH (n * 10 + (byte_of c - 48)) Hds). lia.
Qed.

(** On digits the loop returns the number they denote as long as it fits in
    32 bits, and the largest [uint32] with a range error as soon as it does
    not. *)
Lemma ParseUint_loop_digits (n : Z) (ds : string) :
  all_digits ds = true → 0 ≤ n ≤ 4294967295 →
  ParseUint_loop 10 1844674407370955162 4294967295 n ds
  = if decide (decimal_from n ds ≤ 4294967295)
    then (decimal_from n ds, None)
    else (4294967295, Some ErrRange).
Proof.
  revert n. induction ds as [|c ds IH]; intros n Hds Hn.
  - simpl. rewrite decide_True by lia. reflexivity.
  - simpl in Hds. apply andb_prop in Hds as [Hc Hds].
    pose proof (is_digit_range c Hc) as Hd.
    cbn [ParseUint_loop decimal_from].
    unfold is_digit in Hc. rewrite Hc. cbn iota.
    set (d := byte_of c - 48) in *.
    rewrite (proj2 (Z.leb_gt 10 d)) by lia.
    rewrite (proj2 (Z.leb_gt 1844674407370955162 n)) by lia.
    rewrite (Z.mod_small (n * 10)) by lia.
    rewrite (Z.mod_small (n * 10 + d)) by lia.
    rewrite (proj2 (Z.ltb_ge (n * 10 + d) (n * 10))) by lia.
    cbn [orb].
    destruct (Z.ltb_spec 4294967295 (n * 10 + d)) as [Hbig | Hfit].
    + pose proof (decimal_from_ge (n * 10 + d) ds Hds ltac:(lia)).
      rewrite decide_False by lia. reflexivity.
    + apply IH; [exact Hds | lia].
Qed.

(** C10: when the link of a directory entry has the form kind:[digits] and
    the digits denote a number above 2^32 - 1, [ParseUint] reports a range
    error together with the value 4294967295, and [fetchInitNamespaces]
    records 4294967295, not 0, for the entry. *)
Theorem fetchInitNamespaces_saturates (w : World) (name kind digits : string) :
  name ∈ default [] (ReadDir w InitProcNsDir) →
  Readlink w (filepath_Join InitProcNsDir name)
  = Some (kind +:+ ":[" +:+ digits +:+ "]") →
  no_colon kind = true → all_digits digits = true →
  2 ^ 32 - 1 < decimal digits →
  trimOf (kind +:+ ":[" +:+ digits +:+ "]") = digits
  ∧ strconv_ParseUint digits 10 32 = (4294967295, Some ErrRange)
  ∧ fetchInitNamespaces w !! name = Some 4294967295.
Proof.
  intros Hin Hlink Hkind Hds Hbig.
  assert (Hne : digits ≠ "") by (intros ->; vm_compute in Hbig; discriminate).
  assert (Hparse : strconv_ParseUint digits 10 32 = (4294967295, Some ErrRange)).
  { rewrite (strconv_ParseUint_10_32 digits Hne).
    rewrite (ParseUint_loop_digits 0 digits Hds) by lia.
    unfold decimal in Hbig. rewrite decide_False by lia. reflexivity. }
  pose proof (trimOf_kind_number kind digits Hkind Hds Hne) as Htrim.
  split; [exact Htrim|]. split; [exact Hparse|].
  rewrite fetchInitNamespaces_lookup, decide_True by exact Hin.
  unfold linkStringOf. rewrite Hlink. cbn [from_option id].
  rewrite namespaceNumberOf_trimOf, Htrim, Hparse. reflexivity.
Qed.

Lemma fetchInitNamespaces_saturates_witness :
  strconv_ParseUint "4294967296" 10 32 = (4294967295, Some ErrRange)
  ∧ fetchInitNamespaces overflow_world !! "pid" = Some 4294967295.
Proof.
  refine (proj2 (fetchInitNamespaces_saturates overflow_world "pid" "pid"
                   "4294967296" _ _ _ _ _)).
  - by_evaluation.
  - reflexivity.
  - reflexivity.
  - reflexivity.
  - by_computation.
Defined.

(** ** Defects of a single entry *)

(** A syntax error of [ParseUint] always comes with the value 0. *)
Lemma ParseUint_loop_syntax_error (base cutoff maxVal n : Z) (s : string) :
  (ParseUint_loop base cutoff maxVal n s).2 = Some ErrSyntax →
  (ParseUint_loop base cutoff maxVal n s).1 = 0.
Proof.
  revert n. induction s as [|c s IH]; intros n; cbn [ParseUint_loop].
  - discriminate.
  - destruct ((48 <=? byte_of c) && (byte_of c <=? 57)).
    + destruct (base <=? byte_of c - 48); [reflexivity|].
      destruct (cutoff <=? n); [discriminate|].
      destruct (_ || _); [discriminate|]. apply IH.
    + destruct ((97 <=? lower (byte_of c)) && (lower (byte_of c) <=? 122));
        [|reflexivity].
      destruct (base <=? lower (byte_of c) - 97 + 10); [reflexivity|].
      destruct (cutoff <=? n); [discriminate|].
      destruct (_ || _); [discriminate|]. apply IH.
Qed.

Lemma strconv_ParseUint_syntax_error (s : string) (base bitSize : Z) :
  (strconv_ParseUint s base bitSize).2 = Some ErrSyntax →
  (strconv_ParseUint s base bitSize).1 = 0.
Proof.
  unfold strconv_ParseUint.
  destruct (String.eqb s ""); [reflexivity|].
  destruct (negb _); [reflexivity|].
  destruct (_ || _); [reflexivity|].
  apply ParseUint_loop_syntax_error.
Qed.

(** The number recorded for a defective entry is 0. *)
Lemma entry_defect_number (w : World) (name : string) :
  entry_defect w name → namespaceNumberOf (linkStringOf w name) = 0.
Proof.
  unfold linkStringOf. intros [Hlink | target Hlink Hfind | target Hlink Herr];
    rewrite Hlink; cbn [from_option id].
  - by_computation.
  - rewrite namespaceNumberOf_trimOf. unfold trimOf. rewrite Hfind.
    by_computation.
  - rewrite namespaceNumberOf_trimOf.
    rewrite (strconv_ParseUint_syntax_error _ _ _ Herr). reflexivity.
Qed.

(** C5, as stated, fails: the number between the brackets of the [pid] link
    of [overflow_world] cannot be parsed as a [uint32], and the [pid]
    argument is 4294967295, not 0. *)
Lemma unparsable_suffix_not_zeroed :
  "pid" ∈ default [] (ReadDir overflow_world InitProcNsDir)
  ∧ suffix_unparsable overflow_world "pid"
  ∧ ∃ ev : external.Event,
      CreateInitNamespacesEvent overflow_world = Some (ev, None)
      ∧ argValue ev "pid" = Some 4294967295
      ∧ argValue ev "pid" ≠ Some 0.
Proof.
  split; [by_evaluation|].
  split.
  - exists "pid:[4294967296]". split; [reflexivity|].
    exists ErrRange. by_computation.
  - eexists. split; [apply CreateInitNamespacesEvent_spec|].
    rewrite (argValue_namespaceArguments _ (fetchInitNamespaces overflow_world)
               initNamespacesParams "pid") by reflexivity.
    rewrite initNamespacesParams_names.
    rewrite decide_True by (by_evaluation).
    rewrite fetchInitNamespaces_lookup.
    rewrite decide_True by (by_evaluation).
    split; [by_computation | vm_compute; discriminate].
Qed.

(** C5, amended: when an entry of the directory is defective (its link
    cannot be read, or the expression finds no match in the link text, or
    the text between the brackets is not a number) the event is still
    returned with all the arguments of the schema; 0 is recorded for the
    entry and the argument of that name is 0; every other argument has the
    value of its own entry, the same as in any world that differs only in
    the link of the defective entry. *)
Theorem entry_defect_isolated (w : World) (names : list string) (name : string) :
  ReadDir w InitProcNsDir = Some names → name ∈ names → entry_defect w name →
  ∃ ev : external.Event,
    CreateInitNamespacesEvent w = Some (ev, None)
    ∧ external.Meta <$> external.Args ev = initNamespacesParams
    ∧ fetchInitNamespaces w !! name = Some 0
    ∧ (∀ a : external.Argument,
         a ∈ external.Args ev → external.Name (external.Meta a) = name →
         external.Value a = Some 0)
    ∧ (∀ a : external.Argument,
         a ∈ external.Args ev → external.Name (external.Meta a) ≠ name →
         external.Value a
         = Some (if decide (external.Name (external.Meta a) ∈ names)
                 then namespaceNumberOf
                        (linkStringOf w (external.Name (external.Meta a)))
                 else 0))
    ∧ (∀ w' : World,
         ReadDir w' InitProcNsDir = Some names →
         (∀ other : string,
            other ≠ name →
            Readlink w' (filepath_Join InitProcNsDir other)
            = Readlink w (filepath_Join InitProcNsDir other)) →
         ∃ ev' : external.Event,
           CreateInitNamespacesEvent w' = Some (ev', None)
           ∧ ∀ other : string,
               other ≠ name → argValue ev' other = argValue ev other).
Proof.
  intros Hdir Hin Hdefect.
  assert (Hlookup : ∀ n : string,
    fetchInitNamespaces w !! n
    = if decide (n ∈ names) then Some (namespaceNumberOf (linkStringOf w n))
      else None).
  { intros n. rewrite fetchInitNamespaces_lookup, Hdir. reflexivity. }
  assert (Hname : fetchInitNamespaces w !! name = Some 0).
  { rewrite Hlookup, decide_True by exact Hin.
    rewrite (entry_defect_number w name Hdefect). reflexivity. }
  eexists. split; [apply CreateInitNamespacesEvent_spec|].
  cbn [external.Args].
  split; [rewrite <- list_fmap_compose; apply list_fmap_id|].
  split; [exact Hname|].
  split; [|split].
  - intros a Ha Hn. apply list_elem_of_fmap in Ha as (meta & -> & _).
    cbn in Hn. subst name. unfold namespaceArgument. cbn [external.Value].
    rewrite Hname. reflexivity.
  - intros a Ha _. apply list_elem_of_fmap in Ha as (meta & -> & _).
    unfold namespaceArgument. cbn [external.Value external.Meta].
    rewrite Hlookup. destruct (decide (external.Name meta ∈ names)); reflexivity.
  - intros w' Hdir' Hlink'.
    eexists. split; [apply CreateInitNamespacesEvent_spec|].
    intros other Hother.
    rewrite (argValue_namespaceArguments _ (fetchInitNamespaces w')
               initNamespacesParams other) by reflexivity.
    rewrite (argValue_namespaceArguments _ (fetchInitNamespaces w)
               initNamespacesParams other) by reflexivity.
    rewrite Hlookup, fetchInitNamespaces_lookup, Hdir'. cbn [from_option id].
    unfold linkStringOf. rewrite (Hlink' other Hother). reflexivity.
Qed.

Lemma entry_defect_isolated_witness :
  ∃ ev : external.Event,
    CreateInitNamespacesEvent defects_world = Some (ev, None)
    ∧ fetchInitNamespaces defects_world !! "uts" = Some 0
    ∧ external.Meta <$> external.Args ev = initNamespacesParams.
Proof.
  destruct (entry_defect_isolated defects_world ["ipc"; "mnt"; "pid"; "uts"] "uts")
    as (ev & Hev & Hmeta & Huts & _).
  - reflexivity.
  - by_evaluation.
  - apply (suffix_syntax_error _ _ "uts:[12[34]"); [reflexivity|].
    by_computation.
  - exists ev. split; [exact Hev|]. split; [exact Huts | exact Hmeta].
Defined.

(** * Further properties of the init-namespaces event *)

(** X1: [fetchInitNamespaces] records a number under a name exactly when the
    directory lists the name, and the number is the one of the link of that
    entry; the text of an unreadable link is the empty string. *)
Theorem fetchInitNamespaces_records (w : World) (name : string) (v : Z) :
  fetchInitNamespaces w !! name = Some v
  ↔ name ∈ default [] (ReadDir w InitProcNsDir)
    ∧ v = namespaceNumberOf (linkStringOf w name).
Proof.
  rewrite fetchInitNamespaces_lookup.
  destruct (decide (name ∈ default [] (ReadDir w InitProcNsDir))) as [Hin | Hin].
  - split; [intros [= <-]; auto | intros [_ ->]; reflexivity].
  - split; [discriminate | intros [Hin' _]; contradiction].
Qed.

(** The value that [ParseUint] returns lies between 0 and the largest value
    of the requested size, whatever the text and the error. *)
Lemma ParseUint_loop_bounds (base cutoff maxVal n : Z) (s : string) :
  0 ≤ n ≤ maxVal →
  0 ≤ (ParseUint_loop base cutoff maxVal n s).1 ≤ maxVal.
Proof.
  revert n. induction s as [|c s IH]; intros n Hn; cbn [ParseUint_loop].
  - exact Hn.
  - destruct ((48 <=? byte_of c) && (byte_of c <=? 57)).
    + destruct (base <=? byte_of c - 48); [simpl; lia|].
      destruct (cutoff <=? n); [simpl; lia|].
      destruct (_ <? _) eqn:E1; [simpl; lia|].
      destruct (maxVal <? _) eqn:E2; [simpl; lia|].
      cbn [orb]. apply IH. apply Z.ltb_ge in E2.
      split; [apply Z.mod_pos_bound; lia | exact E2].
    + destruct ((97 <=? lower (byte_of c)) && (lower (byte_of c) <=? 122));
        [|simpl; lia].
      destruct (base <=? lower (byte_of c) - 97 + 10); [simpl; lia|].
      destruct (cutoff <=? n); [simpl; lia|].
      destruct (_ <? _) eqn:E1; [simpl; lia|].
      destruct (maxVal <? _) eqn:E2; [simpl; lia|].
      cbn [orb]. apply IH. apply Z.ltb_ge in E2.
      split; [apply Z.mod_pos_bound; lia | exact E2].
Qed.

Lemma strconv_ParseUint_32_bounds (s : string) :
  0 ≤ (strconv_ParseUint s 10 32).1 ≤ 4294967295.
Proof.
  destruct (decide (s = "")) as [-> | Hne]; [vm_compute; split; discriminate|].
  rewrite (strconv_ParseUint_10_32 s Hne).
  apply ParseUint_loop_bounds. lia.
Qed.

(** X2: the conversion to [uint32] in [fetchInitNamespaces] never truncates:
    the number recorded for a link is the value that [ParseUint] returned
    for the trimmed match, and it lies between 0 and 4294967295. *)
Theorem namespaceNumberOf_not_truncated (linkString : string) :
  namespaceNumberOf linkString
  = (strconv_ParseUint (trimOf linkString) 10 32).1
  ∧ 0 ≤ namespaceNumberOf linkString ≤ 4294967295.
Proof.
  rewrite namespaceNumberOf_trimOf. unfold uint32.
  pose proof (strconv_ParseUint_32_bounds (trimOf linkString)) as Hb.
  rewrite Z.mod_small by lia. split; [reflexivity | exact Hb].
Qed.

(** X3: the event conforms to its own schema for every directory: its name
    is the name that the registry gives to its identifier, its [ArgsNum] is
    the number of entries of the schema, and every argument is declared as
    a [u32] and holds a [uint32]. *)
Theorem CreateInitNamespacesEvent_conforms (w : World) :
  ∃ ev : external.Event,
    CreateInitNamespacesEvent w = Some (ev, None)
    ∧ external.EventID ev = 2000
    ∧ EventIDToName InitNamespacesEventID = Some (external.EventName ev)
    ∧ external.ArgsNum ev = Z.of_nat (length initNamespacesParams)
    ∧ (∀ a : external.Argument,
         a ∈ external.Args ev →
         external.Type_ (external.Meta a) = "u32"
         ∧ ∃ v : Z, external.Value a = Some v ∧ 0 ≤ v ≤ 4294967295).
Proof.
  eexists. split; [apply CreateInitNamespacesEvent_spec|].
  cbn [external.EventID external.EventName external.ArgsNum external.Args].
  split; [reflexivity|].
  split; [unfold EventIDToName; rewrite EventsIDToEvent_lookup; by_computation|].
  split; [rewrite initNamespacesParams_length; reflexivity|].
  intros a Ha. apply list_elem_of_fmap in Ha as (meta & -> & Hmeta).
  split.
  - assert (Hall : forallb (λ m, String.eqb (external.Type_ m) "u32")
                     initNamespacesParams = true)
      by (unfold initNamespacesParams; rewrite EventsIDToParams_lookup;
          by_computation).
    apply String.eqb_eq. exact (forallb_elem_of _ _ _ Hall Hmeta).
  - eexists. split; [reflexivity|].
    rewrite fetchInitNamespaces_lookup.
    destruct (decide (_ ∈ _)); cbn [from_option id]; [|lia].
    rewrite namespaceNumberOf_trimOf. unfold uint32.
    pose proof (strconv_ParseUint_32_bounds
                  (trimOf (linkStringOf w (external.Name meta)))) as Hb.
    rewrite Z.mod_small by lia. exact Hb.
Qed.

(** ** A well-formed link *)

Lemma substring_prefix (s t : string) :
  substring 0 (String.length s) (s +:+ t) = s.
Proof.
  induction s as [|c s IH].
  - rewrite append_nil_l. destruct t; reflexivity.
  - rewrite append_String. cbn [String.length substring].
    rewrite IH. reflexivity.
Qed.

Lemma append_assoc (s t u : string) : (s +:+ t) +:+ u = s +:+ t +:+ u.
Proof.
  induction s as [|c s IH]; [reflexivity|].
  rewrite !append_String, IH. reflexivity.
Qed.

(** The expression finds the first bracketed run whatever follows the
    closing bracket. *)
Lemma regexp_FindString_kind_number_rest (kind ds rest : string) :
  no_colon kind = true → all_digits ds = true →
  regexp_FindString namespaceValueReg (kind +:+ ":[" +:+ ds +:+ "]" +:+ rest)
  = ":[" +:+ ds +:+ "]".
Proof.
  intros Hkind Hds. induction kind as [|c kind IH].
  - rewrite append_nil_l, !append_String, !append_nil_l.
    cbn [regexp_FindString namespaceValueReg regexp_match_here].
    change (Ascii.eqb ":" ":") with true. cbn iota.
    cbn [regexp_star].
    change (Ascii.eqb "[" "[" || is_digit "[") with true. cbn iota.
    rewrite (regexp_star_digits _ ds "]" rest 1);
      [|exact Hds|reflexivity|reflexivity].
    cbn [fmap option_fmap option_map substring].
    replace (String.length ds + 1)%nat with (String.length (ds +:+ "]"))
      by (rewrite length_append; reflexivity).
    change (String "]" rest) with ("]" +:+ rest).
    rewrite <- append_assoc, substring_prefix. reflexivity.
  - simpl in Hkind. apply andb_prop in Hkind as [Hc Hkind].
    apply negb_true_iff in Hc.
    rewrite append_String.
    cbn [regexp_FindString namespaceValueReg regexp_match_here].
    rewrite Hc. exact (IH Hkind).
Qed.

(** X4: for a link of the form kind:[digits] followed by any text, where the
    kind holds no colon and the digits denote a number up to 2^32 - 1, the
    number recorded is the one the digits denote; leading zeros and the text
    after the closing bracket do not matter. *)
Theorem namespaceNumberOf_well_formed (kind digits rest : string) :
  no_colon kind = true → all_digits digits = true → digits ≠ "" →
  decimal digits ≤ 2 ^ 32 - 1 →
  namespaceNumberOf (kind +:+ ":[" +:+ digits +:+ "]" +:+ rest) = decimal digits.
Proof.
  intros Hkind Hds Hne Hfit.
  rewrite namespaceNumberOf_trimOf. unfold trimOf.
  rewrite (regexp_FindString_kind_number_rest kind digits rest Hkind Hds).
  rewrite (strings_Trim_kind_number digits Hds Hne).
  rewrite (strconv_ParseUint_10_32 digits Hne).
  rewrite (ParseUint_loop_digits 0 digits Hds) by lia.
  unfold decimal in Hfit. rewrite decide_True by lia.
  cbn [fst]. unfold uint32, decimal.
  pose proof (decimal_from_ge 0 digits Hds ltac:(lia)).
  apply Z.mod_small. lia.
Qed.

Lemma namespaceNumberOf_well_formed_witness :
  namespaceNumberOf "pid:[0012] (deleted)" = 12.
Proof.
  apply (namespaceNumberOf_well_formed "pid" "0012" " (deleted)");
    first [reflexivity | discriminate].
Defined.

(** ** What the event depends on *)

(** The arguments of the event as a function of the directory. *)
Lemma CreateInitNamespacesEvent_args_closed (w : World) :
  namespaceArgument (fetchInitNamespaces w) <$> initNamespacesParams
  = (λ meta, {| external.Meta := meta;
                external.Value := Some (namespaceValueIn w (external.Name meta)) |})
    <$> initNamespacesParams.
Proof.
  apply list_fmap_ext. intros i meta _.
  unfold namespaceArgument, namespaceValueIn.
  rewrite fetchInitNamespaces_lookup.
  destruct (decide (_ ∈ _)); reflexivity.
Qed.

(** X5: the arguments of the event depend on the ten namespace kinds of the
    schema only: two directories that list the same ones of these kinds,
    with the same links, give the same arguments, whatever other entries
    they hold. *)
Theorem CreateInitNamespacesEvent_other_entries_ignored (w1 w2 : World) :
  (∀ name : string,
     name ∈ external.Name <$> initNamespacesParams →
     (name ∈ default [] (ReadDir w1 InitProcNsDir)
      ↔ name ∈ default [] (ReadDir w2 InitProcNsDir))
     ∧ Readlink w1 (filepath_Join InitProcNsDir name)
       = Readlink w2 (filepath_Join InitProcNsDir name)) →
  ∃ ev1 ev2 : external.Event,
    CreateInitNamespacesEvent w1 = Some (ev1, None)
    ∧ CreateInitNamespacesEvent w2 = Some (ev2, None)
    ∧ external.Args ev1 = external.Args ev2.
Proof.
  intros Hsame. do 2 eexists.
  split; [apply CreateInitNamespacesEvent_spec|].
  split; [apply CreateInitNamespacesEvent_spec|].
  cbn [external.Args]. rewrite !CreateInitNamespacesEvent_args_closed.
  apply list_fmap_ext. intros i meta Hmeta. f_equal. f_equal.
  destruct (Hsame (external.Name meta)) as [Hlist Hlink].
  { apply list_elem_of_fmap. exists meta. split; [reflexivity|].
    apply list_elem_of_lookup. eauto. }
  unfold namespaceValueIn, linkStringOf. rewrite Hlink.
  destruct (decide (_ ∈ default [] (ReadDir w1 _))) as [H1 | H1];
    destruct (decide (_ ∈ default [] (ReadDir w2 _))) as [H2 | H2];
    try reflexivity.
  - exfalso. apply H2, Hlist, H1.
  - exfalso. apply H1, Hlist, H2.
Qed.

Lemma CreateInitNamespacesEvent_other_entries_ignored_witness :
  ∃ ev1 ev2 : external.Event,
    CreateInitNamespacesEvent crowded_world = Some (ev1, None)
    ∧ CreateInitNamespacesEvent example_world = Some (ev2, None)
    ∧ external.Args ev1 = external.Args ev2.
Proof.
  apply (CreateInitNamespacesEvent_other_entries_ignored
           crowded_world example_world).
  intros name Hname. rewrite initNamespacesParams_names in Hname.
  repeat (apply elem_of_cons in Hname as [-> | Hname];
          [split; [split; intros H; by_evaluation || (exfalso; revert H; by_evaluation)
                  | reflexivity]|]).
  inversion Hname.
Defined.

(** * Further properties of the registry and of the schema table *)

Lemma EventsIDToParams_row (id : EventID) (params : list external.ArgMeta) :
  EventsIDToParams !! id = Some params → (id, params) ∈ EventsIDToParams_rows.
Proof. rewrite EventsIDToParams_lookup. apply rows_lookup_elem_of. Qed.

Lemma memb_string (s : string) (l : list string) :
  memb String.eqb s l = true ↔ s ∈ l.
Proof. apply memb_elem_of, String.eqb_eq. Qed.

(** X6: the set "syscalls" is the syscall band: an event of the registry
    belongs to the set exactly when its identifier is a syscall
    identifier. *)
Theorem syscalls_set_is_syscall_band (id : EventID) (cfg : EventConfig) :
  EventsIDToEvent !! id = Some cfg →
  ("syscalls" ∈ Sets cfg ↔ syscall_band id = true).
Proof.
  intros H. apply EventsIDToEvent_row in H.
  assert (Hall : forallb
            (λ row : EventID * EventConfig,
               Bool.eqb (memb String.eqb "syscalls" (Sets row.2))
                 (syscall_band row.1))
            EventsIDToEvent_rows = true) by by_computation.
  pose proof (forallb_elem_of _ _ _ Hall H) as Hrow. cbn [fst snd] in Hrow.
  apply Bool.eqb_prop in Hrow. rewrite <- Hrow. symmetry. apply memb_string.
Qed.

Lemma syscalls_set_is_syscall_band_witness :
  ∃ cfg : EventConfig,
    EventsIDToEvent !! OpenEventID = Some cfg ∧ "syscalls" ∈ Sets cfg.
Proof.
  eexists.
  split; [rewrite EventsIDToEvent_lookup; by_computation|].
  eapply (syscalls_set_is_syscall_band OpenEventID);
    [rewrite EventsIDToEvent_lookup; by_computation | by_computation].
Defined.

(** X7: every syscall event is fed by exactly one probe, which intercepts
    the syscall and whose handler is named like its target, and no syscall
    event is essential. *)
Theorem syscall_event_single_probe (id : EventID) (cfg : EventConfig) :
  EventsIDToEvent !! id = Some cfg → syscall_band id = true →
  EssentialEvent cfg = false
  ∧ ∃ p : probe, Probes cfg = [p] ∧ attach p = sysCall ∧ fn p = event p.
Proof.
  intros H Hband. apply EventsIDToEvent_row in H.
  assert (Hall : forallb
            (λ row : EventID * EventConfig,
               implb (syscall_band row.1)
                 (negb (EssentialEvent row.2)
                  && match Probes row.2 with
                     | [p] =>
                         match attach p with sysCall => true | _ => false end
                         && String.eqb (fn p) (event p)
                     | _ => false
                     end))
            EventsIDToEvent_rows = true) by by_computation.
  pose proof (forallb_elem_of _ _ _ Hall H) as Hrow. cbn [fst snd] in Hrow.
  rewrite Hband in Hrow. cbn [implb] in Hrow.
  apply andb_prop in Hrow as [Hess Hp]. apply negb_true_iff in Hess.
  split; [exact Hess|].
  destruct (Probes cfg) as [|p [|q l]]; try discriminate Hp.
  apply andb_prop in Hp as [Ha Hf]. apply String.eqb_eq in Hf.
  exists p. split; [reflexivity|]. split; [|exact Hf].
  destruct (attach p); first [reflexivity | discriminate Ha].
Qed.

Lemma syscall_event_single_probe_witness :
  ∃ cfg : EventConfig,
    EventsIDToEvent !! StatEventID = Some cfg
    ∧ EssentialEvent cfg = false
    ∧ ∃ p : probe, Probes cfg = [p] ∧ attach p = sysCall ∧ fn p = event p.
Proof.
  eexists.
  split; [rewrite EventsIDToEvent_lookup; by_computation|].
  eapply (syscall_event_single_probe StatEventID);
    [rewrite EventsIDToEvent_lookup; by_computation | by_computation].
Defined.

(** X8: an event outside the syscall band has no 32-bit compatibility
    number (its [ID32Bit] is [sys32undefined]) and none of its probes
    intercepts a syscall. *)
Theorem non_syscall_event_no_compat (id : EventID) (cfg : EventConfig) :
  EventsIDToEvent !! id = Some cfg → syscall_band id = false →
  ID32Bit cfg = Some sys32undefined
  ∧ ∀ p : probe, p ∈ Probes cfg → attach p ≠ sysCall.
Proof.
  intros H Hband. apply EventsIDToEvent_row in H.
  assert (Hall : forallb
            (λ row : EventID * EventConfig,
               syscall_band row.1
               || (match ID32Bit row.2 with
                   | Some sys32undefined => true
                   | _ => false
                   end
                   && forallb
                        (λ p, match attach p with sysCall => false | _ => true end)
                        (Probes row.2)))
            EventsIDToEvent_rows = true) by by_computation.
  pose proof (forallb_elem_of _ _ _ Hall H) as Hrow. cbn [fst snd] in Hrow.
  rewrite Hband in Hrow. cbn [orb] in Hrow.
  apply andb_prop in Hrow as [Hc Hp]. split.
  - destruct (ID32Bit cfg) as [c|]; [|discriminate Hc].
    destruct c; first [reflexivity | discriminate Hc].
  - intros p Hin Ha. pose proof (forallb_elem_of _ _ _ Hp Hin) as Hq.
    cbn beta in Hq. rewrite Ha in Hq. discriminate Hq.
Qed.

Lemma non_syscall_event_no_compat_witness :
  ∃ cfg : EventConfig,
    EventsIDToEvent !! VfsWriteEventID = Some cfg
    ∧ ID32Bit cfg = Some sys32undefined
    ∧ ∀ p : probe, p ∈ Probes cfg → attach p ≠ sysCall.
Proof.
  eexists.
  split; [rewrite EventsIDToEvent_lookup; by_computation|].
  eapply (non_syscall_event_no_compat VfsWriteEventID);
    [rewrite EventsIDToEvent_lookup; by_computation | by_computation].
Defined.

(** The rows of the registry that carry a compatibility number. *)
Lemma EventsIDToEvent_compat_NoDup :
  NoDup
    ((λ row : EventID * EventConfig, ID32Bit row.2)
     <$> List.filter
           (λ row : EventID * EventConfig,
              match ID32Bit row.2 with
              | Some sys32undefined | None => false
              | Some _ => true
              end)
           EventsIDToEvent_rows).
Proof.
  apply (NoDup_fmap_1 (λ c : option Sys32, from_option Sys32_index 1%positive c)).
  apply (nodupb_NoDup Pos.eqb); [exact Pos.eqb_eq|]. by_computation.
Qed.

(** X9: the 32-bit compatibility numbers are not shared: two events of the
    registry with the same [ID32Bit], other than [sys32undefined], are the
    same event. *)
Theorem compat_id_not_shared (id1 id2 : EventID) (cfg1 cfg2 : EventConfig) :
  EventsIDToEvent !! id1 = Some cfg1 → EventsIDToEvent !! id2 = Some cfg2 →
  ID32Bit cfg1 = ID32Bit cfg2 → ID32Bit cfg1 ≠ Some sys32undefined →
  id1 = id2.
Proof.
  intros H1 H2 Heq Hdef.
  pose proof (EventsIDToEvent_ID32Bit_given id1 cfg1 H1) as [c Hc].
  apply EventsIDToEvent_row in H1, H2.
  set (keep := λ row : EventID * EventConfig,
                 match ID32Bit row.2 with
                 | Some sys32undefined | None => false
                 | Some _ => true
                 end).
  assert (K1 : keep (id1, cfg1) = true).
  { unfold keep. cbn [snd]. rewrite Hc in Hdef |- *.
    destruct c; first [reflexivity | exfalso; apply Hdef; reflexivity]. }
  assert (K2 : keep (id2, cfg2) = true).
  { unfold keep in *. cbn [snd] in *. rewrite <- Heq. exact K1. }
  assert (E : (id1, cfg1) = (id2, cfg2)).
  { apply (NoDup_fmap_eq (λ row : EventID * EventConfig, ID32Bit row.2)
             (List.filter keep EventsIDToEvent_rows)).
    - exact EventsIDToEvent_compat_NoDup.
    - apply list_elem_of_In, filter_In. split; [apply list_elem_of_In, H1 | exact K1].
    - apply list_elem_of_In, filter_In. split; [apply list_elem_of_In, H2 | exact K2].
    - exact Heq. }
  inversion E. reflexivity.
Qed.

Lemma compat_id_not_shared_witness :
  ∃ cfg : EventConfig,
    EventsIDToEvent !! ReadEventID = Some cfg
    ∧ ID32Bit cfg = Some sys32read ∧ ReadEventID = ReadEventID.
Proof.
  eexists.
  split; [rewrite EventsIDToEvent_lookup; by_computation|].
  split; [reflexivity|].
  eapply (compat_id_not_shared ReadEventID ReadEventID);
    [rewrite EventsIDToEvent_lookup; by_computation
    |rewrite EventsIDToEvent_lookup; by_computation
    |reflexivity
    |discriminate].
Defined.

(** X10: the essential events lie outside the syscall band and are attached
    through raw tracepoints only. *)
Theorem essential_event_raw_tracepoints (id : EventID) (cfg : EventConfig) :
  EventsIDToEvent !! id = Some cfg → EssentialEvent cfg = true →
  syscall_band id = false
  ∧ ∀ p : probe, p ∈ Probes cfg → attach p = rawTracepoint.
Proof.
  intros H Hess. apply EventsIDToEvent_row in H.
  assert (Hall : forallb
            (λ row : EventID * EventConfig,
               implb (EssentialEvent row.2)
                 (negb (syscall_band row.1)
                  && forallb
                       (λ p, match attach p with rawTracepoint => true | _ => false end)
                       (Probes row.2)))
            EventsIDToEvent_rows = true) by by_computation.
  pose proof (forallb_elem_of _ _ _ Hall H) as Hrow. cbn [fst snd] in Hrow.
  rewrite Hess in Hrow. cbn [implb] in Hrow.
  apply andb_prop in Hrow as [Hb Hp]. apply negb_true_iff in Hb.
  split; [exact Hb|].
  intros p Hin. pose proof (forallb_elem_of _ _ _ Hp Hin) as Hq.
  cbn beta in Hq. destruct (attach p); first [reflexivity | discriminate Hq].
Qed.

Lemma essential_event_raw_tracepoints_witness :
  ∃ cfg : EventConfig,
    EventsIDToEvent !! CgroupMkdirEventID = Some cfg
    ∧ syscall_band CgroupMkdirEventID = false
    ∧ ∀ p : probe, p ∈ Probes cfg → attach p = rawTracepoint.
Proof.
  eexists.
  split; [rewrite EventsIDToEvent_lookup; by_computation|].
  eapply (essential_event_raw_tracepoints CgroupMkdirEventID);
    [rewrite EventsIDToEvent_lookup; by_computation | reflexivity].
Defined.

(** X11: the events of the registry that no probe feeds are [magic_write],
    [init_namespaces] and [socket_dup], and no other. *)
Theorem events_without_probe_exactly (id : EventID) (cfg : EventConfig) :
  EventsIDToEvent !! id = Some cfg →
  (Probes cfg = [] ↔ id ∈ events_without_probe).
Proof.
  intros H. apply EventsIDToEvent_row in H.
  assert (Hall : forallb
            (λ row : EventID * EventConfig,
               Bool.eqb
                 match Probes row.2 with [] => true | _ :: _ => false end
                 (memb EventID_eqb row.1 events_without_probe))
            EventsIDToEvent_rows = true) by by_computation.
  pose proof (forallb_elem_of _ _ _ Hall H) as Hrow. cbn [fst snd] in Hrow.
  apply Bool.eqb_prop in Hrow.
  rewrite <- (memb_elem_of EventID_eqb EventID_eqb_eq), <- Hrow.
  destruct (Probes cfg); split; congruence.
Qed.

Lemma events_without_probe_exactly_witness :
  ∃ cfg : EventConfig,
    EventsIDToEvent !! SocketDupEventID = Some cfg ∧ Probes cfg = [].
Proof.
  eexists.
  split; [rewrite EventsIDToEvent_lookup; by_computation|].
  eapply (events_without_probe_exactly SocketDupEventID);
    [rewrite EventsIDToEvent_lookup; by_computation | by_evaluation].
Defined.

(** X12: the sets are nested: an event that belongs to a sub-set of "fs",
    "proc", "net", "ipc", "time" or "system" (a set whose name is the name of
    one of these followed by an underscore and more) belongs to that set as
    well. *)
Theorem sub_set_within_domain
    (id : EventID) (cfg : EventConfig) (domain set : string) :
  EventsIDToEvent !! id = Some cfg →
  domain ∈ set_domains → set ∈ Sets cfg →
  String.prefix (domain +:+ "_") set = true →
  domain ∈ Sets cfg.
Proof.
  intros H Hd Hs Hpre. apply EventsIDToEvent_row in H.
  assert (Hall : forallb
            (λ row : EventID * EventConfig,
               forallb
                 (λ d, forallb
                         (λ s, implb (String.prefix (d +:+ "_") s)
                                 (memb String.eqb d (Sets row.2)))
                         (Sets row.2))
                 set_domains)
            EventsIDToEvent_rows = true) by by_computation.
  pose proof (forallb_elem_of _ _ _ Hall H) as Hrow. cbn [snd] in Hrow.
  pose proof (forallb_elem_of _ _ _ Hrow Hd) as Hdom. cbn beta in Hdom.
  pose proof (forallb_elem_of _ _ _ Hdom Hs) as Hset. cbn beta in Hset.
  rewrite Hpre in Hset. cbn [implb] in Hset.
  apply memb_string. exact Hset.
Qed.

Lemma sub_set_within_domain_witness :
  ∃ cfg : EventConfig,
    EventsIDToEvent !! OpenEventID = Some cfg
    ∧ "fs_file_ops" ∈ Sets cfg ∧ "fs" ∈ Sets cfg.
Proof.
  eexists.
  split; [rewrite EventsIDToEvent_lookup; by_computation|].
  split; [by_evaluation|].
  eapply (sub_set_within_domain OpenEventID _ "fs" "fs_file_ops");
    [rewrite EventsIDToEvent_lookup; by_computation
    |by_evaluation | by_evaluation | reflexivity].
Defined.

(** X13: the schema table describes registered events only: every
    identifier with an entry in [EventsIDToParams] is a key of
    [EventsIDToEvent]. *)
Theorem schema_entry_is_registered (id : EventID) :
  is_Some (EventsIDToParams !! id) → is_Some (EventsIDToEvent !! id).
Proof.
  rewrite EventsIDToParams_lookup, EventsIDToEvent_lookup.
  intros [ps H]. apply rows_lookup_elem_of in H.
  assert (Hall : forallb
            (λ row : EventID * list external.ArgMeta,
               memb EventID_eqb row.1 EventsIDToEvent_rows.*1)
            EventsIDToParams_rows = true) by by_computation.
  pose proof (forallb_elem_of _ _ _ Hall H) as Hrow. cbn [fst] in Hrow.
  apply rows_lookup_is_Some. exact Hrow.
Qed.

Lemma schema_entry_is_registered_witness :
  is_Some (EventsIDToEvent !! SocketDupEventID).
Proof.
  apply schema_entry_is_registered.
  rewrite EventsIDToParams_lookup. apply rows_lookup_is_Some. by_computation.
Defined.

(** X14: within the schema of an event no argument name occurs twice, and
    no argument has an empty name or an empty type. *)
Theorem schema_argument_names_unique
    (id : EventID) (params : list external.ArgMeta) :
  EventsIDToParams !! id = Some params →
  NoDup (external.Name <$> params)
  ∧ ∀ meta : external.ArgMeta,
      meta ∈ params → external.Name meta ≠ "" ∧ external.Type_ meta ≠ "".
Proof.
  intros H. apply EventsIDToParams_row in H.
  assert (Hall : forallb
            (λ row : EventID * list external.ArgMeta,
               nodupb String.eqb (external.Name <$> row.2)
               && forallb
                    (λ meta, negb (String.eqb (external.Name meta) "")
                             && negb (String.eqb (external.Type_ meta) ""))
                    row.2)
            EventsIDToParams_rows = true) by by_computation.
  pose proof (forallb_elem_of _ _ _ Hall H) as Hrow. cbn [snd] in Hrow.
  apply andb_prop in Hrow as [Hnd Hne]. split.
  - apply (nodupb_NoDup String.eqb); [exact String.eqb_eq | exact Hnd].
  - intros meta Hin. pose proof (forallb_elem_of _ _ _ Hne Hin) as Hm.
    cbn beta in Hm. apply andb_prop in Hm as [Hn Ht].
    apply negb_true_iff in Hn, Ht.
    split; intros E; rewrite E in *; discriminate.
Qed.

Lemma schema_argument_names_unique_witness :
  ∃ params : list external.ArgMeta,
    EventsIDToParams !! MmapEventID = Some params
    ∧ NoDup (external.Name <$> params).
Proof.
  eexists.
  split; [rewrite EventsIDToParams_lookup; by_computation|].
  eapply (schema_argument_names_unique MmapEventID).
  rewrite EventsIDToParams_lookup. by_computation.
Defined.

(** X15: the schema of a syscall event has at most six arguments. *)
Theorem syscall_schema_at_most_six
    (id : EventID) (params : list external.ArgMeta) :
  EventsIDToParams !! id = Some params → syscall_band id = true →
  (length params ≤ 6)%nat.
Proof.
  intros H Hband. apply EventsIDToParams_row in H.
  assert (Hall : forallb
            (λ row : EventID * list external.ArgMeta,
               implb (syscall_band row.1) (Nat.leb (length row.2) 6))
            EventsIDToParams_rows = true) by by_computation.
  pose proof (forallb_elem_of _ _ _ Hall H) as Hrow. cbn [fst snd] in Hrow.
  rewrite Hband in Hrow. cbn [implb] in Hrow.
  apply Nat.leb_le. exact Hrow.
Qed.

Lemma syscall_schema_at_most_six_witness :
  ∃ params : list external.ArgMeta,
    EventsIDToParams !! MmapEventID = Some params ∧ (length params ≤ 6)%nat.
Proof.
  eexists.
  split; [rewrite EventsIDToParams_lookup; by_computation|].
  eapply (syscall_schema_at_most_six MmapEventID);
    [rewrite EventsIDToParams_lookup; by_computation | by_computation].
Defined.

(** * Further properties of the constants *)

(** X16: the identifiers declared in this file fill two separate bands: the
    non-syscall events take the values 1000, 1001, ... in declaration order,
    [MaxEventID] is no key of the registry and bounds the value of every
    registered non-syscall event from above, and the user-space event
    [InitNamespacesEventID], of value 2000, lies above [MaxEventID]. *)
Theorem event_id_bands :
  common_event_block.*2 = seqZ 1000 33
  ∧ EventsIDToEvent !! MaxEventID = None
  ∧ (∀ id : EventID,
       id ∈ common_event_names → id ≠ MaxEventID →
       is_Some (EventsIDToEvent !! id)
       ∧ 1000 ≤ const_value common_event_block id
         < const_value common_event_block MaxEventID)
  ∧ const_value common_event_block MaxEventID
    < const_value user_event_block InitNamespacesEventID
  ∧ const_value user_event_block InitNamespacesEventID = 2000.
Proof.
  split; [reflexivity|].
  split; [rewrite EventsIDToEvent_lookup; by_computation|].
  split; [|split; by_computation].
  intros id Hin Hne.
  assert (Hall : forallb
            (λ k : EventID,
               EventID_eqb k MaxEventID
               || (memb EventID_eqb k EventsIDToEvent_rows.*1
                   && (1000 <=? const_value common_event_block k)
                   && (const_value common_event_block k
                       <? const_value common_event_block MaxEventID)))
            common_event_names = true) by by_computation.
  pose proof (forallb_elem_of _ _ _ Hall Hin) as Hrow. cbn beta in Hrow.
  apply orb_prop in Hrow as [Hmax | Hrow].
  - apply EventID_eqb_eq in Hmax. contradiction.
  - apply andb_prop in Hrow as [Hrow Hlt]. apply andb_prop in Hrow as [Hkey Hle].
    split.
    + rewrite EventsIDToEvent_lookup. apply rows_lookup_is_Some. exact Hkey.
    + split; lia.
Qed.

Lemma event_id_bands_witness :
  is_Some (EventsIDToEvent !! SocketDupEventID)
  ∧ 1000 ≤ const_value common_event_block SocketDupEventID
    < const_value common_event_block MaxEventID.
Proof.
  apply (proj1 (proj2 (proj2 event_id_bands)) SocketDupEventID);
    [by_evaluation | discriminate].
Defined.

(** X17: the argument type tags [noneT] ... [argsArrT] take, in declaration
    order, the values 0, 1, ..., 17: [noneT] is 0, every tag fits the [uint8]
    of [argType] and no two tags share a value. *)
Theorem argType_dense_from_zero :
  argType <$> argType_names = seqZ 0 18
  ∧ (∀ t : argTypeName, t ∈ argType_names)
  ∧ argType noneT = 0
  ∧ (∀ t : argTypeName, 0 ≤ argType t < 2 ^ 8)
  ∧ (∀ t1 t2 : argTypeName, argType t1 = argType t2 → t1 = t2).
Proof.
  split; [reflexivity|].
  split; [intros []; by_evaluation|].
  split; [reflexivity|].
  split; [intros []; vm_compute; (split; [discriminate | reflexivity])|].
  intros [] []; vm_compute; first [reflexivity | discriminate].
Qed.

Lemma argType_dense_from_zero_witness :
  argType strT = argType strT ∧ strT = strT.
Proof.
  split; [reflexivity|].
  apply (proj2 (proj2 (proj2 (proj2 argType_dense_from_zero)))).
  reflexivity.
Defined.

(** X18: the binary data types [sendVfsWrite], [sendMprotect],
    [sendKernelModule] take the values 1, 2, 3: no type has the value 0 and
    no two types share a value. *)
Theorem binType_dense_from_one :
  binType <$> binType_names = seqZ 1 3
  ∧ (∀ b : binTypeName, b ∈ binType_names)
  ∧ (∀ b : binTypeName, 1 ≤ binType b ≤ 3)
  ∧ (∀ b1 b2 : binTypeName, binType b1 = binType b2 → b1 = b2).
Proof.
  split; [reflexivity|].
  split; [intros []; by_evaluation|].
  split; [intros []; vm_compute; split; discriminate|].
  intros [] []; vm_compute; first [reflexivity | discriminate].
Qed.

Lemma binType_dense_from_one_witness :
  binType sendMprotect = binType sendMprotect ∧ sendMprotect = sendMprotect.
Proof.
  split; [reflexivity|].
  apply (proj2 (proj2 (proj2 binType_dense_from_one))).
  reflexivity.
Defined.

(** X19: the comparison slots come in pairs: the slots take the values 0 to
    7 in declaration order, every "less" slot has an even value and the
    "greater" slot of the same field is the next value. *)
Theorem inequality_slots_paired :
  inequalityIndex <$> inequality_names = seqZ 0 8
  ∧ (∀ c : inequalityName, c ∈ inequality_names)
  ∧ (∀ less greater : inequalityName,
       (less, greater) ∈ [ (uidLess, uidGreater); (pidLess, pidGreater);
                           (mntNsLess, mntNsGreater);
                           (pidNsLess, pidNsGreater) ] →
       Z.even (inequalityIndex less) = true
       ∧ inequalityIndex greater = inequalityIndex less + 1).
Proof.
  split; [reflexivity|].
  split; [intros []; by_evaluation|].
  intros less greater Hin.
  repeat (apply elem_of_cons in Hin as [[= -> ->] | Hin];
          [split; reflexivity|]).
  inversion Hin.
Qed.

Lemma inequality_slots_paired_witness :
  Z.even (inequalityIndex mntNsLess) = true
  ∧ inequalityIndex mntNsGreater = inequalityIndex mntNsLess + 1.
Proof.
  apply (proj2 (proj2 inequality_slots_paired)). by_evaluation.
Defined.
